(** * E-commerce synthetic data pipeline: generator, validator, ingestion

    A shallow embedding of
      - scripts/advanced_data_generator.py  (AdvancedEcommerceDataGenerator),
      - generate_synthetic_data.py          (generate_quick_data),
      - scripts/advanced_ingestion.py       (AdvancedDataIngestor, main),
      - run_complete_pipeline.py            (run_command, main),
    followed by the properties of the data they produce.

    Conventions of the embedding:
      - Python [float] values are modelled by exact rationals [Q]; [round(x, 2)]
        is rounding to the nearest hundredth, ties to even.
      - a [DataFrame] is the list of its rows, each row a record with the
        columns of the frame; the empty list stands for a frame with these
        columns and no rows, as filtering a frame gives. (A frame that
        [pd.DataFrame] builds from an empty list of dicts has no columns, and
        reading one of it raises KeyError: where a statement is about such
        tables it asks for a row.)
      - numpy's random sources and Faker are interfaces (type classes): a state
        and draws that return a value and the next state, with the ranges the
        libraries document; the code is a state-and-exception monad over them;
      - Python exceptions are the [Raise] results of that monad. *)

From Stdlib Require Import Ascii String QArith Qround Qabs Lqa.
From stdpp Require Import base numbers strings pretty option gmap list.

Open Scope Z_scope.

(** ** Exceptions and results *)

Inductive exn :=
  | TypeError
  | ValueError
  | IndexError
  | AssertionError
  | SystemExit (code : Z)
  | OtherError.

Inductive result (A : Type) :=
  | Ok (a : A)
  | Raise (e : exn).
Arguments Ok {A} a.
Arguments Raise {A} e.

(** ** datetime.date, datetime.datetime, datetime.timedelta *)

(** A [date] is its proleptic Gregorian ordinal ([date.toordinal()]). *)
Record date := mk_date { toordinal : Z }.

(** A [datetime] is a day ordinal and a second of that day. *)
Record datetime := mk_datetime { dt_ordinal : Z; dt_second : Z }.

(** A [timedelta], normalised as Python does: [0 <= td_seconds < 86400]. *)
Record timedelta := mk_timedelta { td_days : Z; td_seconds : Z }.

Definition _days_before_year (year : Z) : Z :=
  let y := year - 1 in y * 365 + y / 4 - y / 100 + y / 400.

Definition _is_leap (year : Z) : bool :=
  (year mod 4 =? 0) && (negb (year mod 100 =? 0) || (year mod 400 =? 0)).

Definition _DAYS_IN_MONTH (month : Z) : Z :=
  match month with
  | 1 => 31 | 2 => 28 | 3 => 31 | 4 => 30 | 5 => 31 | 6 => 30
  | 7 => 31 | 8 => 31 | 9 => 30 | 10 => 31 | 11 => 30 | 12 => 31
  | _ => -1
  end.

Definition _DAYS_BEFORE_MONTH (month : Z) : Z :=
  match month with
  | 1 => 0 | 2 => 31 | 3 => 59 | 4 => 90 | 5 => 120 | 6 => 151
  | 7 => 181 | 8 => 212 | 9 => 243 | 10 => 273 | 11 => 304 | 12 => 334
  | _ => -1
  end.

Definition _days_before_month (year month : Z) : Z :=
  _DAYS_BEFORE_MONTH month + (if (2 <? month) && _is_leap year then 1 else 0).

Definition _ymd2ord (year month day : Z) : Z :=
  _days_before_year year + _days_before_month year month + day.

(** [datetime._ord2ymd]: ordinal to (year, month, day). *)
Definition _ord2ymd (n0 : Z) : Z * Z * Z :=
  let n := n0 - 1 in
  let n400 := n / 146097 in
  let n := n mod 146097 in
  let year := n400 * 400 + 1 in
  let n100 := n / 36524 in
  let n := n mod 36524 in
  let n4 := n / 1461 in
  let n := n mod 1461 in
  let n1 := n / 365 in
  let n := n mod 365 in
  let year := year + n100 * 100 + n4 * 4 + n1 in
  if (n1 =? 4) || (n100 =? 4) then (year - 1, 12, 31)
  else
    let leapyear := (n1 =? 3) && (negb (n4 =? 24) || (n100 =? 3)) in
    let month := Z.shiftr (n + 50) 5 in
    let preceding :=
      _DAYS_BEFORE_MONTH month + (if (2 <? month) && leapyear then 1 else 0) in
    if n <? preceding then
      let month := month - 1 in
      let preceding :=
        preceding - (_DAYS_IN_MONTH month
                     + (if (month =? 2) && leapyear then 1 else 0)) in
      (year, month, n - preceding + 1)
    else (year, month, n - preceding + 1).

(** [datetime(year, month, day)]: midnight of that day. *)
Definition datetime_ymd (year month day : Z) : datetime :=
  mk_datetime (_ymd2ord year month day) 0.

Definition dt_weekday (t : datetime) : Z := (dt_ordinal t + 6) mod 7.
Definition dt_month (t : datetime) : Z := (_ord2ymd (dt_ordinal t)).1.2.
Definition dt_date (t : datetime) : date := mk_date (dt_ordinal t).

(** Seconds since the start of ordinal day 0; datetimes compare as these do. *)
Definition dt_stamp (t : datetime) : Z := dt_ordinal t * 86400 + dt_second t.

Definition dt_le (a b : datetime) : bool := dt_stamp a <=? dt_stamp b.
Definition dt_lt (a b : datetime) : Prop := dt_stamp a < dt_stamp b.

Definition timedelta_of (days hours : Z) : timedelta :=
  let s := hours * 3600 in mk_timedelta (days + s / 86400) (s mod 86400).

(** What the generator passes as [hours]: a Python [int], or the
    [numpy.int64] that [Generator.integers] returns. *)
Inductive pynumber :=
  | PyInt (z : Z)
  | NumpyInt64 (z : Z).

(** [timedelta(hours=h)]: the constructor takes Python ints and floats; a
    numpy integer is neither, and the call raises TypeError (unsupported type
    for timedelta hours component). *)
Definition timedelta_hours (h : pynumber) : result timedelta :=
  match h with
  | PyInt z => Ok (timedelta_of 0 z)
  | NumpyInt64 _ => Raise TypeError
  end.

(** [t + delta] *)
Definition dt_add (t : datetime) (d : timedelta) : datetime :=
  let s := dt_second t + td_seconds d in
  mk_datetime (dt_ordinal t + td_days d + s / 86400) (s mod 86400).

(** [t - delta] *)
Definition dt_minus (t : datetime) (d : timedelta) : datetime :=
  let s := dt_second t - td_seconds d in
  mk_datetime (dt_ordinal t - td_days d + s / 86400) (s mod 86400).

(** [a - b] for two datetimes *)
Definition dt_diff (a b : datetime) : timedelta :=
  let s := dt_second a - dt_second b in
  mk_timedelta (dt_ordinal a - dt_ordinal b + s / 86400) (s mod 86400).

(** The operands of Python's binary [-] that occur in the generator. *)
Inductive pytime :=
  | PyDate (d : date)
  | PyDateTime (t : datetime).

(** [a - b]: defined between two datetimes and between two dates; Python has
    no subtraction between a [datetime] and a [date] (both [__sub__] and
    [__rsub__] return NotImplemented), so that raises TypeError. *)
Definition py_sub (a b : pytime) : result timedelta :=
  match a, b with
  | PyDateTime x, PyDateTime y => Ok (dt_diff x y)
  | PyDate x, PyDate y => Ok (mk_timedelta (toordinal x - toordinal y) 0)
  | _, _ => Raise TypeError
  end.

(** ** Rounding *)

Definition Qltb (x y : Q) : bool := (Qnum x * QDen y <? Qnum y * QDen x)%Z.
Definition Qleb (x y : Q) : bool := (Qnum x * QDen y <=? Qnum y * QDen x)%Z.

(** Nearest integer, ties to the even one. *)
Definition round_half_even (x : Q) : Z :=
  let f := Qfloor x in
  match (x - inject_Z f ?= 1 # 2)%Q with
  | Lt => f
  | Gt => f + 1
  | Eq => if Z.even f then f else f + 1
  end.

(** [round(x, 2)] *)
Definition round2 (x : Q) : Q := round_half_even (x * 100) # 100.

(** [round(x, 3)] *)
Definition round3 (x : Q) : Q := round_half_even (x * 1000) # 1000.

(** [sum(xs)] accumulated from 0, left to right, as [total += x] does. *)
Definition Qsum (xs : list Q) : Q := fold_left Qplus xs 0%Q.

(** ** str helpers *)

Definition is_lower (c : ascii) : bool :=
  let n := nat_of_ascii c in (97 <=? n)%nat && (n <=? 122)%nat.
Definition is_upper (c : ascii) : bool :=
  let n := nat_of_ascii c in (65 <=? n)%nat && (n <=? 90)%nat.
Definition to_upper (c : ascii) : ascii :=
  if is_lower c then ascii_of_nat (nat_of_ascii c - 32) else c.
Definition to_lower (c : ascii) : ascii :=
  if is_upper c then ascii_of_nat (nat_of_ascii c + 32) else c.

(** [s.title()] on ASCII text: a letter that follows a letter is lowered,
    any other letter is raised. *)
Fixpoint title_from (prev_cased : bool) (s : string) : string :=
  match s with
  | EmptyString => EmptyString
  | String c rest =>
      let cased := is_lower c || is_upper c in
      String (if cased then (if prev_cased then to_lower c else to_upper c) else c)
             (title_from cased rest)
  end.
Definition title (s : string) : string := title_from false s.

(** [s[:n]] *)
Definition str_prefix (n : nat) (s : string) : string := substring 0 n s.

(** ** The random sources *)

(** A numpy random source: [np.random.default_rng(seed)] (a [Generator]) or
    the module-level legacy functions after [np.random.seed(seed)]. Every draw
    returns its value and the advanced state. The range laws are those of the
    numpy documentation; [integers]/[randint] exclude the upper bound. *)
Class NumpyRandom := {
  bit_state : Type;
  seeded : Z → bit_state;
  draw_random : bit_state → Q * bit_state;
  draw_integers : Z → Z → bit_state → Z * bit_state;
  draw_uniform : Q → Q → bit_state → Q * bit_state;
  draw_normal : Q → Q → bit_state → Q * bit_state;
  draw_poisson : Q → bit_state → nat * bit_state;
  draw_choice : nat → bit_state → nat * bit_state;
  draw_random_range : ∀ g, (0 <= (draw_random g).1)%Q ∧ ((draw_random g).1 < 1)%Q;
  draw_integers_range : ∀ lo hi g, lo < hi → lo ≤ (draw_integers lo hi g).1 < hi;
  draw_uniform_range : ∀ lo hi g, (lo < hi)%Q →
    (lo <= (draw_uniform lo hi g).1)%Q ∧ ((draw_uniform lo hi g).1 < hi)%Q;
  draw_choice_range : ∀ n g, (0 < n)%nat → ((draw_choice n g).1 < n)%nat
}.

(** What Faker accepts where a date is expected. *)
Inductive date_parse :=
  | DateOf (t : datetime)        (* a datetime object *)
  | DaysAgo (n : Z)              (* the string '-<n>d' *)
  | Today.                       (* the string 'today' *)

Definition _parse_date (now : datetime) (v : date_parse) : date :=
  match v with
  | DateOf t => dt_date t
  | DaysAgo n => mk_date (dt_ordinal now - n)
  | Today => dt_date now
  end.

(** Faker's providers over its shared random instance, which [Faker.seed]
    re-seeds for every [Faker] object of the process. [date_between] returns a
    [datetime.date]; [date_time_between] returns a [datetime.datetime]. *)
Class FakerSource := {
  faker_state : Type;
  faker_seeded : Z → faker_state;
  fake_first_name : faker_state → string * faker_state;
  fake_last_name : faker_state → string * faker_state;
  fake_email : faker_state → string * faker_state;
  fake_country : faker_state → string * faker_state;
  fake_city : faker_state → string * faker_state;
  fake_word : faker_state → string * faker_state;
  fake_company : faker_state → string * faker_state;
  fake_uuid4 : faker_state → string * faker_state;
  fake_date_between : date → date → faker_state → date * faker_state;
  fake_date_time_between : datetime → datetime → faker_state → datetime * faker_state
}.

(** ** The tables *)

Record Customer := mk_customer {
  c_customer_id : Z;
  c_first_name : string;
  c_last_name : string;
  c_email : string;
  c_signup_date : date;
  c_customer_tier : string;
  c_country : string;
  c_city : string;
  c_loyalty_score : Q;
  c_is_active : bool
}.

Record Product := mk_product {
  p_product_id : Z;
  p_product_name : string;
  p_category : string;
  p_subcategory : string;
  p_price : Q;
  p_cost_price : Q;
  p_stock_quantity : Z;
  p_supplier : string;
  p_creation_date : date;
  p_is_active : bool
}.

Record Order := mk_order {
  o_order_id : Z;
  o_customer_id : Z;
  o_order_date : datetime;
  o_status : string;
  o_shipping_country : string;
  o_shipping_city : string;
  o_total_amount : Q
}.

Record OrderItem := mk_order_item {
  oi_order_item_id : Z;
  oi_order_id : Z;
  oi_product_id : Z;
  oi_quantity : Z;
  oi_unit_price : Q;
  oi_subtotal : Q
}.

Record Payment := mk_payment {
  pay_payment_id : Z;
  pay_order_id : Z;
  pay_payment_method : string;
  pay_amount : Q;
  pay_payment_status : string;
  pay_payment_date : datetime;
  pay_transaction_id : string;
  pay_risk_score : Q
}.

(** The dict returned by [generate_all_data]. *)
Record Datasets := mk_datasets {
  customers : list Customer;
  products : list Product;
  orders : list Order;
  order_items : list OrderItem;
  payments : list Payment
}.

(** [self.config] *)
Record Config := mk_config {
  customer_count : nat;
  product_count : nat;
  order_count : nat;
  date_range : datetime * datetime;
  price_range : Q * Q;
  categories : list string;
  payment_methods : list string;
  order_statuses : list string
}.

Definition config : Config := {|
  customer_count := 300;
  product_count := 150;
  order_count := 800;
  date_range := (datetime_ymd 2023 1 1, datetime_ymd 2024 1 1);
  price_range := (5, 500)%Q;
  categories := ["Electronics"; "Clothing"; "Home & Garden"; "Books"; "Sports"; "Beauty"];
  payment_methods := ["credit_card"; "debit_card"; "paypal"; "apple_pay"];
  order_statuses := ["pending"; "processing"; "shipped"; "delivered"; "cancelled"]
|}.

(** ** The state-and-exception monad *)

Definition M (S A : Type) : Type := S → result (A * S).

#[export] Instance result_ret : MRet result := λ A a, Ok a.
#[export] Instance result_bind : MBind result := λ A B f r,
  match r with Ok a => f a | Raise e => Raise e end.

#[export] Instance M_ret {S} : MRet (M S) := λ A a s, Ok (a, s).
#[export] Instance M_bind {S} : MBind (M S) := λ A B f m s,
  match m s with Ok (a, s') => f a s' | Raise e => Raise e end.

Definition lift_result {S A} (r : result A) : M S A := λ s,
  match r with Ok a => Ok (a, s) | Raise e => Raise e end.

(** [for i in range(start, start + n): acc = body(i, acc)] *)
Fixpoint for_range {S A} (n : nat) (i : Z) (body : Z → A → M S A) (acc : A) : M S A :=
  match n with
  | O => mret acc
  | Datatypes.S n' => acc' ← body i acc; for_range n' (i + 1) body acc'
  end.

(** [for x in xs: acc = body(x, acc)] *)
Fixpoint for_each {S A B} (xs : list B) (body : B → A → M S A) (acc : A) : M S A :=
  match xs with
  | [] => mret acc
  | x :: xs' => acc' ← body x acc; for_each xs' body acc'
  end.

(** [xs[i]] and [df.iloc[i]]: a negative index counts from the end. *)
Definition py_index {A} (xs : list A) (i : Z) : result A :=
  let j := if i <? 0 then i + Z.of_nat (length xs) else i in
  if j <? 0 then Raise IndexError
  else match xs !! Z.to_nat j with
       | Some x => Ok x
       | None => Raise IndexError
       end.

(** [min(a, b)] of Python: the first of the smallest. *)
Definition py_min (a b : Q) : Q := if Qltb b a then b else a.

Definition assert_ (b : bool) : result unit :=
  if b then Ok () else Raise AssertionError.

(** ** AdvancedEcommerceDataGenerator *)

Section AdvancedGenerator.
Context {G : NumpyRandom} {F : FakerSource}.

(** The generator object's [self.rng] and the random instance behind
    [self.fake]. *)
Record GenState := mk_gen_state {
  rng : bit_state;
  fake : faker_state
}.

#[local] Abbreviation Gen := (M GenState).

Definition with_rng {A} (draw : bit_state → A * bit_state) : Gen A := λ w,
  let '(x, g) := draw (rng w) in Ok (x, mk_gen_state g (fake w)).

Definition with_fake {A} (draw : faker_state → A * faker_state) : Gen A := λ w,
  let '(x, f) := draw (fake w) in Ok (x, mk_gen_state (rng w) f).

Definition rng_random : Gen Q := with_rng draw_random.
Definition rng_normal (loc scale : Q) : Gen Q := with_rng (draw_normal loc scale).
Definition rng_uniform (low high : Q) : Gen Q := with_rng (draw_uniform low high).
Definition rng_poisson (lam : Q) : Gen nat := with_rng (draw_poisson lam).

(** [rng.integers(low, high)]: ValueError when [low >= high]. *)
Definition rng_integers (low high : Z) : Gen Z :=
  if bool_decide (low < high) then with_rng (draw_integers low high)
  else λ _, Raise ValueError.

(** [rng.choice(xs)]: ValueError on an empty sequence. *)
Definition rng_choice {A} (xs : list A) : Gen A :=
  match xs with
  | [] => λ _, Raise ValueError
  | _ => i ← with_rng (draw_choice (length xs));
         lift_result (py_index xs (Z.of_nat i))
  end.

(** [__init__(seed)]: [np.random.default_rng(seed)] and [Faker.seed(seed)].
    The argument [shared] is the state of Faker's shared random instance
    when the object is built; seeding replaces it. *)
Definition __init__ (seed : Z) (shared : faker_state) : GenState :=
  mk_gen_state (seeded seed) (faker_seeded seed).

Definition generate_customers : Gen (list Customer) :=
  for_range (customer_count config) 0 (λ i customers,
    signup_date ← with_fake (fake_date_between
      (_parse_date (date_range config).2
         (DateOf (dt_minus (date_range config).1 (timedelta_of 365 0))))
      (_parse_date (date_range config).2 (DateOf (date_range config).2)));
    (* (self.config['date_range'][1] - signup_date).days *)
    delta ← lift_result (py_sub (PyDateTime (date_range config).2) (PyDate signup_date));
    let days_since_signup := td_days delta in
    let tier_probability := py_min (8 # 10) (inject_Z days_since_signup / 365) in
    r ← rng_random;
    let tier := if Qltb r (tier_probability * (3 # 10)) then "premium" else "standard" in
    first_name ← with_fake fake_first_name;
    last_name ← with_fake fake_last_name;
    email ← with_fake fake_email;
    country ← with_fake fake_country;
    city ← with_fake fake_city;
    loyalty_score ← rng_normal 50 20;
    a ← rng_random;
    mret (customers ++ [mk_customer (i + 1) first_name last_name email signup_date
                          tier country city loyalty_score (Qltb (1 # 10) a)])) [].

Definition price_multipliers : gmap string Q :=
  list_to_map [("Electronics", 12 # 10); ("Beauty", 11 # 10); ("Clothing", 1);
               ("Sports", 9 # 10); ("Home & Garden", 8 # 10); ("Books", 7 # 10)]%Q.

Definition stock_ranges (expensive : bool) : gmap string (Z * Z) :=
  list_to_map [("Electronics", if expensive then (5, 50) else (10, 100));
               ("Clothing", (20, 200)); ("Books", (50, 500)); ("Sports", (10, 100));
               ("Home & Garden", (15, 150)); ("Beauty", (25, 250))].

Definition generate_products : Gen (list Product) :=
  for_range (product_count config) 0 (λ i products,
    category ← rng_choice (categories config);
    base_price ← rng_uniform (price_range config).1 (price_range config).2;
    let price := round2 (base_price * default 1%Q (price_multipliers !! category)) in
    let expensive := Qltb 100 price in
    let '(stock_min, stock_max) :=
      default (10, 100) (stock_ranges expensive !! category) in
    stock_quantity ← rng_integers stock_min stock_max;
    w1 ← with_fake fake_word;
    w2 ← with_fake fake_word;
    subcategory ← with_fake fake_word;
    margin ← rng_uniform (3 # 10) (7 # 10);
    supplier ← with_fake fake_company;
    creation_date ← with_fake (fake_date_between
      (_parse_date (date_range config).2 (DateOf (datetime_ymd 2022 1 1)))
      (_parse_date (date_range config).2 (DateOf (date_range config).2)));
    a ← rng_random;
    mret (products ++ [mk_product (i + 1) (title w1 +:+ " " +:+ title w2) category
                         subcategory price (round2 (price * margin)) stock_quantity
                         supplier creation_date (Qltb (5 # 100) a)])) [].

(** The locals the order loop updates: the two row lists and the two
    counters. *)
Record OrderAcc := mk_acc {
  acc_orders : list Order;
  acc_items : list OrderItem;
  acc_order_id : Z;
  acc_item_id : Z
}.

(** [status_idx = min(4, max(0, 4 - days_ago // 7))] *)
Definition status_idx (days_ago : Z) : Z := Z.min 4 (Z.max 0 (4 - days_ago / 7)).

Definition days_ago (current_date : datetime) : Z :=
  td_days (dt_diff (date_range config).2 current_date).

(** One pass of [for _ in range(num_items)]; the accumulator is
    [(order_items, item_id, order_total)]. *)
Definition generate_item (active_products : list Product) (order_id : Z)
    (acc : list OrderItem * Z * Q) : Gen (list OrderItem * Z * Q) :=
  let '(order_items, item_id, order_total) := acc in
  k ← rng_integers 0 (Z.of_nat (length active_products));
  product ← lift_result (py_index active_products k);
  quantity ← rng_integers 1 3;
  discount ← rng_uniform (8 # 10) 1;
  let actual_price := (p_price product * discount)%Q in
  mret (order_items ++ [mk_order_item item_id order_id (p_product_id product) quantity
                          (round2 actual_price)
                          (round2 (inject_Z quantity * actual_price))],
        item_id + 1,
        (order_total + inject_Z quantity * actual_price)%Q).

(** One pass of [for _ in range(daily_orders)]. *)
Definition generate_order (active_customers : list Customer)
    (active_products : list Product) (current_date : datetime)
    (acc : OrderAcc) : Gen OrderAcc :=
  k ← rng_integers 0 (Z.of_nat (length active_customers));
  customer ← lift_result (py_index active_customers k);
  (* status_weights = [0.05, 0.1, 0.3, 0.5, 0.05] is assigned here and never read *)
  status ← lift_result (py_index (order_statuses config)
                          (status_idx (days_ago current_date)));
  num_items ← rng_integers 1 5;
  '(order_items, item_id, order_total) ←
    for_range (Z.to_nat num_items) 0
      (λ _, generate_item active_products (acc_order_id acc))
      (acc_items acc, acc_item_id acc, 0%Q);
  let order := mk_order (acc_order_id acc) (c_customer_id customer) current_date status
                 (c_country customer) (c_city customer) (round2 order_total) in
  mret (mk_acc (acc_orders acc ++ [order]) order_items (acc_order_id acc + 1) item_id).

(** The body of [while current_date <= end] for one day. *)
Definition generate_day (active_customers : list Customer)
    (active_products : list Product) (current_date : datetime)
    (acc : OrderAcc) : Gen OrderAcc :=
  let day_of_week := dt_weekday current_date in
  let month := dt_month current_date in
  let base_orders_per_day :=
    2 + (if 5 <=? day_of_week then 1 else 0)
      + (if (month =? 11) || (month =? 12) then 1 else 0) in
  daily_orders ← rng_poisson (inject_Z base_orders_per_day);
  for_range daily_orders 0
    (λ _, generate_order active_customers active_products current_date) acc.

(** [while current_date <= end: ...; current_date += timedelta(days=1)],
    unrolled on the number of days left in the range (the guard holds
    exactly that many times, see [days_in_range_guard]). *)
Fixpoint day_loop (days_left : nat) (active_customers : list Customer)
    (active_products : list Product) (current_date : datetime)
    (acc : OrderAcc) : Gen OrderAcc :=
  match days_left with
  | O => mret acc
  | Datatypes.S n =>
      acc' ← generate_day active_customers active_products current_date acc;
      day_loop n active_customers active_products
        (dt_add current_date (timedelta_of 1 0)) acc'
  end.

Definition days_in_range : nat :=
  Z.to_nat (td_days (dt_diff (date_range config).2 (date_range config).1) + 1).

Definition generate_orders_and_items (customers : list Customer)
    (products : list Product) : Gen (list Order * list OrderItem) :=
  let active_customers := filter (λ c, c_is_active c = true) customers in
  let active_products := filter (λ p, p_is_active p = true) products in
  acc ← day_loop days_in_range active_customers active_products
          (date_range config).1 (mk_acc [] [] 1 1);
  mret (acc_orders acc, acc_items acc).

(** One pass of [for _, order in orders.iterrows()]; the accumulator is
    [(payments, payment_id)]. The hours come from [self.rng.integers(1, 24)],
    a [numpy.int64], and go to [timedelta(hours=...)] as they are. *)
Definition generate_payment (order : Order) (acc : list Payment * Z)
    : Gen (list Payment * Z) :=
  let '(payments, payment_id) := acc in
  hours ← rng_integers 1 24;
  delta ← lift_result (timedelta_hours (NumpyInt64 hours));
  let payment_date := dt_add (o_order_date order) delta in
  payment_status ←
    (if String.eqb (o_status order) "cancelled"
     then r ← rng_random; mret (if Qltb (1 # 2) r then "refunded" else "failed")
     else r ← rng_random; mret (if Qltb (5 # 100) r then "completed" else "failed"));
  payment_method ← rng_choice (payment_methods config);
  uuid ← with_fake fake_uuid4;
  risk_score ← rng_normal (1 # 10) (3 # 10);
  mret (payments ++ [mk_payment payment_id (o_order_id order) payment_method
                       (o_total_amount order) payment_status payment_date
                       (str_prefix 16 uuid) risk_score],
        payment_id + 1).

Definition generate_payments (orders : list Order) : Gen (list Payment) :=
  acc ← for_each orders generate_payment ([], 1);
  mret acc.1.

Definition id_set (ids : list Z) : gset Z := list_to_set ids.

(** The seven assertions, over columns of the five frames. The frames are
    taken with their columns: on a frame that has none, as [pd.DataFrame]
    builds from an empty list, the first column that is read raises KeyError
    instead. *)
Definition _validate_data_integrity (customers : list Customer)
    (products : list Product) (orders : list Order)
    (order_items : list OrderItem) (payments : list Payment) : result unit :=
  (* Check foreign key relationships *)
  _ ← assert_ (bool_decide (id_set (o_customer_id <$> orders)
                             ⊆ id_set (c_customer_id <$> customers)));
  _ ← assert_ (bool_decide (id_set (oi_order_id <$> order_items)
                             ⊆ id_set (o_order_id <$> orders)));
  _ ← assert_ (bool_decide (id_set (oi_product_id <$> order_items)
                             ⊆ id_set (p_product_id <$> products)));
  _ ← assert_ (bool_decide (id_set (pay_order_id <$> payments)
                             ⊆ id_set (o_order_id <$> orders)));
  (* Check for negative values *)
  _ ← assert_ (forallb (λ it, 0 <? oi_quantity it) order_items);
  _ ← assert_ (forallb (λ it, Qleb 0 (oi_unit_price it)) order_items);
  _ ← assert_ (forallb (λ p, Qltb 0 (p_price p)) products);
  mret ().

(** The end of [generate_all_data], from [# Data validation] on: the call
    of the validator on the five frames, then the dict that is returned. *)
Definition validated_datasets (customers : list Customer) (products : list Product)
    (orders : list Order) (order_items : list OrderItem) (payments : list Payment)
    : result Datasets :=
  (* Data validation *)
  _ ← _validate_data_integrity customers products orders order_items payments;
  mret (mk_datasets customers products orders order_items payments).

Definition generate_all_data : Gen Datasets :=
  customers ← generate_customers;
  products ← generate_products;
  '(orders, order_items) ← generate_orders_and_items customers products;
  payments ← generate_payments orders;
  lift_result (validated_datasets customers products orders order_items payments).

(** [main()]: build the generator with seed 42 and generate; on success the
    five tables are what is written to [data/<name>.csv], an exception is
    logged and raised again. *)
Definition generate_with (seed : Z) (shared : faker_state) : result Datasets :=
  '(datasets, _) ← generate_all_data (__init__ seed shared);
  mret datasets.

Definition main (shared : faker_state) : result Datasets := generate_with 42 shared.

End AdvancedGenerator.

(** ** generate_quick_data *)

(** [[draw() for _ in range(n)]], and numpy's [size=n] draws. *)
Fixpoint repeat_draw {S A} (n : nat) (draw : M S A) : M S (list A) :=
  match n with
  | O => mret []
  | Datatypes.S n' => x ← draw; xs ← repeat_draw n' draw; mret (x :: xs)
  end.

(** Row [i] of a frame built from columns: the column's [i]-th value. *)
Definition cell {A} (d : A) (col : list A) (i : nat) : A := nth i col d.

Section QuickGenerator.
Context {L : NumpyRandom} {F : FakerSource}.

(** The process state [generate_quick_data] works on: numpy's module-level
    random state, Faker's shared random instance and the clock. *)
Record QuickState := mk_quick_state {
  np_random : bit_state;
  faker_random : faker_state;
  clock : datetime
}.

#[local] Abbreviation Quick := (M QuickState).

Definition with_np {A} (draw : bit_state → A * bit_state) : Quick A := λ w,
  let '(x, g) := draw (np_random w) in
  Ok (x, mk_quick_state g (faker_random w) (clock w)).

Definition with_faker {A} (draw : faker_state → A * faker_state) : Quick A := λ w,
  let '(x, f) := draw (faker_random w) in
  Ok (x, mk_quick_state (np_random w) f (clock w)).

(** [datetime.now()] *)
Definition datetime_now : Quick datetime := λ w, Ok (clock w, w).

(** [np.random.seed(seed)] and [Faker.seed(seed)] *)
Definition seed_all (seed : Z) : Quick unit := λ w,
  Ok ((), mk_quick_state (seeded seed) (faker_seeded seed) (clock w)).

(** [np.random.randint(low, high)]: ValueError when [low >= high]. *)
Definition np_randint (low high : Z) : Quick Z :=
  if bool_decide (low < high) then with_np (draw_integers low high)
  else λ _, Raise ValueError.

(** [np.random.choice(xs, p=...)], one draw. *)
Definition np_choice {A} (xs : list A) : Quick A :=
  match xs with
  | [] => λ _, Raise ValueError
  | _ => i ← with_np (draw_choice (length xs));
         lift_result (py_index xs (Z.of_nat i))
  end.

Definition fake_date_between_quick (start_date end_date : date_parse) : Quick date :=
  now ← datetime_now;
  with_faker (fake_date_between (_parse_date now start_date) (_parse_date now end_date)).

(** The order-items loop: [for order_id in range(1, 101)] with its inner
    [for _ in range(num_items)]; the accumulator is [(order_items, item_id)]. *)
Definition quick_item (products : list Product) (order_id : Z)
    (acc : list OrderItem * Z) : Quick (list OrderItem * Z) :=
  let '(order_items, item_id) := acc in
  product_id ← np_randint 1 31;
  quantity ← np_randint 1 3;
  let product_row := filter (λ p, p_product_id p = product_id) products in
  match product_row with
  | p :: _ =>
      let unit_price := p_price p in
      mret (order_items ++ [mk_order_item item_id order_id product_id quantity
                              unit_price (round2 (inject_Z quantity * unit_price))],
            item_id + 1)
  | [] => mret (order_items, item_id)
  end.

Definition quick_order_items (products : list Product) (order_id : Z)
    (acc : list OrderItem * Z) : Quick (list OrderItem * Z) :=
  num_items ← np_randint 1 4;
  for_range (Z.to_nat num_items) 0 (λ _, quick_item products order_id) acc.

(** The [customers] frame, column by column. *)
Definition quick_customers : Quick (list Customer) :=
  first_name ← repeat_draw 50 (with_faker fake_first_name);
  last_name ← repeat_draw 50 (with_faker fake_last_name);
  email ← repeat_draw 50 (with_faker fake_email);
  signup_date ← repeat_draw 50 (fake_date_between_quick (DaysAgo 365) Today);
  customer_tier ← repeat_draw 50 (np_choice ["standard"; "premium"]);
  country ← repeat_draw 50 (with_faker fake_country);
  city ← repeat_draw 50 (with_faker fake_city);
  loyalty_score ← repeat_draw 50 (with_np (draw_normal 50 20));
  is_active ← repeat_draw 50 (np_choice [true; false]);
  mret ((λ i,
    mk_customer (Z.of_nat i + 1) (cell "" first_name i) (cell "" last_name i)
      (cell "" email i) (cell (mk_date 0) signup_date i) (cell "" customer_tier i)
      (cell "" country i) (cell "" city i) (cell 0%Q loyalty_score i)
      (cell false is_active i)) <$> seq 0 50).

(** The [products] frame. *)
Definition quick_products : Quick (list Product) :=
  product_name ← repeat_draw 30
    (w1 ← with_faker fake_word; w2 ← with_faker fake_word;
     mret (title w1 +:+ " " +:+ title w2));
  category ← repeat_draw 30
    (np_choice ["Electronics"; "Clothing"; "Home & Garden"; "Books"]);
  subcategory ← repeat_draw 30 (with_faker fake_word);
  price ← repeat_draw 30 (with_np (draw_uniform 10 200));
  cost_price ← repeat_draw 30 (with_np (draw_uniform 5 100));
  stock_quantity ← repeat_draw 30 (np_randint 10 100);
  supplier ← repeat_draw 30 (with_faker fake_company);
  creation_date ← repeat_draw 30 (fake_date_between_quick (DaysAgo 730) Today);
  is_active ← repeat_draw 30 (np_choice [true; false]);
  mret ((λ i,
    mk_product (Z.of_nat i + 1) (cell "" product_name i) (cell "" category i)
      (cell "" subcategory i) (round2 (cell 0%Q price i))
      (round2 (cell 0%Q cost_price i)) (cell 0 stock_quantity i)
      (cell "" supplier i) (cell (mk_date 0) creation_date i)
      (cell false is_active i)) <$> seq 0 30).

(** The [orders] frame. *)
Definition quick_orders : Quick (list Order) :=
  end_date ← datetime_now;
  let start_date := dt_minus end_date (timedelta_of 180 0) in
  customer_id ← repeat_draw 100 (np_randint 1 51);
  order_date ← repeat_draw 100 (with_faker (fake_date_time_between start_date end_date));
  status ← repeat_draw 100
    (np_choice ["pending"; "processing"; "shipped"; "delivered"; "cancelled"]);
  shipping_country ← repeat_draw 100 (with_faker fake_country);
  shipping_city ← repeat_draw 100 (with_faker fake_city);
  total_amount ← repeat_draw 100 (with_np (draw_uniform 20 500));
  mret ((λ i,
    mk_order (Z.of_nat i + 1) (cell 0 customer_id i) (cell (mk_datetime 0 0) order_date i)
      (cell "" status i) (cell "" shipping_country i) (cell "" shipping_city i)
      (round2 (cell 0%Q total_amount i))) <$> seq 0 100).

(** The [payments] frame: [amount] and [payment_date] are the columns
    [total_amount] and [order_date] of [orders]. *)
Definition quick_payments (orders : list Order) : Quick (list Payment) :=
  payment_method ← repeat_draw 100 (np_choice ["credit_card"; "debit_card"; "paypal"]);
  payment_status ← repeat_draw 100 (np_choice ["completed"; "failed"; "refunded"]);
  transaction_id ← repeat_draw 100 (with_faker fake_uuid4);
  risk_score ← repeat_draw 100 (with_np (draw_normal (1 # 10) (3 # 10)));
  mret ((λ i,
    mk_payment (Z.of_nat i + 1) (Z.of_nat i + 1) (cell "" payment_method i)
      (cell 0%Q (o_total_amount <$> orders) i) (cell "" payment_status i)
      (cell (mk_datetime 0 0) (o_order_date <$> orders) i)
      (str_prefix 16 (cell "" transaction_id i)) (round3 (cell 0%Q risk_score i)))
    <$> seq 0 100).

(** [generate_quick_data()], one step per frame it builds. *)
Definition generate_quick_data : Quick Datasets :=
  _ ← seed_all 42;
  customers ← quick_customers;
  products ← quick_products;
  orders ← quick_orders;
  '(order_items, _) ← for_range 100 1 (quick_order_items products) ([], 1);
  payments ← quick_payments orders;
  mret (mk_datasets customers products orders order_items payments).

End QuickGenerator.

(** ** AdvancedDataIngestor *)

Module Ingestion.

(** A value read by [pd.read_csv]; [Null] is NaN/None. *)
Inductive cell :=
  | Null
  | IntCell (z : Z)
  | FloatCell (q : Q)
  | BoolCell (b : bool)
  | StrCell (s : string).

(** A frame read from a CSV file: the header and the rows, each row with one
    cell per header column. *)
Record DataFrame := mk_df {
  df_columns : list string;
  df_rows : list (list cell)
}.

Fixpoint column_index (col : string) (cols : list string) : option nat :=
  match cols with
  | [] => None
  | c :: cols' => if String.eqb c col then Some O
                  else Datatypes.S <$> column_index col cols'
  end.

(** [col in df.columns] *)
Definition has_column (df : DataFrame) (col : string) : bool :=
  bool_decide (is_Some (column_index col (df_columns df))).

(** [df[col]] for a column of the frame *)
Definition column (df : DataFrame) (col : string) : list cell :=
  match column_index col (df_columns df) with
  | Some j => (λ row, nth j row Null) <$> df_rows df
  | None => []
  end.

Definition is_null (c : cell) : bool :=
  match c with Null => true | _ => false end.

(** [x <= 0] and [x < 0] on a cell: false on NaN, TypeError on text. *)
Definition cell_le0 (c : cell) : result bool :=
  match c with
  | Null => Ok false
  | IntCell z => Ok (z <=? 0)
  | FloatCell q => Ok (Qleb q 0)
  | BoolCell b => Ok (negb b)
  | StrCell _ => Raise TypeError
  end.

Definition cell_lt0 (c : cell) : result bool :=
  match c with
  | Null => Ok false
  | IntCell z => Ok (z <? 0)
  | FloatCell q => Ok (Qltb q 0)
  | BoolCell b => Ok false
  | StrCell _ => Raise TypeError
  end.

(** [(series <op> 0).any()] *)
Fixpoint any_cell (test : cell → result bool) (cs : list cell) : result bool :=
  match cs with
  | [] => Ok false
  | c :: cs' => b ← test c; bs ← any_cell test cs'; mret (b || bs)
  end.

Record ValidationResults := mk_validation {
  is_valid : bool;
  issues : list string
}.

Definition critical_columns : gmap string (list string) :=
  list_to_map
    [("customers", ["customer_id"; "email"; "first_name"; "last_name"]);
     ("products", ["product_id"; "product_name"; "price"]);
     ("orders", ["order_id"; "customer_id"; "order_date"; "total_amount"]);
     ("order_items", ["order_item_id"; "order_id"; "product_id"; "quantity"]);
     ("payments", ["payment_id"; "order_id"; "amount"; "payment_status"])].

Definition add_issue (msg : string) (v : ValidationResults) : ValidationResults :=
  mk_validation false (issues v ++ [msg]).

(** The null check of one critical column. *)
Definition check_null (df : DataFrame) (v : ValidationResults) (col : string)
    : ValidationResults :=
  if has_column df col && existsb is_null (column df col)
  then add_issue ("Null values found in critical column: " +:+ col) v
  else v.

(** [validate_data_quality(df, table_name)]: the [try] body runs the null
    checks, then the quantity and the price check; an exception in it is
    caught and makes the result invalid. (The [summary] entry and the log
    lines are left out.) *)
Definition validate_data_quality (df : DataFrame) (table_name : string)
    : ValidationResults :=
  let v0 := mk_validation true [] in
  let v1 := match critical_columns !! table_name with
            | Some cols => foldl (check_null df) v0 cols
            | None => v0
            end in
  match (if has_column df "quantity" then any_cell cell_le0 (column df "quantity")
         else Ok false) with
  | Raise _ => add_issue "Validation error" v1
  | Ok bad_quantity =>
      let v2 := if bad_quantity then add_issue "Invalid quantities found (<= 0)" v1
                else v1 in
      match (if has_column df "price" then any_cell cell_lt0 (column df "price")
             else Ok false) with
      | Raise _ => add_issue "Validation error" v2
      | Ok bad_price =>
          if bad_price then add_issue "Negative prices found" v2 else v2
      end
  end.

(** The attributes of the ORM classes that [hasattr(Model, column)] finds
    for the name of a CSV column, one class per table: the mapped columns, and
    [metadata] and [registry], which every declarative class has. *)
Definition model_mapping : gmap string (list string) :=
  list_to_map
    [("customers", ["customer_id"; "first_name"; "last_name"; "email"; "signup_date";
                    "customer_tier"; "country"; "city"; "loyalty_score"; "is_active";
                    "metadata"; "registry"]);
     ("products", ["product_id"; "product_name"; "category"; "subcategory"; "price";
                   "cost_price"; "stock_quantity"; "supplier"; "creation_date";
                   "is_active"; "metadata"; "registry"]);
     ("orders", ["order_id"; "customer_id"; "order_date"; "status"; "shipping_country";
                 "shipping_city"; "total_amount"; "metadata"; "registry"]);
     ("order_items", ["order_item_id"; "order_id"; "product_id"; "quantity";
                      "unit_price"; "subtotal"; "metadata"; "registry"]);
     ("payments", ["payment_id"; "order_id"; "payment_method"; "amount";
                   "payment_status"; "payment_date"; "transaction_id"; "risk_score";
                   "metadata"; "registry"])].

(** [record_data] of one row: the columns the model has, with their cells. *)
Definition record_data (model : list string) (cols : list string) (row : list cell)
    : gmap string cell :=
  foldl (λ data '(j, col),
           if bool_decide (col ∈ model) then <[col := nth j row Null]> data else data)
        ∅ (imap (λ j col, (j, col)) cols).

Definition to_records (model : list string) (df : DataFrame) : list (gmap string cell) :=
  record_data model (df_columns df) <$> df_rows df.

(** The relational store: [bulk_save_objects] followed by [commit] either
    yields the store with the records added or raises, and then nothing of
    the batch is kept. *)
Class Store := {
  database : Type;
  bulk_save : string → list (gmap string cell) → database → result database
}.

(** What [csv_path] holds when a table is ingested. *)
Inductive csv_file :=
  | Missing                    (* the path does not exist *)
  | Unreadable                 (* pd.read_csv raises *)
  | Csv (df : DataFrame).

Inductive init_outcome :=
  | InitOk                     (* initialize_database returns True *)
  | InitFalse                  (* SQLAlchemyError caught, returns False *)
  | InitRaises.                (* any other exception *)

(** The surroundings of one run of the ingestion script. *)
Record Env := mk_env {
  initialize_database : init_outcome;
  data_dir_exists : bool;
  data_dir_file : string → csv_file
}.

Section Ingestor.
Context {St : Store}.

(** [ingest_table(table_name, csv_path)]: the flag returned and the store
    afterwards. *)
Definition ingest_table (table_name : string) (file : csv_file) (db : database)
    : bool * database :=
  match file with
  | Missing => (false, db)
  | Unreadable => (false, db)
  | Csv df =>
      let validation := validate_data_quality df table_name in
      if negb (is_valid validation) then (false, db)
      else match model_mapping !! table_name with
           | None => (false, db)
           | Some model =>
               match bulk_save table_name (to_records model df) db with
               | Ok db' => (true, db')
               | Raise _ => (false, db)
               end
           end
  end.

Definition ingestion_order : list string :=
  ["customers.csv"; "products.csv"; "orders.csv"; "order_items.csv"; "payments.csv"].

(** [s.replace(pat, '')]: [skip] counts the characters of a match still to
    drop. *)
Fixpoint remove_from (skip : nat) (pat s : string) : string :=
  match s with
  | EmptyString => EmptyString
  | String c rest =>
      match skip with
      | Datatypes.S k => remove_from k pat rest
      | O => if String.prefix pat s && negb (String.eqb pat "")
             then remove_from (String.length pat - 1) pat rest
             else String c (remove_from 0 pat rest)
      end
  end.
Definition str_remove (pat s : string) : string := remove_from 0 pat s.

(** One pass of [for csv_file in ingestion_order]: the accumulator is the
    [results] dict and the store. *)
Definition ingest_step (env : Env) (acc : gmap string bool * database)
    (csv_file : string) : gmap string bool * database :=
  let '(results, db) := acc in
  let table_name := str_remove ".csv" csv_file in
  let '(success, db') := ingest_table table_name (data_dir_file env csv_file) db in
  (<[table_name := success]> results, db').

(** The loop of [ingest_all_data] over a list of files. *)
Definition ingest_files (order : list string) (env : Env) (db : database)
    : gmap string bool * database :=
  foldl (ingest_step env) (∅, db) order.

(** [ingest_all_data()]: the report written at the end only reads
    [results]; a failure to write it is caught and [results] is returned
    all the same. *)
Definition ingest_all_data (env : Env) (db : database) : gmap string bool * database :=
  if data_dir_exists env then ingest_files ingestion_order env db
  else (∅, db).

(** [all(results.values())] *)
Definition all_values (results : gmap string bool) : bool :=
  forallb snd (map_to_list results).

(** The [try] body of [main]. *)
Definition main_body (env : Env) (db : database) : result unit * database :=
  match initialize_database env with
  | InitRaises => (Raise OtherError, db)
  | InitFalse => (Raise (SystemExit 1), db)
  | InitOk =>
      let '(results, db') := ingest_all_data env db in
      if all_values results then (Ok (), db')
      else (Raise (SystemExit 1), db')
  end.

(** [except Exception] does not catch [SystemExit]. *)
Definition is_Exception (e : exn) : bool :=
  match e with SystemExit _ => false | _ => true end.

Definition main (env : Env) (db : database) : result unit * database :=
  match main_body env db with
  | (Raise e, db') => if is_Exception e then (Raise (SystemExit 1), db')
                      else (Raise e, db')
  | r => r
  end.

(** The exit status of the process. *)
Definition exit_code (r : result unit) : Z :=
  match r with
  | Ok _ => 0
  | Raise (SystemExit code) => code
  | Raise _ => 1
  end.

End Ingestor.

(** [sum(results.values())]: the number of True flags. *)
Definition success_count (results : gmap string bool) : nat :=
  length (filter (λ kv, kv.2 = true) (map_to_list results)).

(** [f"{x:.1f}"] for [x >= 0]: the tenths nearest to [x], ties to even,
    printed with one decimal. *)
Definition format_1f (x : Q) : string :=
  let tenths := round_half_even (x * 10) in
  pretty (tenths `div` 10) +:+ "." +:+ pretty (tenths `mod` 10).

(** The entries of the report of [_generate_ingestion_report] that are
    computed from [results] (the others are the time of day and the database
    path). *)
Record Report := mk_report {
  ingestion_results : gmap string bool;
  success_rate : string;
  summary : string
}.

(** [_generate_ingestion_report(results)]: [None] stands for the
    ZeroDivisionError of [sum(...) / len(results)] on an empty dict. *)
Definition _generate_ingestion_report (results : gmap string bool) : option Report :=
  if bool_decide (size results = O) then None
  else Some (mk_report results
               (format_1f (inject_Z (Z.of_nat (success_count results))
                           / inject_Z (Z.of_nat (size results)) * 100) +:+ "%")
               ("Successfully ingested " +:+ pretty (success_count results)
                +:+ " out of " +:+ pretty (size results) +:+ " tables")).

End Ingestion.

(** ** run_complete_pipeline *)

Module Pipeline.

(** The machine the script runs its commands on. [subprocess.run(command,
    shell=True, capture_output=True, text=True)] changes it and yields the
    exit status of the command, or [None] when the call raises on its own (the
    shell cannot be started, the output cannot be decoded). *)
Class Shell := {
  machine : Type;
  subprocess_run : string → machine → option Z * machine
}.

Section Runner.
Context {Sh : Shell}.

(** [run_command(command, description)]: with [check=True] a non-zero exit
    status raises CalledProcessError, which is caught: False. Any other
    exception is not caught. *)
Definition run_command (command description : string) (m : machine)
    : result bool * machine :=
  match subprocess_run command m with
  | (Some returncode, m') => (Ok (returncode =? 0), m')
  | (None, m') => (Raise OtherError, m')
  end.

Definition generate_command : string := "python scripts/advanced_data_generator.py".
Definition ingest_command : string := "python scripts/advanced_ingestion.py".
Definition test_data_command : string := "python tests/test_data_generation.py".
Definition test_queries_command : string := "python tests/test_queries.py".

(** [if not run_command(command, description): sys.exit(1)], followed by the
    rest of [main]. *)
Definition step (command description : string)
    (rest : machine → result unit * machine) (m : machine) : result unit * machine :=
  match run_command command description m with
  | (Ok true, m') => rest m'
  | (Ok false, m') => (Raise (SystemExit 1), m')
  | (Raise e, m') => (Raise e, m')
  end.

(** [main()]: the four steps; the result is how the script ends and the
    machine it leaves. *)
Definition main : machine → result unit * machine :=
  step generate_command "Generating advanced synthetic data"
    (step ingest_command "Ingesting data into SQLite database"
       (step test_data_command "Running data quality tests"
          (step test_queries_command "Validating SQL queries"
             (λ m, (Ok (), m))))).

(** The exit status of the process: 1 for an exception that reaches the top
    level. *)
Definition exit_code (r : result unit) : Z :=
  match r with
  | Ok _ => 0
  | Raise (SystemExit code) => code
  | Raise _ => 1
  end.

End Runner.

End Pipeline.

(** ** Scripted random sources *)

(** Implementations of the two interfaces that replay a script, used to run
    the generators on concrete draws. *)
Module Scripted.

(** The next number of the tape, 0 once the tape is used up. *)
Definition next (tape : list Z) : Z * list Z :=
  match tape with
  | [] => (0, [])
  | x :: tape' => (x, tape')
  end.

(** A number of the tape as a thousandth in [0, 1). *)
Definition fraction (x : Z) : Q := (x `mod` 1000) # 1000.

Definition random (tape : list Z) : Q * list Z :=
  let '(x, tape') := next tape in (fraction x, tape').
Definition integers (low high : Z) (tape : list Z) : Z * list Z :=
  let '(x, tape') := next tape in (low + x `mod` (high - low), tape').
Definition uniform (low high : Q) (tape : list Z) : Q * list Z :=
  let '(x, tape') := next tape in ((low + (high - low) * fraction x)%Q, tape').
Definition normal (loc scale : Q) (tape : list Z) : Q * list Z :=
  let '(x, tape') := next tape in ((loc + scale * inject_Z x)%Q, tape').
Definition poisson (lam : Q) (tape : list Z) : nat * list Z :=
  let '(x, tape') := next tape in (Z.to_nat x, tape').
Definition choice (n : nat) (tape : list Z) : nat * list Z :=
  let '(x, tape') := next tape in (Z.to_nat (x `mod` Z.of_nat n), tape').

Lemma fraction_range (x : Z) : (0 <= fraction x)%Q ∧ (fraction x < 1)%Q.
Proof.
  pose proof (Z.mod_pos_bound x 1000 ltac:(lia)) as H.
  unfold fraction, Qle, Qlt. simpl. lia.
Qed.

Lemma random_range (tape : list Z) :
  (0 <= (random tape).1)%Q ∧ ((random tape).1 < 1)%Q.
Proof. unfold random. destruct (next tape). apply fraction_range. Qed.

Lemma integers_range (low high : Z) (tape : list Z) :
  low < high → low ≤ (integers low high tape).1 < high.
Proof.
  intros Hlt. unfold integers. destruct (next tape) as [x tape']. simpl.
  pose proof (Z.mod_pos_bound x (high - low) ltac:(lia)). lia.
Qed.

Lemma uniform_range (low high : Q) (tape : list Z) :
  (low < high)%Q →
  (low <= (uniform low high tape).1)%Q ∧ ((uniform low high tape).1 < high)%Q.
Proof.
  intros Hlt. unfold uniform. destruct (next tape) as [x tape']. simpl.
  destruct (fraction_range x) as [H0 H1]. split; nra.
Qed.

Lemma choice_range (n : nat) (tape : list Z) :
  (0 < n)%nat → ((choice n tape).1 < n)%nat.
Proof.
  intros Hn. unfold choice. destruct (next tape) as [x tape']. simpl.
  pose proof (Z.mod_pos_bound x (Z.of_nat n) ltac:(lia)). lia.
Qed.

Definition numpy : NumpyRandom := {|
  bit_state := list Z;
  seeded seed := [seed];
  draw_random := random;
  draw_integers := integers;
  draw_uniform := uniform;
  draw_normal := normal;
  draw_poisson := poisson;
  draw_choice := choice;
  draw_random_range := random_range;
  draw_integers_range := integers_range;
  draw_uniform_range := uniform_range;
  draw_choice_range := choice_range
|}.

(** A Faker that counts its calls and returns fixed text; a date between
    two bounds is the lower bound. *)
Definition faker : FakerSource := {|
  faker_state := nat;
  faker_seeded seed := O;
  fake_first_name n := ("Ada", Datatypes.S n);
  fake_last_name n := ("Lovelace", Datatypes.S n);
  fake_email n := ("ada@example.org", Datatypes.S n);
  fake_country n := ("Iceland", Datatypes.S n);
  fake_city n := ("Reykjavik", Datatypes.S n);
  fake_word n := ("lamp", Datatypes.S n);
  fake_company n := ("Acme Ltd", Datatypes.S n);
  fake_uuid4 n := ("123e4567-e89b-42d3-a456-426614174000", Datatypes.S n);
  fake_date_between start_date end_date n := (start_date, Datatypes.S n);
  fake_date_time_between start_date end_date n := (start_date, Datatypes.S n)
|}.

(** One active customer and one active product priced 10.00. *)
Definition customer : Customer :=
  mk_customer 1 "Ada" "Lovelace" "ada@example.org" (mk_date 738000) "standard"
              "Iceland" "Reykjavik" 50 true.
Definition product : Product :=
  mk_product 1 "Lamp Lamp" "Books" "lamp" 10 4 20 "Acme Ltd" (mk_date 738000) true.

(** A script for [generate_orders_and_items]: on the first day one order of
    two lines, each of quantity 1 at the discount factor 0.9004, and no order
    on any later day. *)
Definition two_lines : @GenState numpy faker :=
  mk_gen_state (G := numpy) (F := faker) [1; 0; 1; 0; 0; 502; 0; 0; 502] O.

Definition two_lines_order : Order :=
  mk_order 1 1 (datetime_ymd 2023 1 1) "pending" "Iceland" "Reykjavik" (1801 # 100).
Definition two_lines_items : list OrderItem :=
  [mk_order_item 1 1 1 1 (900 # 100) (900 # 100);
   mk_order_item 2 1 1 1 (900 # 100) (900 # 100)].

(** A script with one single-line order on the first day of the range, one
    on the last day, and none in between. *)
Definition first_and_last_day : @GenState numpy faker :=
  mk_gen_state (G := numpy) (F := faker)
    ([1; 0; 0; 0; 0; 0] ++ repeat 0 364 ++ [1; 0; 0; 0; 0; 0]) O.

Definition first_day_order : Order :=
  mk_order 1 1 (datetime_ymd 2023 1 1) "pending" "Iceland" "Reykjavik" (800 # 100).
Definition last_day_order : Order :=
  mk_order 2 1 (datetime_ymd 2024 1 1) "cancelled" "Iceland" "Reykjavik" (800 # 100).

(** A row of a payments table for [two_lines_order], written by hand. *)
Definition two_lines_payment : Payment :=
  mk_payment 1 1 "paypal" (1801 # 100) "completed"
    (mk_datetime 738521 18000) "123e4567-e89b-42" (10 # 100).

(** A script for [generate_payments] on [two_lines_order]: 5 hours,
    uniform draw 0.7, third payment method. *)
Definition one_payment : @GenState numpy faker :=
  mk_gen_state (G := numpy) (F := faker) [4; 700; 2] O.

(** The process state of a run of [generate_quick_data] on 1 June 2024. *)
Definition quick : @QuickState numpy faker :=
  mk_quick_state (L := numpy) (F := faker) [] O (datetime_ymd 2024 6 1).

(** A store that accepts every batch and records its table and size. *)
Definition store : Ingestion.Store := {|
  Ingestion.database := list (string * nat);
  Ingestion.bulk_save table_name records db := Ok (db ++ [(table_name, length records)])
|}.

(** A data directory whose customers file has a row without email, whose
    products file is sound and whose other files are missing. *)
Definition customers_csv : Ingestion.DataFrame :=
  Ingestion.mk_df ["customer_id"; "first_name"; "last_name"; "email"]
    [[Ingestion.IntCell 1; Ingestion.StrCell "Ada"; Ingestion.StrCell "Lovelace";
      Ingestion.StrCell "ada@example.org"];
     [Ingestion.IntCell 2; Ingestion.StrCell "Alan"; Ingestion.StrCell "Turing";
      Ingestion.Null]].
Definition products_csv : Ingestion.DataFrame :=
  Ingestion.mk_df ["product_id"; "product_name"; "price"]
    [[Ingestion.IntCell 1; Ingestion.StrCell "Lamp"; Ingestion.FloatCell 10]].
Definition data_dir : Ingestion.Env :=
  Ingestion.mk_env Ingestion.InitOk true
    (λ f, if String.eqb f "customers.csv" then Ingestion.Csv customers_csv
          else if String.eqb f "products.csv" then Ingestion.Csv products_csv
          else Ingestion.Missing).

End Scripted.

(** ** Vocabulary of the properties *)

(** The cents of a list of amounts, each rounded on its own. *)
Definition cents_of (xs : list Q) : Z :=
  foldr Z.add 0 ((λ x, round_half_even (x * 100)) <$> xs).

(** The rows of [order_items] that carry the order's id. *)
Definition items_of (o : Order) (items : list OrderItem) : list OrderItem :=
  filter (λ it, oi_order_id it = o_order_id o) items.

(** One line of an order: [x] is the exact amount [quantity * actual_price]
    the line adds to [order_total]. *)
Definition order_line (order_id : Z) (x : Q) (it : OrderItem) : Prop :=
  oi_order_id it = order_id
  ∧ (oi_quantity it = 1 ∨ oi_quantity it = 2)
  ∧ (∃ actual_price, x = (inject_Z (oi_quantity it) * actual_price)%Q
                     ∧ oi_unit_price it = round2 actual_price)
  ∧ oi_subtotal it = round2 x.

(** The status the order loop gives an order dated [d]. *)
Definition status_at (d : datetime) : result string :=
  py_index (order_statuses config) (status_idx (days_ago d)).

(** A date the day loop visits: midnight of a day of the range. *)
Definition in_range (d : datetime) : Prop :=
  dt_second d = 0
  ∧ dt_ordinal (date_range config).1 ≤ dt_ordinal d ≤ dt_ordinal (date_range config).2.

(** What one pass of the order loop appends to the two tables: an order and
    its lines. *)
Record order_block (o : Order) (its : list OrderItem) : Prop := mk_order_block {
  block_size : (1 ≤ length its ≤ 4)%nat;
  block_lines : ∃ xs, Forall2 (order_line (o_order_id o)) xs its
                      ∧ o_total_amount o = round2 (Qsum xs);
  block_date : in_range (o_order_date o);
  block_status : status_at (o_order_date o) = Ok (o_status o)
}.

(** The two tables as a sequence of such blocks, with order ids counting up
    from 1. *)
Record blocks_of (blocks : list (Order * list OrderItem)) (acc : OrderAcc) : Prop :=
  mk_blocks_of {
    blocks_orders : acc_orders acc = blocks.*1;
    blocks_items : acc_items acc = concat blocks.*2;
    blocks_ok : Forall (λ b, order_block b.1 b.2) blocks;
    blocks_ids : o_order_id <$> blocks.*1 = seqZ 1 (Z.of_nat (length blocks));
    blocks_next : acc_order_id acc = 1 + Z.of_nat (length blocks)
}.

(** What the seven assertions of the validator require. *)
Definition integrity (customers : list Customer) (products : list Product)
    (orders : list Order) (order_items : list OrderItem) (payments : list Payment)
    : Prop :=
  (∀ o, o ∈ orders → o_customer_id o ∈ c_customer_id <$> customers)
  ∧ (∀ it, it ∈ order_items → oi_order_id it ∈ o_order_id <$> orders)
  ∧ (∀ it, it ∈ order_items → oi_product_id it ∈ p_product_id <$> products)
  ∧ (∀ p, p ∈ payments → pay_order_id p ∈ o_order_id <$> orders)
  ∧ (∀ it, it ∈ order_items → 0 < oi_quantity it)
  ∧ (∀ it, it ∈ order_items → (0 <= oi_unit_price it)%Q)
  ∧ (∀ p, p ∈ products → (0 < p_price p)%Q).

(** A product as [generate_products] makes them. *)
Definition product_ok (p : Product) : Prop :=
  p_category p ∈ categories config
  ∧ (350 # 100 <= p_price p)%Q ∧ (p_price p <= 600)%Q
  ∧ (0 <= p_cost_price p)%Q ∧ (p_cost_price p < p_price p)%Q
  ∧ 5 ≤ p_stock_quantity p < 500.

(** An order row made for one of the active customers. *)
Definition order_from (active_customers : list Customer) (o : Order) : Prop :=
  ∃ c, c ∈ active_customers
       ∧ o_customer_id o = c_customer_id c
       ∧ o_shipping_country o = c_country c
       ∧ o_shipping_city o = c_city c.

(** An item row made from one of the active products, at a discount factor
    in [0.8, 1). *)
Definition item_from (active_products : list Product) (it : OrderItem) : Prop :=
  ∃ product discount,
    product ∈ active_products
    ∧ (8 # 10 <= discount)%Q ∧ (discount < 1)%Q
    ∧ oi_product_id it = p_product_id product
    ∧ oi_unit_price it = round2 (p_price product * discount)
    ∧ oi_subtotal it
      = round2 (inject_Z (oi_quantity it) * (p_price product * discount)).

(** Where the rows of the two tables of the order loop come from, and how the
    item ids run. *)
Record tables_from (active_customers : list Customer) (active_products : list Product)
    (acc : OrderAcc) : Prop := mk_tables_from {
  from_customers : Forall (order_from active_customers) (acc_orders acc);
  from_products : Forall (item_from active_products) (acc_items acc);
  from_item_ids : oi_order_item_id <$> acc_items acc
                  = seqZ 1 (Z.of_nat (length (acc_items acc)));
  from_next_item : acc_item_id acc = 1 + Z.of_nat (length (acc_items acc))
}.

(** An item row of the quick data: it names a product of the catalogue and
    is priced from it. *)
Definition quick_item_from (products : list Product) (it : OrderItem) : Prop :=
  ∃ p, p ∈ products
       ∧ p_product_id p = oi_product_id it
       ∧ (oi_quantity it = 1 ∨ oi_quantity it = 2)
       ∧ oi_unit_price it = p_price p
       ∧ oi_subtotal it = round2 (inject_Z (oi_quantity it) * p_price p).

(** A product row as [generate_products] derives it from its category: the
    price from the base price and the multiplier of the category, the stock
    from the range of the category. *)
Definition product_by_category (p : Product) : Prop :=
  ∃ (base_price multiplier : Q) (stock_min stock_max : Z),
    price_multipliers !! p_category p = Some multiplier
    ∧ (5 <= base_price)%Q ∧ (base_price < 500)%Q
    ∧ p_price p = round2 (base_price * multiplier)
    ∧ stock_ranges (Qltb 100 (p_price p)) !! p_category p = Some (stock_min, stock_max)
    ∧ stock_min ≤ p_stock_quantity p < stock_max.

(** An orders table whose order dates never decrease along the rows. *)
Definition chronological (os : list Order) : Prop :=
  ∀ (i j : nat) (o1 o2 : Order),
    (i ≤ j)%nat → os !! i = Some o1 → os !! j = Some o2 →
    dt_stamp (o_order_date o1) ≤ dt_stamp (o_order_date o2).

(** The status the order loop gives at [days_ago = k], week by week. *)
Definition status_of_age (k : Z) : string :=
  if k <? 7 then "cancelled"
  else if k <? 14 then "delivered"
  else if k <? 21 then "shipped"
  else if k <? 28 then "processing"
  else "pending".

(** * Properties *)

(** ** Rounding to cents *)

Lemma round_half_even_near (x : Q) :
  (Qabs (inject_Z (round_half_even x) - x) <= 1 # 2)%Q.
Proof.
  unfold round_half_even.
  pose proof (Qfloor_le x) as Hlo. pose proof (Qlt_floor x) as Hhi.
  rewrite inject_Z_plus in Hhi. change (inject_Z 1) with 1%Q in Hhi.
  apply Qabs_Qle_condition.
  destruct (x - inject_Z (Qfloor x) ?= 1 # 2)%Q eqn:Hc.
  - apply Qeq_alt in Hc.
    destruct (Z.even (Qfloor x));
      [| rewrite inject_Z_plus; change (inject_Z 1) with 1%Q];
      generalize dependent (inject_Z (Qfloor x)); intros f **; split; lra.
  - apply Qlt_alt in Hc.
    generalize dependent (inject_Z (Qfloor x)); intros f **; split; lra.
  - apply Qgt_alt in Hc. rewrite inject_Z_plus. change (inject_Z 1) with 1%Q.
    generalize dependent (inject_Z (Qfloor x)); intros f **; split; lra.
Qed.

Lemma round2_cents (x : Q) : (round2 x * 100 == inject_Z (round_half_even (x * 100)))%Q.
Proof.
  unfold round2, Qeq, inject_Z, Qmult. simpl. lia.
Qed.

Lemma round2_near (x : Q) : (Qabs (round2 x - x) <= 1 # 200)%Q.
Proof.
  pose proof (round_half_even_near (x * 100)) as H.
  rewrite <- round2_cents in H.
  apply Qabs_Qle_condition in H. apply Qabs_Qle_condition. split; lra.
Qed.

Lemma Qsum_from (xs : list Q) (a : Q) : (fold_left Qplus xs a == a + Qsum xs)%Q.
Proof.
  unfold Qsum. revert a.
  induction xs as [| x xs IH]; intros a; simpl.
  - lra.
  - rewrite (IH (a + x)%Q), (IH (0 + x)%Q). lra.
Qed.

Lemma Qsum_cons (x : Q) (xs : list Q) : (Qsum (x :: xs) == x + Qsum xs)%Q.
Proof.
  unfold Qsum at 1. simpl. rewrite Qsum_from. lra.
Qed.

Lemma Qsum_round2_cents (xs : list Q) :
  (Qsum (round2 <$> xs) * 100 == inject_Z (cents_of xs))%Q.
Proof.
  induction xs as [| x xs IH].
  - reflexivity.
  - rewrite fmap_cons, Qsum_cons. unfold cents_of in *. simpl.
    rewrite inject_Z_plus, <- IH, <- round2_cents. lra.
Qed.

Lemma cents_of_near (xs : list Q) :
  (Qabs (inject_Z (cents_of xs) - Qsum xs * 100) <= inject_Z (Z.of_nat (length xs)) * (1 # 2))%Q.
Proof.
  induction xs as [| x xs IH].
  - by vm_compute.
  - pose proof (round_half_even_near (x * 100)) as Hx.
    apply Qabs_Qle_condition in Hx. apply Qabs_Qle_condition in IH.
    apply Qabs_Qle_condition.
    assert (Hc : (inject_Z (cents_of (x :: xs))
                  == inject_Z (round_half_even (x * 100)) + inject_Z (cents_of xs))%Q).
    { unfold cents_of. rewrite fmap_cons. cbn [foldr]. by rewrite inject_Z_plus. }
    assert (Hn : (inject_Z (Z.of_nat (length (x :: xs)))
                  == 1 + inject_Z (Z.of_nat (length xs)))%Q).
    { cbn [length]. rewrite Nat2Z.inj_succ, <- Z.add_1_l. by rewrite inject_Z_plus. }
    rewrite Hc, Hn, Qsum_cons. split; lra.
Qed.

(** A total rounded once and the sum of the lines rounded one by one are at
    most [(n + 1) / 2] cents apart, so at most 2 cents for up to 4 lines. *)
Lemma round2_total_vs_subtotals (xs : list Q) :
  (length xs ≤ 4)%nat →
  (Qabs (round2 (Qsum xs) - Qsum (round2 <$> xs)) <= 2 # 100)%Q.
Proof.
  intros Hlen.
  pose proof (round_half_even_near (Qsum xs * 100)) as HT.
  pose proof (cents_of_near xs) as HS.
  pose proof (round2_cents (Qsum xs)) as HcT.
  pose proof (Qsum_round2_cents xs) as HcS.
  apply Qabs_Qle_condition in HT. apply Qabs_Qle_condition in HS.
  assert (Hn : (inject_Z (Z.of_nat (length xs)) <= 4)%Q).
  { change 4%Q with (inject_Z 4). rewrite <- Zle_Qle. lia. }
  set (T := round_half_even (Qsum xs * 100)) in *.
  set (C := cents_of xs) in *.
  assert (Hd : -2 ≤ T - C ≤ 2).
  { assert (H1 : (inject_Z (T - C) < inject_Z 3)%Q).
    { unfold Zminus. rewrite inject_Z_plus, inject_Z_opp.
      change (inject_Z 3) with 3%Q. lra. }
    assert (H2 : (inject_Z (-3) < inject_Z (T - C))%Q).
    { unfold Zminus. rewrite inject_Z_plus, inject_Z_opp.
      change (inject_Z (-3)) with (-3)%Q. lra. }
    rewrite <- Zlt_Qlt in H1, H2. lia. }
  assert (Hq : (inject_Z (-2) <= inject_Z (T - C))%Q ∧ (inject_Z (T - C) <= inject_Z 2)%Q).
  { split; rewrite <- Zle_Qle; lia. }
  unfold Zminus in Hq. rewrite inject_Z_plus, inject_Z_opp in Hq.
  change (inject_Z (-2)) with (-2)%Q in Hq. change (inject_Z 2) with 2%Q in Hq.
  apply Qabs_Qle_condition. split; lra.
Qed.

(** ** Running the monad *)

Lemma bind_Ok {S A B} (m : M S A) (f : A → M S B) (s : S) (b : B) (s' : S) :
  (m ≫= f) s = Ok (b, s') ↔ ∃ a s1, m s = Ok (a, s1) ∧ f a s1 = Ok (b, s').
Proof.
  unfold mbind, M_bind. split.
  - destruct (m s) as [[a s1] | e]; [eauto | discriminate].
  - intros (a & s1 & -> & Hf). exact Hf.
Qed.

Lemma ret_Ok {S A} (a : A) (s : S) (a' : A) (s' : S) :
  (mret a : M S A) s = Ok (a', s') ↔ a' = a ∧ s' = s.
Proof. unfold mret, M_ret. split; [intros [= <- <-] | intros [-> ->]]; done. Qed.

Lemma lift_result_Ok {S A} (r : result A) (s : S) (a : A) (s' : S) :
  lift_result r s = Ok (a, s') ↔ r = Ok a ∧ s' = s.
Proof.
  unfold lift_result. destruct r as [x | e]; split.
  - by intros [= <- <-].
  - by intros [[= ->] ->].
  - discriminate.
  - intros [? _]. discriminate.
Qed.

(** An invariant of a [for ... in range(n)] loop that completes. *)
Lemma for_range_ind {S A} (P : nat → A → Prop) (n : nat) (i : Z)
    (body : Z → A → M S A) (acc : A) (s : S) (r : A) (s' : S) :
  for_range n i body acc s = Ok (r, s') →
  P O acc →
  (∀ k a a' s1 s2, (k < n)%nat → P k a →
     body (i + Z.of_nat k) a s1 = Ok (a', s2) → P (Datatypes.S k) a') →
  P n r.
Proof.
  revert P i acc s.
  induction n as [| n IH]; intros P i acc s Hrun H0 Hstep.
  - apply ret_Ok in Hrun as [-> _]. exact H0.
  - cbn [for_range] in Hrun. apply bind_Ok in Hrun as (a1 & s1 & Hb & Hrest).
    apply (IH (λ k, P (Datatypes.S k)) _ _ _ Hrest).
    + apply (Hstep O acc a1 s s1); [lia | done |]. by rewrite Z.add_0_r.
    + intros k a a' t1 t2 Hk HP Hbody.
      apply (Hstep (Datatypes.S k) a a' t1 t2); [lia | done |].
      by replace (i + Z.of_nat (Datatypes.S k)) with (i + 1 + Z.of_nat k) by lia.
Qed.

(** A loop whose passes all complete, completes. *)
Lemma for_range_total {S A} (n : nat) (i : Z) (body : Z → A → M S A) (acc : A) (s : S) :
  (∀ j a s1, ∃ a' s2, body j a s1 = Ok (a', s2)) →
  ∃ r s', for_range n i body acc s = Ok (r, s').
Proof.
  intros Hbody. revert i acc s.
  induction n as [| n IH]; intros i acc s.
  - exists acc, s. done.
  - destruct (Hbody i acc s) as (a1 & s1 & Hb).
    destruct (IH (i + 1) a1 s1) as (r & s' & Hr).
    exists r, s'. cbn [for_range]. apply bind_Ok. eauto.
Qed.

Section AdvancedProofs.
Context {G : NumpyRandom} {F : FakerSource}.

Lemma with_rng_Ok {A} (draw : bit_state → A * bit_state) (w : GenState) x w' :
  with_rng draw w = Ok (x, w') ↔
  x = (draw (rng w)).1 ∧ w' = mk_gen_state (draw (rng w)).2 (fake w).
Proof.
  unfold with_rng. destruct (draw (rng w)) as [y g]. simpl.
  split; [intros [= <- <-] | intros [-> ->]]; done.
Qed.

Lemma with_fake_Ok {A} (draw : faker_state → A * faker_state) (w : GenState) x w' :
  with_fake draw w = Ok (x, w') ↔
  x = (draw (fake w)).1 ∧ w' = mk_gen_state (rng w) (draw (fake w)).2.
Proof.
  unfold with_fake. destruct (draw (fake w)) as [y g]. simpl.
  split; [intros [= <- <-] | intros [-> ->]]; done.
Qed.

Lemma rng_integers_Ok (low high : Z) (w : GenState) x w' :
  rng_integers low high w = Ok (x, w') → low ≤ x < high.
Proof.
  unfold rng_integers. case_bool_decide as Hlt; [| discriminate].
  intros [-> _]%with_rng_Ok. by apply draw_integers_range.
Qed.

Lemma rng_integers_total (low high : Z) (w : GenState) :
  low < high → ∃ x w', rng_integers low high w = Ok (x, w').
Proof.
  intros Hlt. unfold rng_integers. rewrite bool_decide_eq_true_2 by done.
  eexists _, _. by apply with_rng_Ok.
Qed.

Lemma rng_random_Ok (w : GenState) r w' :
  rng_random w = Ok (r, w') → (0 <= r)%Q ∧ (r < 1)%Q.
Proof. intros [-> _]%with_rng_Ok. apply draw_random_range. Qed.

Lemma rng_choice_total {A} (xs : list A) (w : GenState) :
  xs ≠ [] → ∃ x w', rng_choice xs w = Ok (x, w').
Proof.
  intros Hne. unfold rng_choice. destruct xs as [| x0 xs0]; [done |].
  set (xs := x0 :: xs0).
  assert (Hpos : (0 < length xs)%nat) by (unfold xs; simpl; lia).
  pose proof (draw_choice_range (length xs) (rng w) Hpos) as Hi.
  destruct (lookup_lt_is_Some_2 xs _ Hi) as [x Hx].
  exists x, (mk_gen_state (draw_choice (length xs) (rng w)).2 (fake w)).
  apply bind_Ok. eexists _, _. split; [by apply with_rng_Ok |].
  apply lift_result_Ok. split; [| done].
  unfold py_index.
  destruct (Z.ltb_spec (Z.of_nat (draw_choice (length xs) (rng w)).1) 0) as [Hneg | _];
    [lia |].
  destruct (Z.ltb_spec (Z.of_nat (draw_choice (length xs) (rng w)).1) 0) as [Hneg | _];
    [lia |].
  by rewrite Nat2Z.id, Hx.
Qed.

(** *** The order loop *)

Lemma generate_item_spec (aps : list Product) (oid : Z) items iid tot
    (s : GenState) items' iid' tot' s' :
  generate_item aps oid (items, iid, tot) s = Ok ((items', iid', tot'), s') →
  ∃ it x, items' = items ++ [it] ∧ tot' = (tot + x)%Q ∧ order_line oid x it.
Proof.
  unfold generate_item. intros Hrun.
  apply bind_Ok in Hrun as (k & s1 & _ & Hrun).
  apply bind_Ok in Hrun as (product & s2 & _ & Hrun).
  apply bind_Ok in Hrun as (quantity & s3 & Hq%rng_integers_Ok & Hrun).
  apply bind_Ok in Hrun as (discount & s4 & _ & Hrun).
  apply ret_Ok in Hrun as [[= -> -> ->] _].
  eexists _, _. split; [done |]. split; [done |].
  unfold order_line. simpl. split; [done |]. split; [lia |].
  split; [by eexists | done].
Qed.

Lemma generate_items_spec (aps : list Product) (oid : Z) (n : nat) (i : Z)
    items iid tot (s : GenState) items' iid' tot' s' :
  for_range n i (λ _, generate_item aps oid) (items, iid, tot) s
    = Ok ((items', iid', tot'), s') →
  ∃ its xs, items' = items ++ its ∧ length its = n
            ∧ Forall2 (order_line oid) xs its
            ∧ tot' = fold_left Qplus xs tot.
Proof.
  intros Hrun.
  apply (for_range_ind
           (λ k (acc : list OrderItem * Z * Q),
              ∃ its xs, acc.1.1 = items ++ its ∧ length its = k
                        ∧ Forall2 (order_line oid) xs its
                        ∧ acc.2 = fold_left Qplus xs tot)) in Hrun.
  - exact Hrun.
  - exists [], []. simpl. by rewrite app_nil_r.
  - intros k [[its0 iid0] tot0] [[its1 iid1] tot1] s1 s2 _
      (its & xs & Hits & Hlen & Hlines & Htot) Hstep.
    simpl in Hits, Htot. subst its0 tot0.
    apply generate_item_spec in Hstep as (it & x & -> & -> & Hline).
    exists (its ++ [it]), (xs ++ [x]). simpl.
    split; [by rewrite app_assoc |].
    split; [rewrite length_app; simpl; lia |].
    split; [apply Forall2_app; [done | by constructor] |].
    by rewrite fold_left_app.
Qed.

Lemma generate_order_spec (acs : list Customer) (aps : list Product)
    (d : datetime) (acc : OrderAcc) (s : GenState) acc' s' :
  in_range d →
  generate_order acs aps d acc s = Ok (acc', s') →
  ∃ o its, acc_orders acc' = acc_orders acc ++ [o]
           ∧ acc_items acc' = acc_items acc ++ its
           ∧ acc_order_id acc' = acc_order_id acc + 1
           ∧ o_order_id o = acc_order_id acc
           ∧ order_block o its.
Proof.
  unfold generate_order. intros Hd Hrun.
  apply bind_Ok in Hrun as (k & s1 & _ & Hrun).
  apply bind_Ok in Hrun as (customer & s2 & _ & Hrun).
  apply bind_Ok in Hrun as (status & s3 & [Hstatus _]%lift_result_Ok & Hrun).
  apply bind_Ok in Hrun as (num_items & s4 & Hn%rng_integers_Ok & Hrun).
  apply bind_Ok in Hrun as ([[items' iid'] tot'] & s5 & Hitems & Hrun).
  apply ret_Ok in Hrun as [-> _].
  apply generate_items_spec in Hitems as (its & xs & -> & Hlen & Hlines & ->).
  eexists _, its. simpl. do 4 (split; [done |]).
  constructor; simpl.
  - rewrite Hlen. lia.
  - exists xs. split; [done |]. done.
  - exact Hd.
  - exact Hstatus.
Qed.

Lemma blocks_of_snoc blocks (acc acc' : OrderAcc) (o : Order) (its : list OrderItem) :
  blocks_of blocks acc →
  acc_orders acc' = acc_orders acc ++ [o] →
  acc_items acc' = acc_items acc ++ its →
  acc_order_id acc' = acc_order_id acc + 1 →
  o_order_id o = acc_order_id acc →
  order_block o its →
  blocks_of (blocks ++ [(o, its)]) acc'.
Proof.
  intros [Ho Hi Hok Hids Hnext] Ho' Hi' Hnext' Hid Hblock.
  constructor.
  - by rewrite Ho', Ho, fmap_app.
  - rewrite Hi', Hi, fmap_app, concat_app. simpl. by rewrite app_nil_r.
  - apply Forall_app. split; [done | by constructor].
  - rewrite !fmap_app, Hids, length_app. simpl.
    rewrite Nat2Z.inj_add, seqZ_app by lia. simpl.
    rewrite Hid, Hnext. f_equal.
  - rewrite Hnext', Hnext, length_app. simpl. lia.
Qed.

Lemma generate_day_blocks (acs : list Customer) (aps : list Product)
    (d : datetime) (acc : OrderAcc) (s : GenState) acc' s' :
  in_range d →
  generate_day acs aps d acc s = Ok (acc', s') →
  (∃ blocks, blocks_of blocks acc) →
  ∃ blocks, blocks_of blocks acc'.
Proof.
  unfold generate_day. intros Hd Hrun Hacc.
  apply bind_Ok in Hrun as (daily_orders & s1 & _ & Hrun).
  apply (for_range_ind (λ _ a, ∃ blocks, blocks_of blocks a)) in Hrun; [done | done |].
  intros k a a' t1 t2 _ [blocks Hb] Hstep.
  apply generate_order_spec in Hstep as (o & its & ? & ? & ? & ? & ?); [| done].
  exists (blocks ++ [(o, its)]). by eapply blocks_of_snoc.
Qed.

Lemma next_day_in_range (d : datetime) :
  in_range d →
  dt_ordinal d < dt_ordinal (date_range config).2 →
  in_range (dt_add d (timedelta_of 1 0))
  ∧ dt_ordinal (dt_add d (timedelta_of 1 0)) = dt_ordinal d + 1.
Proof.
  intros (Hsec & Hlo & Hhi) Hlt. unfold in_range, dt_add, timedelta_of.
  cbn [dt_second dt_ordinal td_days td_seconds]. rewrite Hsec.
  change ((0 * 3600) `div` 86400) with 0. change ((0 * 3600) `mod` 86400) with 0.
  change ((0 + 0) `div` 86400) with 0. change ((0 + 0) `mod` 86400) with 0. lia.
Qed.

Lemma day_loop_blocks (n : nat) (acs : list Customer) (aps : list Product)
    (d : datetime) (acc : OrderAcc) (s : GenState) acc' s' :
  (n = 0%nat ∨ in_range d) →
  dt_ordinal d + Z.of_nat n ≤ dt_ordinal (date_range config).2 + 1 →
  day_loop n acs aps d acc s = Ok (acc', s') →
  (∃ blocks, blocks_of blocks acc) →
  ∃ blocks, blocks_of blocks acc'.
Proof.
  revert d acc s.
  induction n as [| n IH]; intros d acc s Hd Hn Hrun Hacc.
  - by apply ret_Ok in Hrun as [-> _].
  - destruct Hd as [? | Hd]; [done |].
    cbn [day_loop] in Hrun. apply bind_Ok in Hrun as (acc1 & s1 & Hday & Hrun).
    apply generate_day_blocks in Hday; [| done | done].
    destruct n as [| n'].
    + by apply ret_Ok in Hrun as [-> _].
    + destruct (next_day_in_range d Hd) as [Hd' Hord]; [lia |].
      eapply IH; [by right | | exact Hrun | done]. lia.
Qed.

(** The two tables [generate_orders_and_items] returns are a sequence of
    order blocks. *)
Lemma generate_orders_and_items_blocks (customers : list Customer)
    (products : list Product) (s : GenState) orders items s' :
  generate_orders_and_items customers products s = Ok ((orders, items), s') →
  ∃ blocks, orders = blocks.*1 ∧ items = concat blocks.*2
            ∧ Forall (λ b, order_block b.1 b.2) blocks
            ∧ o_order_id <$> orders = seqZ 1 (Z.of_nat (length orders)).
Proof.
  unfold generate_orders_and_items. intros Hrun.
  apply bind_Ok in Hrun as (acc & s1 & Hloop & Hrun).
  apply ret_Ok in Hrun as [[= -> ->] _].
  apply day_loop_blocks in Hloop as [blocks [Ho Hi Hok Hids _]].
  - exists blocks. rewrite Ho, length_fmap. done.
  - right. by vm_compute.
  - by vm_compute.
  - exists []. by constructor.
Qed.

(** *** The rows of one order *)

Lemma filter_all {A} (P : A → Prop) `{∀ x, Decision (P x)} (l : list A) :
  Forall P l → filter P l = l.
Proof.
  induction 1 as [| x l Hx _ IH]; [done |].
  by rewrite filter_cons_True, IH.
Qed.

Lemma filter_none {A} (P : A → Prop) `{∀ x, Decision (P x)} (l : list A) :
  Forall (λ x, ¬ P x) l → filter P l = [].
Proof.
  induction 1 as [| x l Hx _ IH]; [done |].
  by rewrite filter_cons_False, IH.
Qed.

Lemma order_lines_ids (oid : Z) (xs : list Q) (its : list OrderItem) :
  Forall2 (order_line oid) xs its → Forall (λ it, oi_order_id it = oid) its.
Proof. induction 1 as [| x it xs its [Hid _] _ IH]; constructor; done. Qed.

Lemma order_lines_quantities (oid : Z) (xs : list Q) (its : list OrderItem) :
  Forall2 (order_line oid) xs its →
  Forall (λ it, oi_quantity it = 1 ∨ oi_quantity it = 2) its.
Proof. induction 1 as [| x it xs its (_ & Hq & _) _ IH]; constructor; done. Qed.

Lemma order_lines_subtotals (oid : Z) (xs : list Q) (its : list OrderItem) :
  Forall2 (order_line oid) xs its → oi_subtotal <$> its = round2 <$> xs.
Proof.
  induction 1 as [| x it xs its (_ & _ & _ & Hs) _ IH]; [done |].
  by rewrite !fmap_cons, Hs, IH.
Qed.

Lemma elem_of_concat {A} (x : A) (ls : list (list A)) :
  x ∈ concat ls ↔ ∃ l, x ∈ l ∧ l ∈ ls.
Proof.
  induction ls as [| l ls IH]; simpl.
  - split; [by intros ?%elem_of_nil | by intros (? & _ & ?%elem_of_nil)].
  - rewrite elem_of_app, IH. split.
    + intros [Hx | (l' & Hx & Hl')]; [exists l | exists l']; split; try done;
        [by left | by right].
    + intros (l' & Hx & [-> | Hl']%elem_of_cons); [by left | right; eauto].
Qed.

Lemma block_ids (o : Order) (its : list OrderItem) :
  order_block o its → Forall (λ it, oi_order_id it = o_order_id o) its.
Proof. intros [_ (xs & Hlines & _) _ _]. by eapply order_lines_ids. Qed.

(** In a sequence of blocks with distinct order ids, the rows of an order
    are its block. *)
Lemma items_of_blocks (blocks : list (Order * list OrderItem)) :
  NoDup (o_order_id <$> blocks.*1) →
  Forall (λ b, Forall (λ it, oi_order_id it = o_order_id b.1) b.2) blocks →
  Forall (λ b, items_of b.1 (concat blocks.*2) = b.2) blocks.
Proof.
  induction blocks as [| [o its] blocks IH]; intros Hnd Hok; [constructor |].
  rewrite !fmap_cons in Hnd. cbn [fst] in Hnd.
  apply NoDup_cons in Hnd as [Hfresh Hnd].
  apply Forall_cons in Hok as [Ho Hok]. cbn [fst snd] in Ho.
  rewrite !fmap_cons. cbn [snd concat].
  assert (Hrest : Forall (λ it, oi_order_id it ≠ o_order_id o) (concat blocks.*2)).
  { apply Forall_forall. intros it Hit.
    apply elem_of_concat in Hit as (its' & Hit & Hits').
    apply list_elem_of_fmap in Hits' as ([o' its''] & -> & Hb). cbn [snd] in Hit.
    rewrite Forall_forall in Hok. specialize (Hok _ Hb). cbn [fst snd] in Hok.
    rewrite Forall_forall in Hok. rewrite (Hok _ Hit).
    intros Heq. apply Hfresh. rewrite <- Heq.
    apply list_elem_of_fmap. exists o'. split; [done |].
    apply list_elem_of_fmap. by exists (o', its''). }
  constructor.
  - cbn [fst snd]. unfold items_of. rewrite filter_app.
    rewrite (filter_all _ its) by done.
    rewrite (filter_none _ (concat blocks.*2)) by done.
    by rewrite app_nil_r.
  - specialize (IH Hnd Hok).
    rewrite Forall_forall in IH, Hok |- *. intros [o' its'] Hb.
    specialize (IH _ Hb). specialize (Hok _ Hb). cbn [fst snd] in *.
    unfold items_of in *. rewrite filter_app, IH.
    rewrite (filter_none _ its); [done |].
    eapply Forall_impl; [exact Ho |].
    intros it Hit. cbn beta in Hit. rewrite Hit.
    intros Heq. apply Hfresh. rewrite Heq.
    apply list_elem_of_fmap. exists o'. split; [done |].
    apply list_elem_of_fmap. by exists (o', its').
Qed.

Lemma blocks_length (blocks : list (Order * list OrderItem)) :
  Forall (λ b, order_block b.1 b.2) blocks →
  (length blocks ≤ length (concat blocks.*2) ≤ 4 * length blocks)%nat.
Proof.
  induction 1 as [| [o its] blocks [Hsize _ _ _] _ IH]; [simpl; lia |].
  rewrite !fmap_cons. cbn [snd concat length] in *. rewrite length_app. lia.
Qed.

(** Every order of the result with its rows in [order_items]. *)
Lemma generated_order_block (customers : list Customer) (products : list Product)
    (s : GenState) orders items s' (o : Order) :
  generate_orders_and_items customers products s = Ok ((orders, items), s') →
  o ∈ orders →
  order_block o (items_of o items).
Proof.
  intros (blocks & -> & -> & Hok & Hids)%generate_orders_and_items_blocks Ho.
  apply list_elem_of_fmap in Ho as ([o' its] & -> & Hb). cbn [fst].
  pose proof (items_of_blocks blocks) as Hitems.
  rewrite Hids in Hitems. specialize (Hitems (NoDup_seqZ _ _)).
  assert (Hbids : Forall (λ b : Order * list OrderItem,
                    Forall (λ it, oi_order_id it = o_order_id b.1) b.2) blocks).
  { eapply Forall_impl; [exact Hok |]. intros b Hb'. by apply block_ids. }
  specialize (Hitems Hbids).
  rewrite Forall_forall in Hitems, Hok.
  pose proof (Hitems _ Hb) as Heq. cbn [fst snd] in Heq.
  rewrite Heq. exact (Hok _ Hb).
Qed.

(** *** Order status *)

Lemma days_ago_in_range (d : datetime) :
  in_range d →
  days_ago d = dt_ordinal (date_range config).2 - dt_ordinal d
  ∧ 0 ≤ days_ago d ≤ 365.
Proof.
  intros (Hsec & Hlo & Hhi). unfold days_ago, dt_diff.
  cbn [td_days]. rewrite Hsec.
  change (dt_second (date_range config).2) with 0.
  change ((0 - 0) `div` 86400) with 0.
  change (dt_ordinal (date_range config).1) with 738521 in Hlo.
  change (dt_ordinal (date_range config).2) with 738886 in *. lia.
Qed.

Lemma status_last_week (k : Z) :
  0 ≤ k < 7 → py_index (order_statuses config) (status_idx k) = Ok "cancelled".
Proof.
  intros Hk. unfold status_idx. rewrite Z.div_small by lia. reflexivity.
Qed.

Lemma status_after_four_weeks (k : Z) :
  28 ≤ k → py_index (order_statuses config) (status_idx k) = Ok "pending".
Proof.
  intros Hk. unfold status_idx.
  assert (4 ≤ k `div` 7) by (apply Z.div_le_lower_bound; lia).
  rewrite Z.max_l by lia. reflexivity.
Qed.

(** An older order never has a later stage of the pipeline. *)
Lemma status_idx_antitone (k1 k2 : Z) : k1 ≤ k2 → status_idx k2 ≤ status_idx k1.
Proof.
  intros Hk. unfold status_idx.
  assert (k1 `div` 7 ≤ k2 `div` 7) by (apply Z.div_le_mono; lia). lia.
Qed.

(** *** Payments *)

(** A pass of the payment loop stops at [timedelta]: the hours it has drawn
    are a [numpy.int64]. *)
Lemma generate_payment_raises (o : Order) (acc : list Payment * Z) (s : GenState) :
  generate_payment o acc s = Raise TypeError.
Proof.
  destruct acc as [payments pid]. unfold generate_payment.
  destruct (rng_integers_total 1 24 s ltac:(lia)) as (hours & s1 & Hh).
  unfold mbind at 1, M_bind at 1. by rewrite Hh.
Qed.

Lemma generate_payments_raises (o : Order) (orders : list Order) (s : GenState) :
  generate_payments (o :: orders) s = Raise TypeError.
Proof.
  unfold generate_payments. cbn [for_each].
  unfold mbind at 1, M_bind at 1. unfold mbind at 1, M_bind at 1.
  by rewrite generate_payment_raises.
Qed.

Lemma generate_payments_nil (s : GenState) : generate_payments [] s = Ok ([], s).
Proof. reflexivity. Qed.

(** *** The integrity validator *)

Lemma assert_Ok (b : bool) : assert_ b = Ok () ↔ b = true.
Proof. destruct b; simpl; split; done. Qed.

Lemma assert_cases (b : bool) (k : result unit) :
  (assert_ b ≫= λ _, k) = if b then k else Raise AssertionError.
Proof. by destruct b. Qed.

Lemma id_set_subseteq (xs ys : list Z) :
  id_set xs ⊆ id_set ys ↔ ∀ x, x ∈ xs → x ∈ ys.
Proof.
  unfold id_set. rewrite elem_of_subseteq.
  by setoid_rewrite elem_of_list_to_set.
Qed.

Lemma subset_fmap {A} (f : A → Z) (xs : list A) (ys : list Z) :
  (∀ z, z ∈ f <$> xs → z ∈ ys) ↔ (∀ x, x ∈ xs → f x ∈ ys).
Proof.
  split.
  - intros H x Hx. apply H. by apply list_elem_of_fmap_2.
  - intros H z (x & -> & Hx)%list_elem_of_fmap. by apply H.
Qed.

Lemma forallb_elem_of {A} (f : A → bool) (xs : list A) :
  forallb f xs = true ↔ ∀ x, x ∈ xs → f x = true.
Proof.
  rewrite forallb_forall. by setoid_rewrite list_elem_of_In.
Qed.

Lemma Qleb_le (x y : Q) : Qleb x y = true ↔ (x <= y)%Q.
Proof. unfold Qleb, Qle. apply Z.leb_le. Qed.

Lemma Qltb_lt (x y : Q) : Qltb x y = true ↔ (x < y)%Q.
Proof. unfold Qltb, Qlt. apply Z.ltb_lt. Qed.

Lemma validate_Ok customers products orders order_items payments :
  _validate_data_integrity customers products orders order_items payments = Ok ()
  ↔ integrity customers products orders order_items payments.
Proof.
  unfold _validate_data_integrity, integrity. rewrite !assert_cases.
  repeat match goal with
  | |- context [if ?b then _ else Raise AssertionError] => destruct b eqn:?
  end;
  repeat match goal with
  | H : bool_decide _ = true |- _ =>
      apply bool_decide_eq_true_1 in H; rewrite id_set_subseteq, subset_fmap in H
  | H : bool_decide _ = false |- _ =>
      apply bool_decide_eq_false_1 in H; rewrite id_set_subseteq, subset_fmap in H
  | H : forallb _ _ = true |- _ => rewrite forallb_elem_of in H
  | H : forallb _ _ = false |- _ =>
      apply not_true_iff_false in H; rewrite forallb_elem_of in H
  end;
  (split; [try discriminate; intros _ | try done; intros (?&?&?&?&Hq&Hu&Hp)]).
  - repeat split; try done.
    + intros it Hit. apply Z.ltb_lt. auto.
    + intros it Hit. apply Qleb_le. auto.
    + intros p Hp. apply Qltb_lt. auto.
  - exfalso. apply Heqb5. intros p Hin. by apply Qltb_lt, Hp.
  - exfalso. apply Heqb4. intros p Hin. by apply Qleb_le, Hu.
  - exfalso. apply Heqb3. intros p Hin. by apply Z.ltb_lt, Hq.
  - exfalso. auto.
  - exfalso. auto.
  - exfalso. auto.
  - exfalso. auto.
Qed.


(** *** The whole generation *)


(** The first customer already stops [generate_customers]: Faker's
    [date_between] yields a [date], and the age of the account is computed as
    [datetime - date]. *)
Lemma generate_customers_raises (s : GenState) :
  generate_customers s = Raise TypeError.
Proof.
  unfold generate_customers.
  change (customer_count config) with (Datatypes.S 299).
  cbn [for_range]. unfold mbind at 1, M_bind at 1. unfold mbind at 1, M_bind at 1.
  unfold with_fake at 1.
  destruct (fake_date_between _ _ (fake s)) as [signup_date f].
  reflexivity.
Qed.

Lemma generate_all_data_raises (s : GenState) :
  generate_all_data s = Raise TypeError.
Proof.
  unfold generate_all_data, mbind at 1, M_bind at 1.
  by rewrite generate_customers_raises.
Qed.

(** The guard [current_date <= end] of the day loop holds for the first
    [days_in_range] days from the start of the range and fails for the next. *)
Lemma days_in_range_guard (k : nat) :
  dt_le (Nat.iter k (λ d, dt_add d (timedelta_of 1 0)) (date_range config).1)
        (date_range config).2
  = bool_decide (k < days_in_range)%nat.
Proof.
  assert (Hk : Nat.iter k (λ d, dt_add d (timedelta_of 1 0)) (date_range config).1
               = mk_datetime (738521 + Z.of_nat k) 0).
  { induction k as [| k IH]; [done |].
    rewrite Nat.iter_succ, IH. unfold dt_add, timedelta_of.
    cbn [dt_ordinal dt_second td_days td_seconds].
    change ((0 * 3600) `div` 86400) with 0. change ((0 * 3600) `mod` 86400) with 0.
    change ((0 + 0) `div` 86400) with 0. change ((0 + 0) `mod` 86400) with 0.
    f_equal. lia. }
  rewrite Hk. unfold dt_le, dt_stamp. cbn [dt_ordinal dt_second].
  change (dt_ordinal (date_range config).2) with 738886.
  change (dt_second (date_range config).2) with 0.
  change days_in_range with 366%nat.
  destruct (Z.leb_spec ((738521 + Z.of_nat k) * 86400 + 0) (738886 * 86400 + 0));
    symmetry; [apply bool_decide_eq_true_2 | apply bool_decide_eq_false_2]; lia.
Qed.

End AdvancedProofs.

(** ** generate_quick_data *)

Lemma Forall2_blocks {A B} (R : A → B → Prop) (l : list A) (k : list B) :
  Forall2 R l k →
  ∃ blocks : list (A * B), blocks.*1 = l ∧ blocks.*2 = k ∧ Forall (λ b, R b.1 b.2) blocks.
Proof.
  induction 1 as [| x y l k Hxy _ (blocks & <- & <- & Hb)].
  - by exists [].
  - exists ((x, y) :: blocks). by repeat split; [constructor].
Qed.

Lemma concat_length_between {A B} (lo hi : nat) (l : list A) (bs : list (list B)) :
  Forall2 (λ _ its, lo ≤ length its ≤ hi)%nat l bs →
  (lo * length l ≤ length (concat bs) ≤ hi * length l)%nat.
Proof.
  induction 1 as [| x its l bs Hits _ IH]; [simpl; lia |].
  cbn [concat length]. rewrite length_app. lia.
Qed.

Section QuickProofs.
Context {L : NumpyRandom} {F : FakerSource}.

Lemma with_np_Ok {A} (draw : bit_state → A * bit_state) (w : QuickState) x w' :
  with_np draw w = Ok (x, w') ↔
  x = (draw (np_random w)).1
  ∧ w' = mk_quick_state (draw (np_random w)).2 (faker_random w) (clock w).
Proof.
  unfold with_np. destruct (draw (np_random w)) as [y g]. simpl.
  split; [intros [= <- <-] | intros [-> ->]]; done.
Qed.

Lemma np_randint_Ok (low high : Z) (w : QuickState) x w' :
  np_randint low high w = Ok (x, w') → low ≤ x < high.
Proof.
  unfold np_randint. case_bool_decide as Hlt; [| discriminate].
  intros [-> _]%with_np_Ok. by apply draw_integers_range.
Qed.

Lemma quick_orders_ids (w : QuickState) os w' :
  quick_orders w = Ok (os, w') → o_order_id <$> os = seqZ 1 100.
Proof.
  unfold quick_orders. intros Hrun.
  repeat (apply bind_Ok in Hrun as (? & ? & _ & Hrun)).
  apply ret_Ok in Hrun as [-> _]. by rewrite <- list_fmap_compose.
Qed.

Lemma quick_products_ids (w : QuickState) ps w' :
  quick_products w = Ok (ps, w') → p_product_id <$> ps = seqZ 1 30.
Proof.
  unfold quick_products. intros Hrun.
  repeat (apply bind_Ok in Hrun as (? & ? & _ & Hrun)).
  apply ret_Ok in Hrun as [-> _]. by rewrite <- list_fmap_compose.
Qed.

(** Row [i] of [payments] copies the id, total and date of row [i] of
    [orders]. *)
Lemma quick_payments_spec (os : list Order) (w : QuickState) ps w' :
  o_order_id <$> os = seqZ 1 100 →
  quick_payments os w = Ok (ps, w') →
  Forall2 (λ o p, pay_order_id p = o_order_id o
                  ∧ pay_payment_date p = o_order_date o
                  ∧ pay_amount p = o_total_amount o) os ps.
Proof.
  unfold quick_payments. intros Hids Hrun.
  repeat (apply bind_Ok in Hrun as (? & ? & _ & Hrun)).
  apply ret_Ok in Hrun as [-> _].
  apply Forall2_same_length_lookup_2.
  - rewrite length_fmap, length_seq.
    by rewrite <- (length_fmap o_order_id), Hids, length_seqZ.
  - intros i o p Ho Hp.
    rewrite list_lookup_fmap in Hp.
    destruct (seq 0 100 !! i) as [j |] eqn:Hj; [| discriminate].
    apply lookup_seq in Hj as [-> Hi]. injection Hp as <-. cbn.
    assert (Hid : (o_order_id <$> os) !! i = Some (o_order_id o))
      by by rewrite list_lookup_fmap, Ho.
    rewrite Hids in Hid. apply lookup_seqZ in Hid as [-> _].
    unfold cell.
    rewrite (nth_lookup_Some (o_order_date <$> os) i _ (o_order_date o))
      by by rewrite list_lookup_fmap, Ho.
    rewrite (nth_lookup_Some (o_total_amount <$> os) i _ (o_total_amount o))
      by by rewrite list_lookup_fmap, Ho.
    split; [lia | done].
Qed.

Lemma quick_item_spec (ps : list Product) (oid : Z) items iid (w : QuickState) acc' w' :
  p_product_id <$> ps = seqZ 1 30 →
  quick_item ps oid (items, iid) w = Ok (acc', w') →
  ∃ it, acc' = (items ++ [it], iid + 1)
        ∧ oi_order_id it = oid ∧ (oi_quantity it = 1 ∨ oi_quantity it = 2).
Proof.
  unfold quick_item. intros Hids Hrun.
  apply bind_Ok in Hrun as (pid & w1 & Hpid%np_randint_Ok & Hrun).
  apply bind_Ok in Hrun as (quantity & w2 & Hq%np_randint_Ok & Hrun).
  destruct (filter (λ p, p_product_id p = pid) ps) as [| p row] eqn:Hrow.
  - exfalso.
    assert (Hin : pid ∈ p_product_id <$> ps).
    { rewrite Hids. apply elem_of_seqZ. lia. }
    apply list_elem_of_fmap in Hin as (p & -> & Hp).
    exact (filter_nil_not_elem_of _ _ p Hrow eq_refl Hp).
  - apply ret_Ok in Hrun as [-> _]. eexists. split; [done |]. cbn. split; [done | lia].
Qed.

Lemma quick_order_items_spec (ps : list Product) (oid : Z) items iid
    (w : QuickState) acc' w' :
  p_product_id <$> ps = seqZ 1 30 →
  quick_order_items ps oid (items, iid) w = Ok (acc', w') →
  ∃ its, acc'.1 = items ++ its
         ∧ (1 ≤ length its ≤ 3)%nat
         ∧ Forall (λ it, oi_order_id it = oid
                         ∧ (oi_quantity it = 1 ∨ oi_quantity it = 2)) its.
Proof.
  unfold quick_order_items. intros Hids Hrun.
  apply bind_Ok in Hrun as (num_items & w1 & Hn%np_randint_Ok & Hrun).
  apply (for_range_ind
           (λ k (acc : list OrderItem * Z),
              ∃ its, acc.1 = items ++ its ∧ length its = k
                     ∧ Forall (λ it, oi_order_id it = oid
                                     ∧ (oi_quantity it = 1 ∨ oi_quantity it = 2)) its))
    in Hrun.
  - destruct Hrun as (its & Hits & Hlen & Hall). exists its.
    split; [done |]. split; [lia | done].
  - exists []. cbn. by rewrite app_nil_r.
  - intros k [its0 iid0] a' w2 w3 _ (its & Hits & Hlen & Hall) Hstep.
    cbn in Hits. subst its0.
    apply quick_item_spec in Hstep as (it & -> & Hid & Hq); [| done].
    exists (its ++ [it]). cbn. split; [by rewrite app_assoc |].
    split; [rewrite length_app; simpl; lia |].
    apply Forall_app. split; [done | by constructor].
Qed.

Lemma quick_items_loop (ps : list Product) (w : QuickState) items iid w' :
  p_product_id <$> ps = seqZ 1 30 →
  for_range 100 1 (quick_order_items ps) ([], 1) w = Ok ((items, iid), w') →
  ∃ bs, items = concat bs
        ∧ Forall2 (λ oid its,
                     (1 ≤ length its ≤ 3)%nat
                     ∧ Forall (λ it, oi_order_id it = oid
                                     ∧ (oi_quantity it = 1 ∨ oi_quantity it = 2)) its)
                  (seqZ 1 100) bs.
Proof.
  intros Hids Hrun.
  apply (for_range_ind
           (λ k (acc : list OrderItem * Z),
              ∃ bs, acc.1 = concat bs
                    ∧ Forall2 (λ oid its,
                         (1 ≤ length its ≤ 3)%nat
                         ∧ Forall (λ it, oi_order_id it = oid
                                         ∧ (oi_quantity it = 1 ∨ oi_quantity it = 2)) its)
                        (seqZ 1 (Z.of_nat k)) bs)) in Hrun.
  - exact Hrun.
  - exists []. split; [done | constructor].
  - intros k [its0 iid0] a' w2 w3 _ (bs & Hits & Hbs) Hstep.
    cbn in Hits. subst its0.
    apply quick_order_items_spec in Hstep as (its & -> & Hlen & Hall); [| done].
    exists (bs ++ [its]). split.
    + rewrite concat_app. simpl. by rewrite app_nil_r.
    + rewrite seqZ_S. apply Forall2_app; [done |].
      constructor; [by split | constructor].
Qed.

(** The tables of [generate_quick_data]: 100 orders with ids 1..100, the
    rows of [order_items] in one block of 1 to 3 rows per order, and the
    payments row by row beside the orders. *)
Lemma generate_quick_data_spec (w : QuickState) (d : Datasets) w' :
  generate_quick_data w = Ok (d, w') →
  o_order_id <$> orders d = seqZ 1 100
  ∧ (∃ bs, order_items d = concat bs
           ∧ Forall2 (λ o its,
                (1 ≤ length its ≤ 3)%nat
                ∧ Forall (λ it, oi_order_id it = o_order_id o
                                ∧ (oi_quantity it = 1 ∨ oi_quantity it = 2)) its)
               (orders d) bs)
  ∧ Forall2 (λ o p, pay_order_id p = o_order_id o
                    ∧ pay_payment_date p = o_order_date o
                    ∧ pay_amount p = o_total_amount o) (orders d) (payments d).
Proof.
  unfold generate_quick_data. intros Hrun.
  apply bind_Ok in Hrun as ([] & w0 & _ & Hrun).
  apply bind_Ok in Hrun as (cs & w1 & _ & Hrun).
  apply bind_Ok in Hrun as (ps & w2 & Hps%quick_products_ids & Hrun).
  apply bind_Ok in Hrun as (os & w3 & Hos%quick_orders_ids & Hrun).
  apply bind_Ok in Hrun as ([items iid] & w4 & Hitems & Hrun).
  apply bind_Ok in Hrun as (pays & w5 & Hpays & Hrun).
  apply ret_Ok in Hrun as [-> _]. cbn.
  apply quick_items_loop in Hitems as (bs & -> & Hbs); [| done].
  apply quick_payments_spec in Hpays; [| done].
  split; [done |]. split; [| done].
  exists bs. split; [done |].
  rewrite <- Hos in Hbs. by apply Forall2_fmap_l in Hbs.
Qed.

(** Every order of the quick data has 1 to 3 rows in [order_items]. *)
Lemma quick_items_per_order (w : QuickState) (d : Datasets) w' :
  generate_quick_data w = Ok (d, w') →
  length (orders d) = 100%nat
  ∧ (∀ o, o ∈ orders d → (1 ≤ length (items_of o (order_items d)) ≤ 3)%nat)
  ∧ (∀ it, it ∈ order_items d → oi_quantity it = 1 ∨ oi_quantity it = 2)
  ∧ (100 ≤ length (order_items d) ≤ 300)%nat.
Proof.
  intros (Hids & (bs & Hitems & Hbs) & _)%generate_quick_data_spec.
  assert (Hlen : length (orders d) = 100%nat).
  { by rewrite <- (length_fmap o_order_id), Hids, length_seqZ. }
  split; [done |]. rewrite Hitems.
  split; [| split].
  - destruct (Forall2_blocks _ _ _ Hbs) as (blocks & Ho & <- & Hblocks).
    pose proof (items_of_blocks blocks) as Hof.
    rewrite Ho, Hids in Hof. specialize (Hof (NoDup_seqZ _ _)).
    assert (Hbids : Forall (λ b : Order * list OrderItem,
                      Forall (λ it, oi_order_id it = o_order_id b.1) b.2) blocks).
    { eapply Forall_impl; [exact Hblocks |]. intros b [_ Hb].
      eapply Forall_impl; [exact Hb |]. by intros it [? _]. }
    specialize (Hof Hbids).
    intros o Hin. rewrite <- Ho in Hin.
    apply list_elem_of_fmap in Hin as ([o' its] & -> & Hb).
    rewrite Forall_forall in Hof, Hblocks.
    pose proof (Hof _ Hb) as Heq. cbn [fst snd] in Heq |- *. rewrite Heq.
    by destruct (Hblocks _ Hb) as [? _].
  - intros it (its & Hit & Hits)%elem_of_concat.
    apply list_elem_of_lookup in Hits as [i Hi].
    destruct (Forall2_lookup_r _ _ _ _ _ Hbs Hi) as (o & _ & _ & Hall).
    rewrite Forall_forall in Hall. by destruct (Hall _ Hit).
  - assert (Hb : Forall2 (λ (_ : Order) its, (1 ≤ length its ≤ 3)%nat) (orders d) bs).
    { eapply Forall2_impl; [exact Hbs |]. by intros o its [? _]. }
    apply concat_length_between in Hb. lia.
Qed.

End QuickProofs.

(** ** Ingestion *)

Section IngestionProofs.
Import Ingestion.
Context {St : Store}.

Lemma check_null_invalid (df : DataFrame) (v : ValidationResults) (cols : list string) :
  is_valid v = false → is_valid (foldl (check_null df) v cols) = false.
Proof.
  revert v. induction cols as [| c cols IH]; intros v Hv; [done |].
  cbn [foldl]. apply IH. unfold check_null.
  by destruct (has_column df c && existsb is_null (column df c)).
Qed.

Lemma check_null_found (df : DataFrame) (v : ValidationResults)
    (cols : list string) (col : string) :
  col ∈ cols →
  has_column df col = true →
  existsb is_null (column df col) = true →
  is_valid (foldl (check_null df) v cols) = false.
Proof.
  intros Hin Hcol Hnull. revert v.
  induction cols as [| c cols IH]; intros v; [by apply elem_of_nil in Hin |].
  cbn [foldl]. apply elem_of_cons in Hin as [<- | Hin].
  - apply check_null_invalid. unfold check_null. by rewrite Hcol, Hnull.
  - by apply IH.
Qed.

(** A null in a critical column of the table makes the frame invalid,
    whatever the later checks find. *)
Lemma validate_null_invalid (df : DataFrame) (table_name : string)
    (cols : list string) (col : string) :
  critical_columns !! table_name = Some cols →
  col ∈ cols →
  has_column df col = true →
  existsb is_null (column df col) = true →
  is_valid (validate_data_quality df table_name) = false.
Proof.
  intros Hcols Hin Hcol Hnull. unfold validate_data_quality. rewrite Hcols.
  pose proof (check_null_found df (mk_validation true []) cols col Hin Hcol Hnull) as Hv.
  destruct (if has_column df "quantity" then _ else _) as [[] |]; [| | done];
    destruct (if has_column df "price" then _ else _) as [[] |]; done.
Qed.

(** Such a table is marked failed and the store is left as it was. *)
Lemma ingest_table_null (df : DataFrame) (table_name : string)
    (cols : list string) (col : string) (db : database) :
  critical_columns !! table_name = Some cols →
  col ∈ cols →
  has_column df col = true →
  existsb is_null (column df col) = true →
  ingest_table table_name (Csv df) db = (false, db).
Proof.
  intros Hcols Hin Hcol Hnull. unfold ingest_table.
  by rewrite (validate_null_invalid df table_name cols col).
Qed.

Lemma critical_columns_tables (table_name : string) (cols : list string) :
  critical_columns !! table_name = Some cols →
  table_name ∈ ["customers"; "products"; "orders"; "order_items"; "payments"].
Proof.
  intros H.
  assert (Hdom : table_name ∈ dom critical_columns) by (apply elem_of_dom; eauto).
  unfold critical_columns in Hdom. rewrite dom_list_to_map_L in Hdom.
  apply elem_of_list_to_set in Hdom. exact Hdom.
Qed.

Lemma all_values_true (results : gmap string bool) :
  all_values results = true ↔ ∀ t b, results !! t = Some b → b = true.
Proof.
  unfold all_values. rewrite forallb_forall. split.
  - intros H t b Htb. apply (H (t, b)).
    by apply list_elem_of_In, elem_of_map_to_list.
  - intros H [t b] Hin. apply list_elem_of_In, elem_of_map_to_list in Hin.
    by apply (H t).
Qed.

Lemma all_values_false (results : gmap string bool) (t : string) :
  results !! t = Some false → all_values results = false.
Proof.
  intros Ht. apply not_true_iff_false. rewrite all_values_true.
  intros H. by specialize (H t false Ht).
Qed.

(** Unfold the passes of the loop one by one, naming the outcome of each
    [ingest_table] call. *)
Ltac ingest_steps :=
  repeat match goal with
  | |- context [ingest_step ?e (?r, ?d) ?f] =>
      let x := eval vm_compute in (str_remove ".csv" f) in
      change (ingest_step e (r, d) f)
        with (let '(success, db') := ingest_table x (data_dir_file e f) d in
              (<[x := success]> r, db'));
      let E := fresh "Hstep" in
      destruct (ingest_table x (data_dir_file e f) d) as [? ?] eqn:E
  end.

(** A table with a null in a critical column: the run goes on over all five
    files, that table is flagged False, and the flags of the other tables and
    the store are those of the run without that file. *)
Lemma ingest_all_data_null_table (env : Env) (db : database) (table_name : string)
    (df : DataFrame) (cols : list string) (col : string) :
  data_dir_exists env = true →
  data_dir_file env (table_name +:+ ".csv") = Csv df →
  critical_columns !! table_name = Some cols →
  col ∈ cols →
  has_column df col = true →
  existsb is_null (column df col) = true →
  (ingest_all_data env db).1 !! table_name = Some false
  ∧ dom (ingest_all_data env db).1
    = list_to_set ["customers"; "products"; "orders"; "order_items"; "payments"]
  ∧ ingest_all_data env db
    = (let '(results, db') :=
         ingest_files (filter (λ f, f ≠ table_name +:+ ".csv") ingestion_order) env db in
       (<[table_name := false]> results, db')).
Proof.
  intros Hdir Hfile Hcols Hin Hcol Hnull.
  pose proof (λ d, ingest_table_null df table_name cols col d Hcols Hin Hcol Hnull)
    as Hfail.
  unfold ingest_all_data. rewrite Hdir.
  apply critical_columns_tables in Hcols.
  repeat (apply elem_of_cons in Hcols as [-> | Hcols]);
    [.. | by apply elem_of_nil in Hcols];
    match type of Hfile with
    | data_dir_file _ ?f = _ =>
        let f' := eval vm_compute in f in change f with f' in Hfile
    end;
    unfold ingest_files, ingestion_order;
    match goal with
    | |- context [filter ?P ?l] =>
        let l' := eval vm_compute in (filter P l) in change (filter P l) with l'
    end;
    cbn [foldl]; ingest_steps;
    repeat match goal with
    | H : ingest_table _ (data_dir_file env _) _ = _ |- _ =>
        rewrite Hfile, Hfail in H; injection H as <- <-
    end;
    repeat match goal with
    | H1 : ?t = (?a, ?b), H2 : ?t = (?c, ?d) |- _ =>
        rewrite H1 in H2; injection H2 as <- <-
    end;
    cbn [fst snd];
    (split;
       [ rewrite ?lookup_insert_ne by done; by rewrite lookup_insert_eq
       | split;
           [ rewrite !dom_insert_L, dom_empty_L; set_solver
           | f_equal; apply map_eq; intros k; rewrite !lookup_insert;
             repeat case_decide; simplify_eq; done ] ]).
Qed.

(** The exit status of [main]: 0 exactly when the database was initialised
    and no table is flagged False. *)
Lemma main_exit_code (env : Env) (db : database) :
  exit_code (main env db).1
  = match initialize_database env with
    | InitOk => if all_values (ingest_all_data env db).1 then 0 else 1
    | _ => 1
    end.
Proof.
  unfold main, main_body.
  destruct (initialize_database env); [| done | done].
  destruct (ingest_all_data env db) as [results db']. cbn [fst].
  by destruct (all_values results).
Qed.

End IngestionProofs.

(** * Main results *)

(** ** Order totals *)

(** C1, as amended. For every generated order there are exact line amounts
    [xs], one per row of the order, each [quantity * actual_price] with
    [actual_price] the discounted price before rounding (the row's [unit_price]
    is its rounding): every row's [subtotal] is [round(x, 2)], [total_amount]
    is [round(sum(xs), 2)], the rounding of the exact sum, and it differs from
    the sum of the rows' subtotals by at most two cents. *)
Theorem order_total_rounds_exact_sum (G : NumpyRandom) (F : FakerSource)
    (customers : list Customer) (products : list Product) (s : GenState)
    (orders : list Order) (items : list OrderItem) (s' : GenState) (o : Order) :
  generate_orders_and_items customers products s = Ok ((orders, items), s') →
  o ∈ orders →
  ∃ xs : list Q,
    Forall2 (order_line (o_order_id o)) xs (items_of o items)
    ∧ o_total_amount o = round2 (Qsum xs)
    ∧ (Qabs (o_total_amount o - Qsum (oi_subtotal <$> items_of o items)) <= 2 # 100)%Q.
Proof.
  intros Hrun Ho.
  destruct (generated_order_block _ _ _ _ _ _ _ Hrun Ho)
    as [Hsize (xs & Hlines & Htotal) _ _].
  exists xs. split; [done |]. split; [done |].
  rewrite Htotal, (order_lines_subtotals _ _ _ Hlines).
  apply round2_total_vs_subtotals.
  apply Forall2_length in Hlines. lia.
Qed.

Lemma order_total_rounds_exact_sum_witness :
  generate_orders_and_items (G := Scripted.numpy) (F := Scripted.faker)
    [Scripted.customer] [Scripted.product] Scripted.two_lines
  = Ok (([Scripted.two_lines_order], Scripted.two_lines_items),
        mk_gen_state (G := Scripted.numpy) (F := Scripted.faker) [] O)
  ∧ Scripted.two_lines_order ∈ [Scripted.two_lines_order]
  ∧ ∃ xs : list Q,
      Forall2 (order_line 1) xs (items_of Scripted.two_lines_order Scripted.two_lines_items)
      ∧ o_total_amount Scripted.two_lines_order = round2 (Qsum xs)
      ∧ (Qabs (o_total_amount Scripted.two_lines_order
               - Qsum (oi_subtotal <$> items_of Scripted.two_lines_order
                                         Scripted.two_lines_items)) <= 2 # 100)%Q.
Proof.
  assert (Hrun : generate_orders_and_items (G := Scripted.numpy) (F := Scripted.faker)
                   [Scripted.customer] [Scripted.product] Scripted.two_lines
                 = Ok (([Scripted.two_lines_order], Scripted.two_lines_items),
                       mk_gen_state (G := Scripted.numpy) (F := Scripted.faker) [] O))
    by (vm_compute; reflexivity).
  split; [exact Hrun |]. split; [apply list_elem_of_here |].
  exact (order_total_rounds_exact_sum Scripted.numpy Scripted.faker _ _ _ _ _ _ _
           Hrun (list_elem_of_here _ _)).
Defined.

(** C1 as stated fails: in the run [Scripted.two_lines] the order's total is
    18.01 (the rounding of 9.004 + 9.004) while its two subtotals are 9.00
    each. *)
Lemma order_total_differs_from_subtotals :
  ¬ (∀ (G : NumpyRandom) (F : FakerSource) (customers : list Customer)
       (products : list Product) (s : GenState) orders items s' (o : Order),
       generate_orders_and_items customers products s = Ok ((orders, items), s') →
       o ∈ orders →
       (round2 (o_total_amount o) == Qsum (oi_subtotal <$> items_of o items))%Q).
Proof.
  intros Hclaim.
  specialize (Hclaim Scripted.numpy Scripted.faker [Scripted.customer] [Scripted.product]
                Scripted.two_lines [Scripted.two_lines_order] Scripted.two_lines_items
                (mk_gen_state (G := Scripted.numpy) (F := Scripted.faker) [] O)
                Scripted.two_lines_order).
  assert (Hne : ¬ (round2 (o_total_amount Scripted.two_lines_order)
                   == Qsum (oi_subtotal <$> items_of Scripted.two_lines_order
                                             Scripted.two_lines_items))%Q)
    by (vm_compute; discriminate).
  apply Hne, Hclaim; [vm_compute; reflexivity | apply list_elem_of_here].
Qed.

(** ** Rows per order *)

(** C8. Every order generated by [generate_orders_and_items] has between 1
    and 4 rows in [order_items], every row has quantity 1 or 2, and the number
    of rows lies between [n] and [4 n] for [n] orders; the same holds for the
    100 orders of [generate_quick_data] (which draws 1 to 3 rows per order), so
    its [order_items] has between 100 and 400 rows. *)
Theorem items_per_order :
  (∀ (G : NumpyRandom) (F : FakerSource) (customers : list Customer)
     (products : list Product) (s : GenState) orders items s',
     generate_orders_and_items customers products s = Ok ((orders, items), s') →
     (∀ o, o ∈ orders → (1 ≤ length (items_of o items) ≤ 4)%nat)
     ∧ (∀ it, it ∈ items → oi_quantity it = 1 ∨ oi_quantity it = 2)
     ∧ (length orders ≤ length items ≤ 4 * length orders)%nat)
  ∧ (∀ (L : NumpyRandom) (F : FakerSource) (w : QuickState) (d : Datasets) w',
       generate_quick_data w = Ok (d, w') →
       length (orders d) = 100%nat
       ∧ (∀ o, o ∈ orders d → (1 ≤ length (items_of o (order_items d)) ≤ 4)%nat)
       ∧ (∀ it, it ∈ order_items d → oi_quantity it = 1 ∨ oi_quantity it = 2)
       ∧ (100 ≤ length (order_items d) ≤ 400)%nat).
Proof.
  split.
  - intros G F customers products s orders items s' Hrun.
    split; [| split].
    + intros o Ho. by destruct (generated_order_block _ _ _ _ _ _ _ Hrun Ho).
    + apply generate_orders_and_items_blocks in Hrun as (blocks & -> & -> & Hok & _).
      intros it (its & Hit & Hits)%elem_of_concat.
      apply list_elem_of_fmap in Hits as ([o its'] & -> & Hb).
      rewrite Forall_forall in Hok.
      destruct (Hok _ Hb) as [_ (xs & Hlines & _) _ _].
      apply order_lines_quantities in Hlines. rewrite Forall_forall in Hlines.
      by apply Hlines.
    + apply generate_orders_and_items_blocks in Hrun as (blocks & -> & -> & Hok & _).
      rewrite length_fmap. by apply blocks_length.
  - intros L F w d w' Hrun.
    destruct (quick_items_per_order _ _ _ Hrun) as (Hn & Hper & Hq & Hlen).
    split; [done |]. split; [| split; [done | lia]].
    intros o Ho. specialize (Hper o Ho). lia.
Qed.

Lemma items_per_order_witness :
  (generate_orders_and_items (G := Scripted.numpy) (F := Scripted.faker)
     [Scripted.customer] [Scripted.product] Scripted.two_lines
   = Ok (([Scripted.two_lines_order], Scripted.two_lines_items),
         mk_gen_state (G := Scripted.numpy) (F := Scripted.faker) [] O)
   ∧ (1 ≤ length (items_of Scripted.two_lines_order Scripted.two_lines_items) ≤ 4)%nat
   ∧ (length [Scripted.two_lines_order] ≤ length Scripted.two_lines_items
      ≤ 4 * length [Scripted.two_lines_order])%nat)
  ∧ (∃ d w', generate_quick_data (L := Scripted.numpy) (F := Scripted.faker)
               Scripted.quick = Ok (d, w')
             ∧ length (orders d) = 100%nat
             ∧ (100 ≤ length (order_items d) ≤ 400)%nat).
Proof.
  split.
  - assert (Hrun : generate_orders_and_items (G := Scripted.numpy) (F := Scripted.faker)
                     [Scripted.customer] [Scripted.product] Scripted.two_lines
                   = Ok (([Scripted.two_lines_order], Scripted.two_lines_items),
                         mk_gen_state (G := Scripted.numpy) (F := Scripted.faker) [] O))
      by (vm_compute; reflexivity).
    destruct (proj1 items_per_order Scripted.numpy Scripted.faker _ _ _ _ _ _ Hrun)
      as (Hper & _ & Hlen).
    split; [exact Hrun |]. split; [| exact Hlen].
    apply Hper, list_elem_of_here.
  - destruct (generate_quick_data (L := Scripted.numpy) (F := Scripted.faker)
                Scripted.quick) as [[d w'] |] eqn:Hrun; [| by vm_compute in Hrun].
    exists d, w'. split; [done |].
    destruct (proj2 items_per_order Scripted.numpy Scripted.faker _ _ _ Hrun)
      as (Hn & _ & _ & Hlen).
    by split.
Defined.

(** ** Order status *)

(** C10. The status of a generated order is a function of its order date
    alone: it is [order_statuses[status_idx]] for
    [status_idx = min(4, max(0, 4 - days_ago // 7))], where [days_ago], between
    0 and 365, counts the days from the order date to the end of the range. So
    an order less than 7 days before the end of the range is 'cancelled' and an
    order 28 days or more before it is 'pending'. *)
Theorem order_status_from_order_date (G : NumpyRandom) (F : FakerSource)
    (customers : list Customer) (products : list Product) (s : GenState)
    (orders : list Order) (items : list OrderItem) (s' : GenState) (o : Order) :
  generate_orders_and_items customers products s = Ok ((orders, items), s') →
  o ∈ orders →
  py_index (order_statuses config) (status_idx (days_ago (o_order_date o)))
    = Ok (o_status o)
  ∧ 0 ≤ days_ago (o_order_date o) ≤ 365
  ∧ (days_ago (o_order_date o) < 7 → o_status o = "cancelled")
  ∧ (28 ≤ days_ago (o_order_date o) → o_status o = "pending").
Proof.
  intros Hrun Ho.
  destruct (generated_order_block _ _ _ _ _ _ _ Hrun Ho) as [_ _ Hdate Hstatus].
  destruct (days_ago_in_range _ Hdate) as [_ Hk].
  unfold status_at in Hstatus.
  split; [done |]. split; [done |]. split; intros Hage.
  - rewrite status_last_week in Hstatus by lia. by injection Hstatus.
  - rewrite status_after_four_weeks in Hstatus by lia. by injection Hstatus.
Qed.

Lemma order_status_from_order_date_witness :
  generate_orders_and_items (G := Scripted.numpy) (F := Scripted.faker)
    [Scripted.customer] [Scripted.product] Scripted.first_and_last_day
  = Ok (([Scripted.first_day_order; Scripted.last_day_order],
         [mk_order_item 1 1 1 1 (800 # 100) (800 # 100);
          mk_order_item 2 2 1 1 (800 # 100) (800 # 100)]),
        mk_gen_state (G := Scripted.numpy) (F := Scripted.faker) [] O)
  ∧ Scripted.last_day_order ∈ [Scripted.first_day_order; Scripted.last_day_order]
  ∧ py_index (order_statuses config)
      (status_idx (days_ago (o_order_date Scripted.last_day_order)))
    = Ok (o_status Scripted.last_day_order)
  ∧ 0 ≤ days_ago (o_order_date Scripted.last_day_order) ≤ 365
  ∧ (days_ago (o_order_date Scripted.last_day_order) < 7
     → o_status Scripted.last_day_order = "cancelled")
  ∧ (28 ≤ days_ago (o_order_date Scripted.last_day_order)
     → o_status Scripted.last_day_order = "pending").
Proof.
  assert (Hrun : generate_orders_and_items (G := Scripted.numpy) (F := Scripted.faker)
                   [Scripted.customer] [Scripted.product] Scripted.first_and_last_day
                 = Ok (([Scripted.first_day_order; Scripted.last_day_order],
                        [mk_order_item 1 1 1 1 (800 # 100) (800 # 100);
                         mk_order_item 2 2 1 1 (800 # 100) (800 # 100)]),
                       mk_gen_state (G := Scripted.numpy) (F := Scripted.faker) [] O))
    by (vm_compute; reflexivity).
  assert (Hin : Scripted.last_day_order
                ∈ [Scripted.first_day_order; Scripted.last_day_order])
    by (apply list_elem_of_further, list_elem_of_here).
  split; [exact Hrun |]. split; [exact Hin |].
  exact (order_status_from_order_date Scripted.numpy Scripted.faker _ _ _ _ _ _ _
           Hrun Hin).
Defined.

(** C2. The code ages statuses the other way round from what its comments
    announce: in the run [Scripted.first_and_last_day] the order placed on the
    last day of the range (0 days ago) is 'cancelled' and the order placed on
    the first day (365 days ago) is 'pending'; in general the status index
    never grows with the age of the order. *)
Theorem recent_orders_get_final_statuses :
  generate_orders_and_items (G := Scripted.numpy) (F := Scripted.faker)
    [Scripted.customer] [Scripted.product] Scripted.first_and_last_day
  = Ok (([Scripted.first_day_order; Scripted.last_day_order],
         [mk_order_item 1 1 1 1 (800 # 100) (800 # 100);
          mk_order_item 2 2 1 1 (800 # 100) (800 # 100)]),
        mk_gen_state (G := Scripted.numpy) (F := Scripted.faker) [] O)
  ∧ days_ago (o_order_date Scripted.last_day_order) = 0
  ∧ o_status Scripted.last_day_order = "cancelled"
  ∧ days_ago (o_order_date Scripted.first_day_order) = 365
  ∧ o_status Scripted.first_day_order = "pending"
  ∧ (∀ k1 k2 : Z, k1 ≤ k2 → status_idx k2 ≤ status_idx k1).
Proof.
  split; [vm_compute; reflexivity |].
  do 4 (split; [reflexivity |]).
  apply status_idx_antitone.
Qed.

(** ** Payments *)

(** C6. [generate_payments] does not get to one payment per order: on a
    table with at least one order it raises TypeError in the first pass of its
    loop, whatever the random sources give, because the hours it draws with
    [rng.integers(1, 24)] reach [timedelta] as a [numpy.int64]; no payment is
    made and no status is derived. Only for an empty table does it return, the
    empty list of payments. So it is for the order that
    [generate_orders_and_items] returns on the script [Scripted.two_lines]. *)
Theorem payments_stop_at_first_order :
  (∀ (G : NumpyRandom) (F : FakerSource) (o : Order) (orders : list Order)
     (s : GenState),
     generate_payments (o :: orders) s = Raise TypeError)
  ∧ (∀ (G : NumpyRandom) (F : FakerSource) (s : GenState),
       generate_payments [] s = Ok ([], s))
  ∧ generate_payments (G := Scripted.numpy) (F := Scripted.faker)
      [Scripted.two_lines_order] Scripted.one_payment
    = Raise TypeError.
Proof.
  split; [| split].
  - intros G F o orders s. apply generate_payments_raises.
  - intros G F s. apply generate_payments_nil.
  - vm_compute. reflexivity.
Qed.

(** C5, as amended. [generate_quick_data] copies the order dates into the
    payments frame: the payment of every order of the quick data carries the
    order's id and is dated at the order's date, not after it. *)
Theorem quick_payment_dated_at_order_date (L : NumpyRandom) (F : FakerSource)
    (w : QuickState) (d : Datasets) (w' : QuickState) :
  generate_quick_data w = Ok (d, w') →
  Forall2 (λ o p, pay_order_id p = o_order_id o
                  ∧ pay_payment_date p = o_order_date o
                  ∧ ¬ dt_lt (o_order_date o) (pay_payment_date p))
          (orders d) (payments d).
Proof.
  intros (_ & _ & Hpays)%generate_quick_data_spec.
  eapply Forall2_impl; [exact Hpays |].
  intros o p (Hid & Hdate & _). split; [done |]. split; [done |].
  unfold dt_lt. rewrite Hdate. lia.
Qed.

Lemma quick_payment_dated_at_order_date_witness :
  ∃ d w', generate_quick_data (L := Scripted.numpy) (F := Scripted.faker)
            Scripted.quick = Ok (d, w')
          ∧ Forall2 (λ o p, pay_order_id p = o_order_id o
                            ∧ pay_payment_date p = o_order_date o
                            ∧ ¬ dt_lt (o_order_date o) (pay_payment_date p))
                    (orders d) (payments d).
Proof.
  destruct (generate_quick_data (L := Scripted.numpy) (F := Scripted.faker)
              Scripted.quick) as [[d w'] |] eqn:Hrun; [| by vm_compute in Hrun].
  exists d, w'. split; [done |].
  exact (quick_payment_dated_at_order_date Scripted.numpy Scripted.faker _ _ _ Hrun).
Defined.

(** C5 as stated fails on the quick data: there every payment is dated at,
    not after, the date of its order. *)
Lemma quick_payment_not_after_order :
  ¬ (∀ (L : NumpyRandom) (F : FakerSource) (w : QuickState) (d : Datasets) w'
       (o : Order) (p : Payment),
       generate_quick_data w = Ok (d, w') →
       o ∈ orders d → p ∈ payments d → pay_order_id p = o_order_id o →
       dt_lt (o_order_date o) (pay_payment_date p)).
Proof.
  intros Hclaim.
  destruct (generate_quick_data (L := Scripted.numpy) (F := Scripted.faker)
              Scripted.quick) as [[d w'] |] eqn:Hrun; [| by vm_compute in Hrun].
  destruct (generate_quick_data_spec _ _ _ Hrun) as (Hids & _ & Hpays).
  destruct (orders d) as [| o os] eqn:Hos; [discriminate |].
  inversion Hpays as [| ? p ? ps (Hid & Hdate & _) _ ]; subst.
  specialize (Hclaim Scripted.numpy Scripted.faker _ _ _ o p Hrun).
  rewrite Hos in Hclaim.
  match goal with H : _ = payments d |- _ => rewrite <- H in Hclaim end.
  specialize (Hclaim (list_elem_of_here _ _) (list_elem_of_here _ _) Hid).
  unfold dt_lt in Hclaim. rewrite Hdate in Hclaim. lia.
Qed.

(** ** Determinism *)

(** [AdvancedEcommerceDataGenerator] draws from the two sources that
    [__init__] sets from the seed and reads nothing else. The quick generator
    also reads the clock: run on two different days, it dates the first
    customer's signup differently. *)
Lemma quick_data_depends_on_clock :
  ∃ d1 w1 d2 w2,
    generate_quick_data (L := Scripted.numpy) (F := Scripted.faker)
      (mk_quick_state (L := Scripted.numpy) (F := Scripted.faker) [] O
         (datetime_ymd 2024 6 1)) = Ok (d1, w1)
    ∧ generate_quick_data (L := Scripted.numpy) (F := Scripted.faker)
        (mk_quick_state (L := Scripted.numpy) (F := Scripted.faker) [] O
           (datetime_ymd 2024 6 2)) = Ok (d2, w2)
    ∧ c_signup_date <$> head (customers d1) ≠ c_signup_date <$> head (customers d2).
Proof.
  destruct (generate_quick_data _) as [[d1 w1] |] eqn:H1 at 1;
    [| by vm_compute in H1].
  destruct (generate_quick_data _) as [[d2 w2] |] eqn:H2 at 1;
    [| by vm_compute in H2].
  exists d1, w1, d2, w2. split; [done |]. split; [done |].
  vm_compute in H1. vm_compute in H2.
  injection H1 as <- _. injection H2 as <- _.
  vm_compute. discriminate.
Qed.

(** ** The integrity validator *)



(** ** Ingestion *)

(** C4. When the file of a table holds a null in one of the table's critical
    columns, [ingest_table] returns False for it and leaves the store as it
    was; [ingest_all_data] still records a flag for each of the five tables,
    False for that one, and the other flags and the final store are those of
    the same run over the other four files only. *)
Theorem null_in_critical_column_fails_that_table (St : Ingestion.Store)
    (env : Ingestion.Env) (db : Ingestion.database) (table_name : string)
    (df : Ingestion.DataFrame) (cols : list string) (col : string) :
  Ingestion.data_dir_exists env = true →
  Ingestion.data_dir_file env (table_name +:+ ".csv") = Ingestion.Csv df →
  Ingestion.critical_columns !! table_name = Some cols →
  col ∈ cols →
  Ingestion.has_column df col = true →
  existsb Ingestion.is_null (Ingestion.column df col) = true →
  (∀ db0, Ingestion.ingest_table table_name (Ingestion.Csv df) db0 = (false, db0))
  ∧ (Ingestion.ingest_all_data env db).1 !! table_name = Some false
  ∧ dom (Ingestion.ingest_all_data env db).1
    = list_to_set ["customers"; "products"; "orders"; "order_items"; "payments"]
  ∧ Ingestion.ingest_all_data env db
    = (let '(results, db') :=
         Ingestion.ingest_files
           (filter (λ f, f ≠ table_name +:+ ".csv") Ingestion.ingestion_order) env db in
       (<[table_name := false]> results, db')).
Proof.
  intros Hdir Hfile Hcols Hin Hcol Hnull. split.
  - intros db0. by eapply ingest_table_null.
  - by eapply ingest_all_data_null_table.
Qed.

Lemma null_in_critical_column_fails_that_table_witness :
  Ingestion.data_dir_exists Scripted.data_dir = true
  ∧ Ingestion.data_dir_file Scripted.data_dir ("customers" +:+ ".csv")
    = Ingestion.Csv Scripted.customers_csv
  ∧ Ingestion.critical_columns !! "customers"
    = Some ["customer_id"; "email"; "first_name"; "last_name"]
  ∧ Ingestion.has_column Scripted.customers_csv "email" = true
  ∧ existsb Ingestion.is_null (Ingestion.column Scripted.customers_csv "email") = true
  ∧ (Ingestion.ingest_all_data (St := Scripted.store) Scripted.data_dir []).1 !! "customers"
    = Some false
  ∧ (Ingestion.ingest_all_data (St := Scripted.store) Scripted.data_dir []).1 !! "products"
    = Some true
  ∧ (Ingestion.ingest_all_data (St := Scripted.store) Scripted.data_dir []).2
    = [("products", 1%nat)].
Proof.
  assert (Hdir : Ingestion.data_dir_exists Scripted.data_dir = true) by reflexivity.
  assert (Hfile : Ingestion.data_dir_file Scripted.data_dir ("customers" +:+ ".csv")
                  = Ingestion.Csv Scripted.customers_csv) by reflexivity.
  assert (Hcols : Ingestion.critical_columns !! "customers"
                  = Some ["customer_id"; "email"; "first_name"; "last_name"])
    by reflexivity.
  assert (Hin : "email" ∈ ["customer_id"; "email"; "first_name"; "last_name"])
    by (apply list_elem_of_further, list_elem_of_here).
  assert (Hcol : Ingestion.has_column Scripted.customers_csv "email" = true)
    by reflexivity.
  assert (Hnull : existsb Ingestion.is_null
                    (Ingestion.column Scripted.customers_csv "email") = true)
    by reflexivity.
  destruct (null_in_critical_column_fails_that_table Scripted.store Scripted.data_dir []
              "customers" Scripted.customers_csv _ "email" Hdir Hfile Hcols Hin Hcol Hnull)
    as (_ & Hflag & _ & _).
  do 5 (split; [done |]). split; [exact Hflag |].
  split; by vm_compute.
Defined.

(** C9. [main] exits with status 0 exactly when the database was initialised
    and no table is flagged False, in particular when every table was
    ingested; when any table is flagged False it exits with status 1, and it
    never exits with another status. *)
Theorem exit_code_reflects_failed_tables (St : Ingestion.Store)
    (env : Ingestion.Env) (db : Ingestion.database) :
  (Ingestion.exit_code (Ingestion.main env db).1 = 0
   ↔ Ingestion.initialize_database env = Ingestion.InitOk
     ∧ ∀ t b, (Ingestion.ingest_all_data env db).1 !! t = Some b → b = true)
  ∧ (∀ t, (Ingestion.ingest_all_data env db).1 !! t = Some false →
          Ingestion.exit_code (Ingestion.main env db).1 = 1)
  ∧ (Ingestion.exit_code (Ingestion.main env db).1 = 0
     ∨ Ingestion.exit_code (Ingestion.main env db).1 = 1).
Proof.
  rewrite main_exit_code. split; [| split].
  - destruct (Ingestion.initialize_database env);
      [| split; [discriminate | by intros [? _]] ..].
    destruct (Ingestion.all_values _) eqn:Hall.
    + split; [intros _ | done]. split; [done |]. by apply all_values_true.
    + split; [discriminate |]. intros [_ H]. apply all_values_true in H. congruence.
  - intros t Ht. apply all_values_false in Ht. rewrite Ht.
    by destruct (Ingestion.initialize_database env).
  - destruct (Ingestion.initialize_database env); [| by right ..].
    destruct (Ingestion.all_values _); [by left | by right].
Qed.

(** In the scripted data directory the customers table fails, and [main]
    exits with status 1 although the products table was loaded. *)
Lemma exit_code_reflects_failed_tables_witness :
  (Ingestion.ingest_all_data (St := Scripted.store) Scripted.data_dir []).1 !! "customers"
  = Some false
  ∧ Ingestion.exit_code (Ingestion.main (St := Scripted.store) Scripted.data_dir []).1 = 1.
Proof.
  assert (Hflag : (Ingestion.ingest_all_data (St := Scripted.store) Scripted.data_dir []).1
                  !! "customers" = Some false) by (by vm_compute).
  split; [exact Hflag |].
  exact (proj1 (proj2 (exit_code_reflects_failed_tables Scripted.store Scripted.data_dir []))
           "customers" Hflag).
Defined.

(** * Further properties *)

(** ** Rounding keeps whole-cent bounds *)

Lemma round_half_even_ge (z : Z) (x : Q) :
  (inject_Z z <= x)%Q → z ≤ round_half_even x.
Proof.
  intros Hz. pose proof (round_half_even_near x) as H.
  apply Qabs_Qle_condition in H.
  assert (Hlt : (inject_Z (z - 1) < inject_Z (round_half_even x))%Q).
  { unfold Zminus. rewrite inject_Z_plus, inject_Z_opp.
    change (inject_Z 1) with 1%Q. lra. }
  rewrite <- Zlt_Qlt in Hlt. lia.
Qed.

Lemma round_half_even_le (z : Z) (x : Q) :
  (x <= inject_Z z)%Q → round_half_even x ≤ z.
Proof.
  intros Hz. pose proof (round_half_even_near x) as H.
  apply Qabs_Qle_condition in H.
  assert (Hlt : (inject_Z (round_half_even x) < inject_Z (z + 1))%Q).
  { rewrite inject_Z_plus. change (inject_Z 1) with 1%Q. lra. }
  rewrite <- Zlt_Qlt in Hlt. lia.
Qed.

Lemma cents_le (a b : Z) : a ≤ b ↔ (a # 100 <= b # 100)%Q.
Proof. unfold Qle. simpl. lia. Qed.

Lemma cents_lt (a b : Z) : a < b ↔ (a # 100 < b # 100)%Q.
Proof. unfold Qlt. simpl. lia. Qed.

Lemma round2_ge (c : Z) (x : Q) : (c # 100 <= x)%Q → (c # 100 <= round2 x)%Q.
Proof.
  intros Hc. unfold round2. apply (proj1 (cents_le _ _)), round_half_even_ge.
  assert (H : (inject_Z c == (c # 100) * 100)%Q)
    by (unfold Qeq, Qmult, inject_Z; simpl; lia).
  rewrite H. lra.
Qed.

Lemma round2_le (c : Z) (x : Q) : (x <= c # 100)%Q → (round2 x <= c # 100)%Q.
Proof.
  intros Hc. unfold round2. apply (proj1 (cents_le _ _)), round_half_even_le.
  assert (H : (inject_Z c == (c # 100) * 100)%Q)
    by (unfold Qeq, Qmult, inject_Z; simpl; lia).
  rewrite H. lra.
Qed.

Lemma round2_nonneg (x : Q) : (0 <= x)%Q → (0 <= round2 x)%Q.
Proof.
  intros Hx. assert (H : (0 # 100 <= round2 x)%Q) by (apply round2_ge; lra).
  lra.
Qed.

(** ** The generator, further *)

Section GeneratorMore.
Context {G : NumpyRandom} {F : FakerSource}.

(** *** Indexing and draws *)

Lemma py_index_elem_of {A} (xs : list A) (i : Z) (x : A) :
  py_index xs i = Ok x → x ∈ xs.
Proof.
  unfold py_index.
  destruct ((if i <? 0 then i + Z.of_nat (length xs) else i) <? 0); [discriminate |].
  destruct (xs !! Z.to_nat _) as [y |] eqn:Hy; [| discriminate].
  intros [= <-]. by eapply list_elem_of_lookup_2.
Qed.

Lemma py_index_in_range {A} (xs : list A) (i : Z) :
  0 ≤ i < Z.of_nat (length xs) → ∃ x, py_index xs i = Ok x.
Proof.
  intros Hi. unfold py_index.
  destruct (Z.ltb_spec i 0) as [? | _]; [lia |].
  destruct (Z.ltb_spec i 0) as [? | _]; [lia |].
  destruct (lookup_lt_is_Some_2 xs (Z.to_nat i) ltac:(lia)) as [x Hx].
  exists x. by rewrite Hx.
Qed.

Lemma rng_uniform_Ok (low high : Q) (s : GenState) x s' :
  (low < high)%Q → rng_uniform low high s = Ok (x, s') → (low <= x)%Q ∧ (x < high)%Q.
Proof. intros Hlt [-> _]%with_rng_Ok. by apply draw_uniform_range. Qed.

Lemma rng_choice_Ok {A} (xs : list A) (s : GenState) x s' :
  rng_choice xs s = Ok (x, s') → x ∈ xs.
Proof.
  unfold rng_choice. destruct xs as [| x0 xs0]; [discriminate |].
  intros (i & s1 & _ & [Hx _]%lift_result_Ok)%bind_Ok.
  by eapply py_index_elem_of.
Qed.

(** *** Where the rows come from *)

Lemma generate_item_from (aps : list Product) (oid : Z) items iid tot
    (s : GenState) items' iid' tot' s' :
  generate_item aps oid (items, iid, tot) s = Ok ((items', iid', tot'), s') →
  ∃ it, items' = items ++ [it] ∧ iid' = iid + 1
        ∧ oi_order_item_id it = iid ∧ item_from aps it.
Proof.
  unfold generate_item. intros Hrun.
  apply bind_Ok in Hrun as (k & s1 & _ & Hrun).
  apply bind_Ok in Hrun as (product & s2 & [Hp _]%lift_result_Ok & Hrun).
  apply bind_Ok in Hrun as (quantity & s3 & _ & Hrun).
  apply bind_Ok in Hrun as (discount & s4 & Hd%rng_uniform_Ok & Hrun); [| done].
  apply ret_Ok in Hrun as [[= -> -> ->] _].
  eexists. do 3 (split; [done |]).
  exists product, discount. cbn.
  split; [by eapply py_index_elem_of |]. by destruct Hd.
Qed.

Lemma generate_items_from (aps : list Product) (oid : Z) (n : nat) (i : Z)
    items iid tot (s : GenState) items' iid' tot' s' :
  for_range n i (λ _, generate_item aps oid) (items, iid, tot) s
    = Ok ((items', iid', tot'), s') →
  ∃ its, items' = items ++ its ∧ iid' = iid + Z.of_nat (length its)
         ∧ oi_order_item_id <$> its = seqZ iid (Z.of_nat (length its))
         ∧ Forall (item_from aps) its.
Proof.
  intros Hrun.
  apply (for_range_ind
           (λ _ (acc : list OrderItem * Z * Q),
              ∃ its, acc.1.1 = items ++ its ∧ acc.1.2 = iid + Z.of_nat (length its)
                     ∧ oi_order_item_id <$> its = seqZ iid (Z.of_nat (length its))
                     ∧ Forall (item_from aps) its)) in Hrun.
  - exact Hrun.
  - exists []. cbn. rewrite app_nil_r, Z.add_0_r. done.
  - intros k [[its0 iid0] tot0] [[its1 iid1] tot1] s1 s2 _
      (its & Hits & Hiid & Hids & Hall) Hstep.
    cbn in Hits, Hiid. subst its0 iid0.
    apply generate_item_from in Hstep as (it & -> & -> & Hid & Hfrom).
    exists (its ++ [it]). cbn.
    split; [by rewrite app_assoc |].
    split; [rewrite length_app; cbn; lia |].
    split; [| apply Forall_app; split; [done | by constructor]].
    rewrite fmap_app, length_app, Nat2Z.inj_add, seqZ_app, Hids by lia.
    cbn. by rewrite Hid.
Qed.

Lemma generate_order_from (acs : list Customer) (aps : list Product)
    (d : datetime) (acc : OrderAcc) (s : GenState) acc' s' :
  tables_from acs aps acc →
  generate_order acs aps d acc s = Ok (acc', s') →
  tables_from acs aps acc'.
Proof.
  unfold generate_order. intros [Hc Hp Hids Hnext] Hrun.
  apply bind_Ok in Hrun as (k & s1 & _ & Hrun).
  apply bind_Ok in Hrun as (customer & s2 & [Hcust _]%lift_result_Ok & Hrun).
  apply bind_Ok in Hrun as (status & s3 & _ & Hrun).
  apply bind_Ok in Hrun as (num_items & s4 & _ & Hrun).
  apply bind_Ok in Hrun as ([[items' iid'] tot'] & s5 & Hitems & Hrun).
  apply ret_Ok in Hrun as [-> _].
  apply generate_items_from in Hitems as (its & -> & -> & Hi & Hfrom).
  constructor; cbn.
  - apply Forall_app. split; [done |]. constructor; [| constructor].
    exists customer. cbn. split; [by eapply py_index_elem_of | done].
  - apply Forall_app. by split.
  - rewrite fmap_app, length_app, Nat2Z.inj_add, seqZ_app, Hids, Hi, Hnext by lia.
    done.
  - rewrite Hnext, length_app. lia.
Qed.

(** A property of the accumulator that every pass of the order loop keeps,
    holds when [generate_orders_and_items] returns. *)
Lemma order_loop_invariant (I : OrderAcc → Prop) (acs : list Customer)
    (aps : list Product) :
  (∀ d acc (s : GenState) acc' s',
     I acc → generate_order acs aps d acc s = Ok (acc', s') → I acc') →
  ∀ n d acc (s : GenState) acc' s',
    I acc → day_loop n acs aps d acc s = Ok (acc', s') → I acc'.
Proof.
  intros Hstep. induction n as [| n IH]; intros d acc s acc' s' Hacc Hrun.
  - by apply ret_Ok in Hrun as [-> _].
  - cbn [day_loop] in Hrun. apply bind_Ok in Hrun as (acc1 & s1 & Hday & Hrun).
    eapply IH; [| exact Hrun].
    unfold generate_day in Hday.
    apply bind_Ok in Hday as (daily_orders & s2 & _ & Hday).
    apply (for_range_ind (λ _, I)) in Hday; [done | done |].
    intros k a a' t1 t2 _ Ha Ho. by eapply Hstep.
Qed.

Lemma generate_orders_and_items_from (customers : list Customer)
    (products : list Product) (s : GenState) orders items s' :
  generate_orders_and_items customers products s = Ok ((orders, items), s') →
  Forall (order_from (filter (λ c, c_is_active c = true) customers)) orders
  ∧ Forall (item_from (filter (λ p, p_is_active p = true) products)) items
  ∧ oi_order_item_id <$> items = seqZ 1 (Z.of_nat (length items)).
Proof.
  unfold generate_orders_and_items. intros Hrun.
  apply bind_Ok in Hrun as (acc & s1 & Hloop & Hrun).
  apply ret_Ok in Hrun as [[= -> ->] _].
  eapply (order_loop_invariant (tables_from _ _)) in Hloop.
  - by destruct Hloop.
  - intros d a t a' t' Ha Hstep. by eapply generate_order_from.
  - by constructor.
Qed.

(** *** When the order loop raises *)

Lemma bind_Raise {S A B} (m : M S A) (f : A → M S B) (s : S) (e : exn) :
  m s = Raise e → (m ≫= f) s = Raise e.
Proof. intros H. unfold mbind, M_bind. by rewrite H. Qed.

Lemma bind_step {S A B} (m : M S A) (f : A → M S B) (s : S) (a : A) (s1 : S) :
  m s = Ok (a, s1) → (m ≫= f) s = f a s1.
Proof. intros H. unfold mbind, M_bind. by rewrite H. Qed.

Lemma rng_integers_empty (low : Z) (s : GenState) :
  rng_integers low low s = Raise ValueError.
Proof. unfold rng_integers. by rewrite bool_decide_eq_false_2 by lia. Qed.

Lemma rng_poisson_total (lam : Q) (s : GenState) :
  ∃ n s', rng_poisson lam s = Ok (n, s').
Proof. eexists _, _. by apply with_rng_Ok. Qed.

Lemma status_idx_range (k : Z) : 0 ≤ status_idx k ≤ 4.
Proof. unfold status_idx. lia. Qed.

Lemma status_at_total (d : datetime) :
  ∃ status, status_at d = Ok status ∧ status ∈ order_statuses config.
Proof.
  unfold status_at.
  destruct (py_index_in_range (order_statuses config) (status_idx (days_ago d)))
    as [status Hs].
  { pose proof (status_idx_range (days_ago d)).
    change (Z.of_nat (length (order_statuses config))) with 5. lia. }
  exists status. split; [done |]. by eapply py_index_elem_of.
Qed.

Lemma generate_item_total (aps : list Product) (oid : Z)
    (acc : list OrderItem * Z * Q) (s : GenState) :
  aps ≠ [] → ∃ acc' s', generate_item aps oid acc s = Ok (acc', s').
Proof.
  intros Hne. destruct acc as [[items iid] tot]. unfold generate_item.
  assert (Hlen : 0 < Z.of_nat (length aps)) by (destruct aps; [done | cbn; lia]).
  destruct (rng_integers_total 0 _ s Hlen) as (k & s1 & Hk).
  destruct (py_index_in_range aps k (rng_integers_Ok _ _ _ _ _ Hk)) as [product Hp].
  destruct (rng_integers_total 1 3 s1 ltac:(lia)) as (quantity & s2 & Hq).
  eexists _, _.
  rewrite (bind_step _ _ _ _ _ Hk).
  erewrite bind_step; [| by apply lift_result_Ok].
  rewrite (bind_step _ _ _ _ _ Hq).
  erewrite bind_step; [| by apply with_rng_Ok].
  by apply ret_Ok.
Qed.

Lemma generate_order_total (acs : list Customer) (aps : list Product)
    (d : datetime) (acc : OrderAcc) (s : GenState) :
  acs ≠ [] → aps ≠ [] → ∃ acc' s', generate_order acs aps d acc s = Ok (acc', s').
Proof.
  intros Hc Hp. unfold generate_order.
  assert (Hlen : 0 < Z.of_nat (length acs)) by (destruct acs; [done | cbn; lia]).
  destruct (rng_integers_total 0 _ s Hlen) as (k & s1 & Hk).
  destruct (py_index_in_range acs k (rng_integers_Ok _ _ _ _ _ Hk)) as [customer Hcu].
  destruct (status_at_total d) as (status & Hst & _). unfold status_at in Hst.
  destruct (rng_integers_total 1 5 s1 ltac:(lia)) as (num_items & s2 & Hn).
  destruct (for_range_total (Z.to_nat num_items) 0
              (λ _, generate_item aps (acc_order_id acc))
              (acc_items acc, acc_item_id acc, 0%Q) s2)
    as ([[items iid] tot] & s3 & Hitems).
  { intros j a t. by apply generate_item_total. }
  eexists _, _.
  rewrite (bind_step _ _ _ _ _ Hk).
  erewrite bind_step; [| by apply lift_result_Ok].
  erewrite bind_step; [| by apply lift_result_Ok].
  rewrite (bind_step _ _ _ _ _ Hn).
  rewrite (bind_step _ _ _ _ _ Hitems).
  by apply ret_Ok.
Qed.

Lemma day_loop_total (n : nat) (acs : list Customer) (aps : list Product)
    (d : datetime) (acc : OrderAcc) (s : GenState) :
  acs ≠ [] → aps ≠ [] → ∃ acc' s', day_loop n acs aps d acc s = Ok (acc', s').
Proof.
  intros Hc Hp. revert d acc s.
  induction n as [| n IH]; intros d acc s.
  - by eexists _, _.
  - cbn [day_loop].
    assert (Hday : ∃ acc1 s1, generate_day acs aps d acc s = Ok (acc1, s1)).
    { unfold generate_day.
      destruct (rng_poisson_total
                  (inject_Z (2 + (if 5 <=? dt_weekday d then 1 else 0)
                             + (if (dt_month d =? 11) || (dt_month d =? 12)
                                then 1 else 0))) s) as (daily & t & Hpo).
      destruct (for_range_total daily 0 (λ _, generate_order acs aps d) acc t)
        as (acc1 & s1 & Hr).
      { intros j a t'. by apply generate_order_total. }
      exists acc1, s1. by rewrite (bind_step _ _ _ _ _ Hpo). }
    destruct Hday as (acc1 & s1 & Hday).
    destruct (IH (dt_add d (timedelta_of 1 0)) acc1 s1) as (acc' & s' & Hrest).
    exists acc', s'. by rewrite (bind_step _ _ _ _ _ Hday).
Qed.

(** Without an active customer, or without an active product, a pass of the
    order loop raises ValueError. *)
Lemma generate_order_no_choice (acs : list Customer) (aps : list Product)
    (d : datetime) (acc : OrderAcc) (s : GenState) :
  acs = [] ∨ aps = [] → generate_order acs aps d acc s = Raise ValueError.
Proof.
  intros Hempty. unfold generate_order.
  destruct acs as [| c acs]; [by apply bind_Raise, rng_integers_empty |].
  destruct Hempty as [? | ->]; [done |].
  set (cs := c :: acs).
  assert (Hlen : 0 < Z.of_nat (length cs)) by (cbn; lia).
  destruct (rng_integers_total 0 _ s Hlen) as (k & s1 & Hk).
  destruct (py_index_in_range cs k (rng_integers_Ok _ _ _ _ _ Hk)) as [customer Hcu].
  destruct (status_at_total d) as (status & Hst & _). unfold status_at in Hst.
  destruct (rng_integers_total 1 5 s1 ltac:(lia)) as (num_items & s2 & Hn).
  rewrite (bind_step _ _ _ _ _ Hk).
  erewrite bind_step; [| by apply lift_result_Ok].
  erewrite bind_step; [| by apply lift_result_Ok].
  rewrite (bind_step _ _ _ _ _ Hn).
  apply bind_Raise.
  apply rng_integers_Ok in Hn.
  destruct (Z.to_nat num_items) as [| m] eqn:Hm; [lia |].
  cbn [for_range]. apply bind_Raise. unfold generate_item.
  by apply bind_Raise, rng_integers_empty.
Qed.

Lemma day_loop_no_choice (n : nat) (acs : list Customer) (aps : list Product)
    (d : datetime) (acc : OrderAcc) (s : GenState) :
  acs = [] ∨ aps = [] →
  (∃ s', day_loop n acs aps d acc s = Ok (acc, s'))
  ∨ day_loop n acs aps d acc s = Raise ValueError.
Proof.
  intros Hempty. revert d s.
  induction n as [| n IH]; intros d s.
  - left. by eexists.
  - cbn [day_loop].
    destruct (rng_poisson_total
                (inject_Z (2 + (if 5 <=? dt_weekday d then 1 else 0)
                           + (if (dt_month d =? 11) || (dt_month d =? 12)
                              then 1 else 0))) s) as (daily & t & Hpo).
    destruct daily as [| m].
    + assert (Hday : generate_day acs aps d acc s = Ok (acc, t)).
      { unfold generate_day. by rewrite (bind_step _ _ _ _ _ Hpo). }
      rewrite (bind_step _ _ _ _ _ Hday). apply IH.
    + right. apply bind_Raise. unfold generate_day.
      rewrite (bind_step _ _ _ _ _ Hpo).
      cbn [for_range]. by apply bind_Raise, generate_order_no_choice.
Qed.

(** *** The product catalogue *)

Lemma multiplier_range (category : string) :
  category ∈ categories config →
  (7 # 10 <= default 1 (price_multipliers !! category))%Q
  ∧ (default 1 (price_multipliers !! category) <= 12 # 10)%Q.
Proof.
  intros Hcat.
  repeat (apply elem_of_cons in Hcat as [-> | Hcat]);
    [.. | by apply elem_of_nil in Hcat];
    vm_compute; split; discriminate.
Qed.

Lemma stock_range_valid (category : string) (expensive : bool) :
  category ∈ categories config →
  5 ≤ (default (10, 100) (stock_ranges expensive !! category)).1
  ∧ (default (10, 100) (stock_ranges expensive !! category)).1
    < (default (10, 100) (stock_ranges expensive !! category)).2
  ∧ (default (10, 100) (stock_ranges expensive !! category)).2 ≤ 500.
Proof.
  intros Hcat.
  repeat (apply elem_of_cons in Hcat as [-> | Hcat]);
    [.. | by apply elem_of_nil in Hcat];
    destruct expensive; vm_compute; repeat split; discriminate.
Qed.

Lemma generate_products_total (s : GenState) :
  ∃ ps s', generate_products s = Ok (ps, s').
Proof.
  unfold generate_products. apply for_range_total. intros j ps s0.
  destruct (rng_choice_total (categories config) s0 ltac:(done)) as (category & s1 & Hc).
  pose proof (rng_choice_Ok _ _ _ _ Hc) as Hcat.
  rewrite (bind_step _ _ _ _ _ Hc).
  erewrite bind_step; [| by apply with_rng_Ok].
  match goal with
  | |- context [stock_ranges ?e !! category] =>
      pose proof (stock_range_valid category e Hcat) as (_ & Hlt & _);
      destruct (default (10, 100) (stock_ranges e !! category)) as [lo hi]
  end.
  cbn [fst snd] in Hlt.
  match goal with
  | |- ∃ _ _, (rng_integers lo hi ≫= _) ?st = _ =>
      destruct (rng_integers_total lo hi st Hlt) as (stock & s3 & Hs)
  end.
  rewrite (bind_step _ _ _ _ _ Hs).
  do 3 (erewrite bind_step; [| by apply with_fake_Ok]).
  erewrite bind_step; [| by apply with_rng_Ok].
  do 2 (erewrite bind_step; [| by apply with_fake_Ok]).
  erewrite bind_step; [| by apply with_rng_Ok].
  eexists _, _. by apply ret_Ok.
Qed.

Lemma product_price_range (base_price m : Q) :
  (5 <= base_price)%Q → (base_price < 500)%Q → (7 # 10 <= m)%Q → (m <= 12 # 10)%Q →
  (350 # 100 <= round2 (base_price * m))%Q ∧ (round2 (base_price * m) <= 600)%Q.
Proof.
  intros Hlo Hhi Hmlo Hmhi. split.
  - apply round2_ge. nra.
  - assert (H : (round2 (base_price * m) <= 60000 # 100)%Q) by (apply round2_le; nra).
    lra.
Qed.

Lemma product_cost_range (price margin : Q) :
  (350 # 100 <= price)%Q → (3 # 10 <= margin)%Q → (margin < 7 # 10)%Q →
  (0 <= round2 (price * margin))%Q ∧ (round2 (price * margin) < price)%Q.
Proof.
  intros Hp Hlo Hhi. split.
  - apply round2_nonneg. nra.
  - pose proof (round2_near (price * margin)) as H.
    apply Qabs_Qle_condition in H. nra.
Qed.

Lemma generate_products_spec (s : GenState) ps s' :
  generate_products s = Ok (ps, s') →
  p_product_id <$> ps = seqZ 1 (Z.of_nat (product_count config))
  ∧ Forall product_ok ps.
Proof.
  unfold generate_products. intros Hrun.
  apply (for_range_ind
           (λ k (acc : list Product),
              p_product_id <$> acc = seqZ 1 (Z.of_nat k) ∧ Forall product_ok acc))
    in Hrun; [done | by split |].
  clear Hrun. intros k acc acc' s1 s2 _ [Hids Hall] Hstep.
  apply bind_Ok in Hstep as (category & t1 & Hcat%rng_choice_Ok & Hstep).
  apply bind_Ok in Hstep as (base_price & t2 & Hbase%rng_uniform_Ok & Hstep);
    [| by vm_compute].
  pose proof (multiplier_range category Hcat) as [Hmlo Hmhi].
  match type of Hstep with
  | context [stock_ranges ?e !! category] =>
      pose proof (stock_range_valid category e Hcat) as (Hslo & _ & Hshi);
      destruct (default (10, 100) (stock_ranges e !! category)) as [lo hi]
  end.
  cbn [fst snd] in Hslo, Hshi.
  apply bind_Ok in Hstep as (stock & t3 & Hstock%rng_integers_Ok & Hstep).
  apply bind_Ok in Hstep as (w1 & t4 & _ & Hstep).
  apply bind_Ok in Hstep as (w2 & t5 & _ & Hstep).
  apply bind_Ok in Hstep as (subcategory & t6 & _ & Hstep).
  apply bind_Ok in Hstep as (margin & t7 & Hmargin%rng_uniform_Ok & Hstep);
    [| by vm_compute].
  apply bind_Ok in Hstep as (supplier & t8 & _ & Hstep).
  apply bind_Ok in Hstep as (creation_date & t9 & _ & Hstep).
  apply bind_Ok in Hstep as (a & t10 & _ & Hstep).
  apply ret_Ok in Hstep as [-> _].
  destruct Hbase as [Hblo Hbhi]. destruct Hmargin as [Hglo Hghi].
  change (price_range config).1 with 5%Q in Hblo.
  change (price_range config).2 with 500%Q in Hbhi.
  destruct (product_price_range base_price _ Hblo Hbhi Hmlo Hmhi) as [Hplo Hphi].
  destruct (product_cost_range _ margin Hplo Hglo Hghi) as [Hclo Hchi].
  split.
  - rewrite fmap_app, Hids, seqZ_S. cbn. do 2 f_equal. lia.
  - apply Forall_app. split; [done |]. constructor; [| constructor].
    unfold product_ok. cbn. repeat split; try done; lia.
Qed.

(** *** The order of the rows *)

Lemma generate_order_date (acs : list Customer) (aps : list Product)
    (d : datetime) (acc : OrderAcc) (s : GenState) acc' s' :
  generate_order acs aps d acc s = Ok (acc', s') →
  ∃ o, acc_orders acc' = acc_orders acc ++ [o] ∧ o_order_date o = d.
Proof.
  unfold generate_order. intros Hrun.
  apply bind_Ok in Hrun as (k & s1 & _ & Hrun).
  apply bind_Ok in Hrun as (customer & s2 & _ & Hrun).
  apply bind_Ok in Hrun as (status & s3 & _ & Hrun).
  apply bind_Ok in Hrun as (num_items & s4 & _ & Hrun).
  apply bind_Ok in Hrun as ([[items' iid'] tot'] & s5 & _ & Hrun).
  apply ret_Ok in Hrun as [-> _]. by eexists.
Qed.

Lemma chronological_snoc (os : list Order) (o : Order) :
  chronological os →
  Forall (λ o', dt_stamp (o_order_date o') ≤ dt_stamp (o_order_date o)) os →
  chronological (os ++ [o]).
Proof.
  intros Hos Hall i j o1 o2 Hij H1 H2.
  rewrite Forall_forall in Hall.
  destruct (decide (j < length os)%nat) as [Hj | Hj].
  - rewrite lookup_app_l in H1, H2 by lia. exact (Hos i j o1 o2 Hij H1 H2).
  - rewrite lookup_app_r in H2 by lia.
    destruct (j - length os)%nat; [| done]. injection H2 as <-.
    destruct (decide (i < length os)%nat) as [Hi | Hi].
    + rewrite lookup_app_l in H1 by lia. apply Hall. by eapply list_elem_of_lookup_2.
    + rewrite lookup_app_r in H1 by lia.
      destruct (i - length os)%nat; [| done]. by injection H1 as <-.
Qed.

Lemma generate_day_chronological (acs : list Customer) (aps : list Product)
    (d : datetime) (acc : OrderAcc) (s : GenState) acc' s' :
  generate_day acs aps d acc s = Ok (acc', s') →
  chronological (acc_orders acc)
  ∧ Forall (λ o, dt_stamp (o_order_date o) ≤ dt_stamp d) (acc_orders acc) →
  chronological (acc_orders acc')
  ∧ Forall (λ o, dt_stamp (o_order_date o) ≤ dt_stamp d) (acc_orders acc').
Proof.
  unfold generate_day. intros Hrun Hacc.
  apply bind_Ok in Hrun as (daily_orders & s1 & _ & Hrun).
  apply (for_range_ind
           (λ _ a, chronological (acc_orders a)
                   ∧ Forall (λ o, dt_stamp (o_order_date o) ≤ dt_stamp d)
                       (acc_orders a))) in Hrun; [done | done |].
  intros k a a' t1 t2 _ [Hch Hall] Hstep.
  apply generate_order_date in Hstep as (o & -> & Hd). split.
  - apply chronological_snoc; [done |]. by rewrite Hd.
  - apply Forall_app. split; [done |]. constructor; [| constructor]. rewrite Hd. lia.
Qed.

Lemma day_loop_chronological (n : nat) (acs : list Customer) (aps : list Product)
    (d : datetime) (acc : OrderAcc) (s : GenState) acc' s' :
  (n = 0%nat ∨ in_range d) →
  dt_ordinal d + Z.of_nat n ≤ dt_ordinal (date_range config).2 + 1 →
  day_loop n acs aps d acc s = Ok (acc', s') →
  chronological (acc_orders acc)
  ∧ Forall (λ o, dt_stamp (o_order_date o) ≤ dt_stamp d) (acc_orders acc) →
  chronological (acc_orders acc').
Proof.
  revert d acc s.
  induction n as [| n IH]; intros d acc s Hd Hn Hrun Hacc.
  - apply ret_Ok in Hrun as [-> _]. by destruct Hacc.
  - destruct Hd as [? | Hd]; [done |].
    cbn [day_loop] in Hrun. apply bind_Ok in Hrun as (acc1 & s1 & Hday & Hrun).
    apply generate_day_chronological in Hday as [Hch Hall]; [| done].
    destruct n as [| n'].
    + by apply ret_Ok in Hrun as [-> _].
    + destruct (next_day_in_range d Hd) as [Hd' Hord]; [lia |].
      eapply IH; [by right | | exact Hrun |]; [lia |].
      split; [done |]. eapply Forall_impl; [exact Hall |].
      intros o Ho. cbv beta in Ho. unfold dt_stamp in *.
      destruct Hd as (Hsec & _), Hd' as (Hsec' & _). lia.
Qed.

Lemma generate_orders_and_items_chronological (customers : list Customer)
    (products : list Product) (s : GenState) orders items s' :
  generate_orders_and_items customers products s = Ok ((orders, items), s') →
  chronological orders.
Proof.
  unfold generate_orders_and_items. intros Hrun.
  apply bind_Ok in Hrun as (acc & s1 & Hloop & Hrun).
  apply ret_Ok in Hrun as [[= -> ->] _].
  apply day_loop_chronological in Hloop; [done | | |].
  - right. by vm_compute.
  - by vm_compute.
  - split; [by intros i j o1 o2 _ ? | constructor].
Qed.

(** *** Subtotals against unit prices *)

Lemma order_line_within_a_cent (order_id : Z) (x : Q) (it : OrderItem) :
  order_line order_id x it →
  (Qabs (oi_subtotal it - inject_Z (oi_quantity it) * oi_unit_price it) <= 1 # 100)%Q.
Proof.
  intros (_ & Hq & (a & -> & ->) & ->). unfold round2.
  pose proof (round_half_even_near (inject_Z (oi_quantity it) * a * 100)) as H1.
  pose proof (round_half_even_near (a * 100)) as H2.
  set (z1 := round_half_even (inject_Z (oi_quantity it) * a * 100)) in *.
  set (z2 := round_half_even (a * 100)) in *.
  apply Qabs_Qle_condition in H1. apply Qabs_Qle_condition in H2.
  assert (Hz : -1 ≤ z1 - oi_quantity it * z2 ≤ 1).
  { assert (Hb : (-(3 # 2) <= inject_Z (z1 - oi_quantity it * z2))%Q
                 ∧ (inject_Z (z1 - oi_quantity it * z2) <= 3 # 2)%Q).
    { unfold Z.sub. rewrite inject_Z_plus, inject_Z_opp, inject_Z_mult.
      destruct Hq as [Hq | Hq]; rewrite Hq in H1 |- *.
      - change (inject_Z 1) with 1%Q in *. revert H1 H2.
        generalize (inject_Z z1) (inject_Z z2). intros q1 q2 H1 H2. split; lra.
      - change (inject_Z 2) with 2%Q in *. revert H1 H2.
        generalize (inject_Z z1) (inject_Z z2). intros q1 q2 H1 H2. split; lra. }
    destruct Hb as [Hlo Hhi]. unfold Qle in Hlo, Hhi. simpl in Hlo, Hhi. lia. }
  apply Qabs_Qle_condition.
  assert (Heq : ((z1 # 100) - inject_Z (oi_quantity it) * (z2 # 100)
                 == (z1 - oi_quantity it * z2) # 100)%Q).
  { unfold Qeq, Qminus, Qplus, Qopp, Qmult, inject_Z. simpl. lia. }
  rewrite Heq. split; unfold Qle; simpl; lia.
Qed.

(** *** Price and stock by category *)

Lemma category_tables (category : string) (expensive : bool) :
  category ∈ categories config →
  ∃ multiplier range,
    price_multipliers !! category = Some multiplier
    ∧ stock_ranges expensive !! category = Some range.
Proof.
  intros Hcat.
  repeat (apply elem_of_cons in Hcat as [-> | Hcat]);
    [.. | by apply elem_of_nil in Hcat];
    destruct expensive; by eexists _, _.
Qed.

Lemma generate_products_by_category (s : GenState) ps s' :
  generate_products s = Ok (ps, s') → Forall product_by_category ps.
Proof.
  unfold generate_products. intros Hrun.
  apply (for_range_ind (λ _ (acc : list Product), Forall product_by_category acc))
    in Hrun; [done | done |].
  clear Hrun. intros k acc acc' s1 s2 _ Hall Hstep.
  apply bind_Ok in Hstep as (category & t1 & Hcat%rng_choice_Ok & Hstep).
  apply bind_Ok in Hstep as (base_price & t2 & Hbase%rng_uniform_Ok & Hstep);
    [| by vm_compute].
  match type of Hstep with
  | context [stock_ranges ?e !! category] =>
      destruct (category_tables category e Hcat) as (m & [lo hi] & Hm & Hr);
      rewrite Hr in Hstep
  end.
  rewrite Hm in Hstep, Hr. cbn [default from_option id] in Hstep, Hr.
  apply bind_Ok in Hstep as (stock & t3 & Hstock%rng_integers_Ok & Hstep).
  apply bind_Ok in Hstep as (w1 & t4 & _ & Hstep).
  apply bind_Ok in Hstep as (w2 & t5 & _ & Hstep).
  apply bind_Ok in Hstep as (subcategory & t6 & _ & Hstep).
  apply bind_Ok in Hstep as (margin & t7 & _ & Hstep).
  apply bind_Ok in Hstep as (supplier & t8 & _ & Hstep).
  apply bind_Ok in Hstep as (creation_date & t9 & _ & Hstep).
  apply bind_Ok in Hstep as (a & t10 & _ & Hstep).
  apply ret_Ok in Hstep as [-> _].
  apply Forall_app. split; [done |]. constructor; [| constructor].
  exists base_price, m, lo, hi. cbn [p_category p_price p_stock_quantity].
  destruct Hbase as [Hblo Hbhi]. repeat split; try done; lia.
Qed.

End GeneratorMore.

(** ** The quick generator, further *)

(** An integer multiple of an amount in whole cents is its own rounding. *)
Lemma round2_whole_cents (k : Z) (x : Q) :
  (inject_Z k * round2 x == round2 (inject_Z k * round2 x))%Q.
Proof.
  unfold round2 at 1 3. set (z := round_half_even (x * 100)).
  assert (Hq : (inject_Z k * (z # 100) * 100 == inject_Z (k * z))%Q).
  { unfold Qeq, Qmult, inject_Z. simpl. lia. }
  unfold round2. unfold round_half_even.
  assert (Hfloor : Qfloor (inject_Z k * (z # 100) * 100) = k * z).
  { rewrite Hq. apply Qfloor_Z. }
  rewrite Hfloor.
  assert (Hcmp : (inject_Z k * (z # 100) * 100 - inject_Z (k * z) ?= 1 # 2)%Q = Lt).
  { apply (proj1 (Qlt_alt _ _)). rewrite Hq. generalize (inject_Z (k * z)). intros q. lra. }
  rewrite Hcmp. unfold Qeq, Qmult, inject_Z. simpl. lia.
Qed.

Section QuickMore.
Context {L : NumpyRandom} {F : FakerSource}.

(** *** The quick generator never raises *)

Lemma with_faker_total {A} (draw : faker_state → A * faker_state) (w : QuickState) :
  ∃ x w', with_faker draw w = Ok (x, w').
Proof. unfold with_faker. destruct (draw (faker_random w)). by eexists _, _. Qed.

Lemma with_np_total {A} (draw : bit_state → A * bit_state) (w : QuickState) :
  ∃ x w', with_np draw w = Ok (x, w').
Proof. unfold with_np. destruct (draw (np_random w)). by eexists _, _. Qed.

Lemma np_randint_total (low high : Z) (w : QuickState) :
  low < high → ∃ x w', np_randint low high w = Ok (x, w').
Proof.
  intros Hlt. unfold np_randint. rewrite bool_decide_eq_true_2 by done.
  apply with_np_total.
Qed.

Lemma np_choice_total {A} (xs : list A) (w : QuickState) :
  xs ≠ [] → ∃ x w', np_choice xs w = Ok (x, w').
Proof.
  intros Hne. unfold np_choice. destruct xs as [| x0 xs0]; [done |].
  set (xs := x0 :: xs0).
  assert (Hpos : (0 < length xs)%nat) by (unfold xs; simpl; lia).
  pose proof (draw_choice_range (length xs) (np_random w) Hpos) as Hi.
  unfold mbind, M_bind, with_np.
  destruct (draw_choice (length xs) (np_random w)) as [i g]. cbn [fst] in Hi.
  destruct (py_index_in_range xs (Z.of_nat i) ltac:(lia)) as [x Hx].
  unfold lift_result. rewrite Hx. by eexists _, _.
Qed.

Lemma fake_date_between_quick_total (a b : date_parse) (w : QuickState) :
  ∃ x w', fake_date_between_quick a b w = Ok (x, w').
Proof.
  unfold fake_date_between_quick, mbind, M_bind, datetime_now. apply with_faker_total.
Qed.

Lemma repeat_draw_total {A} (n : nat) (draw : M QuickState A) :
  (∀ w, ∃ x w', draw w = Ok (x, w')) →
  ∀ w, ∃ xs w', repeat_draw n draw w = Ok (xs, w').
Proof.
  intros Hdraw. induction n as [| n IH]; intros w.
  - by eexists _, _.
  - cbn [repeat_draw]. destruct (Hdraw w) as (x & w1 & Hx).
    rewrite (bind_step _ _ _ _ _ Hx).
    destruct (IH w1) as (xs & w2 & Hxs).
    rewrite (bind_step _ _ _ _ _ Hxs). by eexists _, _.
Qed.

Lemma repeat_draw_spec {A} (P : A → Prop) (n : nat) (draw : M QuickState A)
    (w : QuickState) xs w' :
  (∀ w x w', draw w = Ok (x, w') → P x) →
  repeat_draw n draw w = Ok (xs, w') →
  length xs = n ∧ Forall P xs.
Proof.
  intros Hdraw. revert w xs w'.
  induction n as [| n IH]; intros w xs w' Hrun.
  - apply ret_Ok in Hrun as [-> _]. by split.
  - cbn [repeat_draw] in Hrun.
    apply bind_Ok in Hrun as (x & w1 & Hx & Hrun).
    apply bind_Ok in Hrun as (xs' & w2 & Hxs & Hrun).
    apply ret_Ok in Hrun as [-> _].
    destruct (IH _ _ _ Hxs) as [Hlen Hall].
    split; [simpl; lia |]. constructor; [by eapply Hdraw | done].
Qed.

Lemma cell_Forall {A} (P : A → Prop) (d : A) (col : list A) (i : nat) :
  Forall P col → (i < length col)%nat → P (cell d col i).
Proof.
  intros Hall Hi. rewrite Forall_forall in Hall. apply Hall.
  unfold cell. destruct (lookup_lt_is_Some_2 col i Hi) as [x Hx].
  rewrite (nth_lookup_Some _ _ _ _ Hx). by eapply list_elem_of_lookup_2.
Qed.

Ltac quick_total_step :=
  match goal with
  | |- ∃ _ _, (repeat_draw ?n ?draw ≫= _) ?w = Ok _ =>
      let xs := fresh "col" in
      let w' := fresh "w" in
      let H := fresh "Hcol" in
      let D := fresh "Hdraw" in
      assert (D : ∀ w0, ∃ x w1, draw w0 = Ok (x, w1));
      [ intros ?
      | destruct (repeat_draw_total n draw D w) as (xs & w' & H);
        rewrite (bind_step _ _ _ _ _ H); clear D H ]
  end.

Lemma quick_customers_total (w : QuickState) :
  ∃ cs w', quick_customers w = Ok (cs, w').
Proof.
  unfold quick_customers.
  repeat (quick_total_step;
          [ first [ apply with_faker_total | apply with_np_total
                  | apply fake_date_between_quick_total
                  | by apply np_choice_total ] |]).
  by eexists _, _.
Qed.

Lemma quick_products_total (w : QuickState) :
  ∃ ps w', quick_products w = Ok (ps, w').
Proof.
  unfold quick_products.
  quick_total_step.
  { destruct (with_faker_total fake_word w0) as (w1 & x1 & H1).
    rewrite (bind_step _ _ _ _ _ H1).
    destruct (with_faker_total fake_word x1) as (w2 & x2 & H2).
    rewrite (bind_step _ _ _ _ _ H2). by eexists _, _. }
  repeat (quick_total_step;
          [ first [ apply with_faker_total | apply with_np_total
                  | apply fake_date_between_quick_total
                  | by apply np_choice_total
                  | by apply np_randint_total ] |]).
  by eexists _, _.
Qed.

Lemma quick_orders_total (w : QuickState) :
  ∃ os w', quick_orders w = Ok (os, w').
Proof.
  unfold quick_orders.
  rewrite (bind_step datetime_now _ w (clock w) w) by done.
  repeat (quick_total_step;
          [ first [ apply with_faker_total | apply with_np_total
                  | by apply np_choice_total
                  | by apply np_randint_total ] |]).
  by eexists _, _.
Qed.

Lemma quick_payments_total (os : list Order) (w : QuickState) :
  ∃ ps w', quick_payments os w = Ok (ps, w').
Proof.
  unfold quick_payments.
  repeat (quick_total_step;
          [ first [ apply with_faker_total | apply with_np_total
                  | by apply np_choice_total ] |]).
  by eexists _, _.
Qed.

Lemma quick_item_total (ps : list Product) (oid : Z) (acc : list OrderItem * Z)
    (w : QuickState) :
  ∃ acc' w', quick_item ps oid acc w = Ok (acc', w').
Proof.
  unfold quick_item. destruct acc as [items iid].
  destruct (np_randint_total 1 31 w ltac:(lia)) as (pid & w1 & H1).
  rewrite (bind_step _ _ _ _ _ H1).
  destruct (np_randint_total 1 3 w1 ltac:(lia)) as (q & w2 & H2).
  rewrite (bind_step _ _ _ _ _ H2).
  destruct (filter _ ps); by eexists _, _.
Qed.

Lemma quick_order_items_total (ps : list Product) (oid : Z)
    (acc : list OrderItem * Z) (w : QuickState) :
  ∃ acc' w', quick_order_items ps oid acc w = Ok (acc', w').
Proof.
  unfold quick_order_items.
  destruct (np_randint_total 1 4 w ltac:(lia)) as (n & w1 & H1).
  rewrite (bind_step _ _ _ _ _ H1).
  apply for_range_total. intros j a s1. apply quick_item_total.
Qed.

Lemma generate_quick_data_total (w : QuickState) :
  ∃ d w', generate_quick_data w = Ok (d, w').
Proof.
  unfold generate_quick_data.
  rewrite (bind_step (seed_all 42) _ w ()
             (mk_quick_state (seeded 42) (faker_seeded 42) (clock w))) by done.
  destruct (quick_customers_total (mk_quick_state (seeded 42) (faker_seeded 42) (clock w)))
    as (cs & w1 & H1).
  rewrite (bind_step _ _ _ _ _ H1).
  destruct (quick_products_total w1) as (ps & w2 & H2).
  rewrite (bind_step _ _ _ _ _ H2).
  destruct (quick_orders_total w2) as (os & w3 & H3).
  rewrite (bind_step _ _ _ _ _ H3).
  destruct (for_range_total 100 1 (quick_order_items ps) ([], 1) w3)
    as ([items iid] & w4 & H4).
  { intros j a s1. apply quick_order_items_total. }
  rewrite (bind_step _ _ _ _ _ H4).
  destruct (quick_payments_total os w4) as (pays & w5 & H5).
  rewrite (bind_step _ _ _ _ _ H5).
  by eexists _, _.
Qed.

(** *** The rows of the frames *)

Lemma with_np_uniform (lo hi : Q) (w : QuickState) x w' :
  (lo < hi)%Q → with_np (draw_uniform lo hi) w = Ok (x, w') → (lo <= x)%Q ∧ (x < hi)%Q.
Proof. intros Hlt [-> _]%with_np_Ok. by apply draw_uniform_range. Qed.

Lemma np_choice_Ok {A} (xs : list A) (w : QuickState) x w' :
  np_choice xs w = Ok (x, w') → x ∈ xs.
Proof.
  unfold np_choice. destruct xs as [| x0 xs0]; [discriminate |].
  intros (i & s1 & _ & [Hx _]%lift_result_Ok)%bind_Ok.
  by eapply py_index_elem_of.
Qed.

Lemma quick_customers_ids (w : QuickState) cs w' :
  quick_customers w = Ok (cs, w') → c_customer_id <$> cs = seqZ 1 50.
Proof.
  unfold quick_customers. intros Hrun.
  repeat (apply bind_Ok in Hrun as (? & ? & _ & Hrun)).
  apply ret_Ok in Hrun as [-> _]. by rewrite <- list_fmap_compose.
Qed.

Lemma quick_products_rows (w : QuickState) ps w' :
  quick_products w = Ok (ps, w') →
  Forall (λ p, p_category p ∈ ["Electronics"; "Clothing"; "Home & Garden"; "Books"]
               ∧ (∃ x, p_price p = round2 x)
               ∧ (1000 # 100 <= p_price p)%Q ∧ (p_price p <= 20000 # 100)%Q
               ∧ (500 # 100 <= p_cost_price p)%Q ∧ (p_cost_price p <= 10000 # 100)%Q
               ∧ 10 ≤ p_stock_quantity p < 100) ps.
Proof.
  unfold quick_products. intros Hrun.
  apply bind_Ok in Hrun as (names & w1 & _ & Hrun).
  apply bind_Ok in Hrun as (cats & w2 & Hcat & Hrun).
  apply bind_Ok in Hrun as (subs & w3 & _ & Hrun).
  apply bind_Ok in Hrun as (prices & w4 & Hprice & Hrun).
  apply bind_Ok in Hrun as (costs & w5 & Hcost & Hrun).
  apply bind_Ok in Hrun as (stocks & w6 & Hstock & Hrun).
  apply bind_Ok in Hrun as (sups & w7 & _ & Hrun).
  apply bind_Ok in Hrun as (dates & w8 & _ & Hrun).
  apply bind_Ok in Hrun as (acts & w9 & _ & Hrun).
  apply ret_Ok in Hrun as [-> _].
  eapply repeat_draw_spec in Hcat as [Hclen Hcat];
    [| intros ? ? ?; apply np_choice_Ok].
  eapply repeat_draw_spec in Hprice as [Hplen Hprice];
    [| intros ? ? ?; by apply with_np_uniform].
  eapply repeat_draw_spec in Hcost as [Hcolen Hcost];
    [| intros ? ? ?; by apply with_np_uniform].
  eapply repeat_draw_spec in Hstock as [Hslen Hstock];
    [| intros ? ? ?; apply np_randint_Ok].
  apply Forall_fmap, Forall_forall. intros i [_ Hi]%elem_of_seq. cbn.
  pose proof (cell_Forall _ "" cats i Hcat ltac:(lia)) as Hc.
  pose proof (cell_Forall _ 0%Q prices i Hprice ltac:(lia)) as [Hlo Hhi].
  pose proof (cell_Forall _ 0%Q costs i Hcost ltac:(lia)) as [Hclo Hchi].
  pose proof (cell_Forall _ 0 stocks i Hstock ltac:(lia)) as Hs.
  cbv beta in Hc, Hs.
  split; [done |]. split; [by eexists |].
  split; [apply round2_ge; lra |]. split; [apply round2_le; lra |].
  split; [apply round2_ge; lra |]. split; [apply round2_le; lra | done].
Qed.

Lemma quick_orders_rows (w : QuickState) os w' :
  quick_orders w = Ok (os, w') →
  Forall (λ o, 1 ≤ o_customer_id o ≤ 50
               ∧ o_status o ∈ ["pending"; "processing"; "shipped"; "delivered"; "cancelled"]
               ∧ (2000 # 100 <= o_total_amount o)%Q
               ∧ (o_total_amount o <= 50000 # 100)%Q) os.
Proof.
  unfold quick_orders. intros Hrun.
  apply bind_Ok in Hrun as (now & w0 & _ & Hrun).
  apply bind_Ok in Hrun as (cids & w1 & Hcid & Hrun).
  apply bind_Ok in Hrun as (dates & w2 & _ & Hrun).
  apply bind_Ok in Hrun as (statuses & w3 & Hst & Hrun).
  apply bind_Ok in Hrun as (countries & w4 & _ & Hrun).
  apply bind_Ok in Hrun as (cities & w5 & _ & Hrun).
  apply bind_Ok in Hrun as (totals & w6 & Htot & Hrun).
  apply ret_Ok in Hrun as [-> _].
  eapply repeat_draw_spec in Hcid as [Hclen Hcid];
    [| intros ? ? ?; apply np_randint_Ok].
  eapply repeat_draw_spec in Hst as [Hslen Hst];
    [| intros ? ? ?; apply np_choice_Ok].
  eapply repeat_draw_spec in Htot as [Htlen Htot];
    [| intros ? ? ?; by apply with_np_uniform].
  apply Forall_fmap, Forall_forall. intros i [_ Hi]%elem_of_seq. cbn.
  pose proof (cell_Forall _ 0 cids i Hcid ltac:(lia)) as Hc.
  pose proof (cell_Forall _ "" statuses i Hst ltac:(lia)) as Hs.
  pose proof (cell_Forall _ 0%Q totals i Htot ltac:(lia)) as [Hlo Hhi].
  cbv beta in Hc, Hs.
  split; [lia |]. split; [done |].
  split; [apply round2_ge; lra | apply round2_le; lra].
Qed.

Lemma quick_payments_rows (os : list Order) (w : QuickState) ps w' :
  quick_payments os w = Ok (ps, w') →
  pay_payment_id <$> ps = seqZ 1 100
  ∧ pay_order_id <$> ps = seqZ 1 100
  ∧ Forall (λ p, pay_payment_method p ∈ ["credit_card"; "debit_card"; "paypal"]
                 ∧ pay_payment_status p ∈ ["completed"; "failed"; "refunded"]) ps.
Proof.
  unfold quick_payments. intros Hrun.
  apply bind_Ok in Hrun as (methods & w1 & Hm & Hrun).
  apply bind_Ok in Hrun as (statuses & w2 & Hst & Hrun).
  apply bind_Ok in Hrun as (uuids & w3 & _ & Hrun).
  apply bind_Ok in Hrun as (risks & w4 & _ & Hrun).
  apply ret_Ok in Hrun as [-> _].
  split; [by rewrite <- list_fmap_compose |].
  split; [by rewrite <- list_fmap_compose |].
  eapply repeat_draw_spec in Hm as [Hmlen Hm];
    [| intros ? ? ?; apply np_choice_Ok].
  eapply repeat_draw_spec in Hst as [Hslen Hst];
    [| intros ? ? ?; apply np_choice_Ok].
  apply Forall_fmap, Forall_forall. intros i [_ Hi]%elem_of_seq. cbn.
  pose proof (cell_Forall _ "" methods i Hm ltac:(lia)) as Hc.
  pose proof (cell_Forall _ "" statuses i Hst ltac:(lia)) as Hs.
  by split.
Qed.

(** The invariant of the two item loops: the rows so far are numbered from
    1, the next id is one more than their number, and every row is priced
    from the catalogue. *)
Lemma quick_item_rows (ps : list Product) (oid : Z) (acc : list OrderItem * Z)
    (w : QuickState) acc' w' :
  p_product_id <$> ps = seqZ 1 30 →
  quick_item ps oid acc w = Ok (acc', w') →
  oi_order_item_id <$> acc.1 = seqZ 1 (Z.of_nat (length acc.1))
  ∧ acc.2 = 1 + Z.of_nat (length acc.1)
  ∧ Forall (quick_item_from ps) acc.1 →
  oi_order_item_id <$> acc'.1 = seqZ 1 (Z.of_nat (length acc'.1))
  ∧ acc'.2 = 1 + Z.of_nat (length acc'.1)
  ∧ Forall (quick_item_from ps) acc'.1.
Proof.
  destruct acc as [items iid]. unfold quick_item. intros Hids Hrun (Hseq & Hnext & Hall).
  cbn [fst snd] in *.
  apply bind_Ok in Hrun as (pid & w1 & Hpid%np_randint_Ok & Hrun).
  apply bind_Ok in Hrun as (quantity & w2 & Hq%np_randint_Ok & Hrun).
  destruct (filter (λ p, p_product_id p = pid) ps) as [| p row] eqn:Hrow.
  - apply ret_Ok in Hrun as [-> _]. done.
  - apply ret_Ok in Hrun as [-> _]. cbn [fst snd].
    assert (Hp : p ∈ filter (λ p, p_product_id p = pid) ps)
      by (rewrite Hrow; apply list_elem_of_here).
    apply list_elem_of_filter in Hp as [Hpid' Hp].
    rewrite length_app, fmap_app, Nat2Z.inj_add, seqZ_app, Hseq by lia.
    cbn [length fmap list_fmap oi_order_item_id].
    split; [by rewrite Hnext |]. split; [lia |].
    apply Forall_app. split; [done |]. constructor; [| constructor].
    exists p. cbn. split; [done |]. split; [done |]. split; [lia | done].
Qed.

Lemma quick_items_rows (ps : list Product) (w : QuickState) items iid w' :
  p_product_id <$> ps = seqZ 1 30 →
  for_range 100 1 (quick_order_items ps) ([], 1) w = Ok ((items, iid), w') →
  oi_order_item_id <$> items = seqZ 1 (Z.of_nat (length items))
  ∧ Forall (quick_item_from ps) items.
Proof.
  intros Hids Hrun.
  apply (for_range_ind
           (λ _ (acc : list OrderItem * Z),
              oi_order_item_id <$> acc.1 = seqZ 1 (Z.of_nat (length acc.1))
              ∧ acc.2 = 1 + Z.of_nat (length acc.1)
              ∧ Forall (quick_item_from ps) acc.1)) in Hrun.
  - destruct Hrun as (? & _ & ?). by split.
  - by repeat split.
  - intros k a a' w1 w2 _ Hinv Hstep. unfold quick_order_items in Hstep.
    apply bind_Ok in Hstep as (n & w3 & _ & Hstep).
    apply (for_range_ind
             (λ _ (acc : list OrderItem * Z),
                oi_order_item_id <$> acc.1 = seqZ 1 (Z.of_nat (length acc.1))
                ∧ acc.2 = 1 + Z.of_nat (length acc.1)
                ∧ Forall (quick_item_from ps) acc.1)) in Hstep; [done | done |].
    intros j b b' w4 w5 _ Hb Hitem. by eapply quick_item_rows.
Qed.

(** The five frames of a run of [generate_quick_data], with what is known of
    each. *)
Lemma generate_quick_data_frames (w : QuickState) (d : Datasets) w' :
  generate_quick_data w = Ok (d, w') →
  c_customer_id <$> customers d = seqZ 1 50
  ∧ p_product_id <$> products d = seqZ 1 30
  ∧ Forall (λ p, p_category p ∈ ["Electronics"; "Clothing"; "Home & Garden"; "Books"]
                 ∧ (∃ x, p_price p = round2 x)
                 ∧ (1000 # 100 <= p_price p)%Q ∧ (p_price p <= 20000 # 100)%Q
                 ∧ (500 # 100 <= p_cost_price p)%Q ∧ (p_cost_price p <= 10000 # 100)%Q
                 ∧ 10 ≤ p_stock_quantity p < 100) (products d)
  ∧ Forall (λ o, 1 ≤ o_customer_id o ≤ 50
                 ∧ o_status o ∈ ["pending"; "processing"; "shipped"; "delivered";
                                 "cancelled"]
                 ∧ (2000 # 100 <= o_total_amount o)%Q
                 ∧ (o_total_amount o <= 50000 # 100)%Q) (orders d)
  ∧ oi_order_item_id <$> order_items d = seqZ 1 (Z.of_nat (length (order_items d)))
  ∧ Forall (quick_item_from (products d)) (order_items d)
  ∧ pay_payment_id <$> payments d = seqZ 1 100
  ∧ pay_order_id <$> payments d = seqZ 1 100
  ∧ Forall (λ p, pay_payment_method p ∈ ["credit_card"; "debit_card"; "paypal"]
                 ∧ pay_payment_status p ∈ ["completed"; "failed"; "refunded"])
      (payments d).
Proof.
  unfold generate_quick_data. intros Hrun.
  apply bind_Ok in Hrun as ([] & w0 & _ & Hrun).
  apply bind_Ok in Hrun as (cs & w1 & Hcs%quick_customers_ids & Hrun).
  apply bind_Ok in Hrun as (ps & w2 & Hps & Hrun).
  apply bind_Ok in Hrun as (os & w3 & Hos%quick_orders_rows & Hrun).
  apply bind_Ok in Hrun as ([items iid] & w4 & Hitems & Hrun).
  apply bind_Ok in Hrun as (pays & w5 & Hpays%quick_payments_rows & Hrun).
  apply ret_Ok in Hrun as [-> _]. cbn.
  pose proof (quick_products_ids _ _ _ Hps) as Hpids.
  apply quick_products_rows in Hps.
  apply quick_items_rows in Hitems as [Hiids Hrows]; [| done].
  destruct Hpays as (? & ? & ?). by repeat split.
Qed.

End QuickMore.

(** ** Ingestion, further *)

Section IngestionMore.
Import Ingestion.
Context {St : Store}.

Lemma any_cell_false (test : cell → result bool) (cs : list cell) :
  any_cell test cs = Ok false ↔ Forall (λ c, test c = Ok false) cs.
Proof.
  induction cs as [| c cs IH]; cbn [any_cell].
  - split; [constructor | done].
  - rewrite Forall_cons, <- IH. unfold mbind, result_bind, mret, result_ret.
    destruct (test c) as [[] |]; destruct (any_cell test cs) as [[] |]; cbn;
      intuition congruence.
Qed.

Lemma existsb_is_null_false (cs : list cell) :
  existsb is_null cs = false ↔ Forall (λ c, is_null c = false) cs.
Proof.
  induction cs as [| c cs IH]; cbn [existsb].
  - split; [constructor | done].
  - rewrite Forall_cons, <- IH, orb_false_iff. done.
Qed.

(** The flag is False exactly when an issue was recorded: an invariant of
    every step of the validation. *)
Lemma add_issue_flag (msg : string) (v : ValidationResults) :
  is_valid (add_issue msg v) = true ↔ issues (add_issue msg v) = [].
Proof.
  unfold add_issue. cbn. split; [discriminate |].
  intros H. by apply app_nil in H as [_ ?].
Qed.

Lemma check_null_flag (df : DataFrame) (v : ValidationResults) (cols : list string) :
  (is_valid v = true ↔ issues v = []) →
  (is_valid (foldl (check_null df) v cols) = true
   ↔ issues (foldl (check_null df) v cols) = []).
Proof.
  revert v. induction cols as [| c cols IH]; intros v Hv; [done |].
  cbn [foldl]. apply IH. unfold check_null.
  destruct (has_column df c && existsb is_null (column df c)); [| done].
  apply add_issue_flag.
Qed.

Lemma check_null_valid (df : DataFrame) (v : ValidationResults) (cols : list string) :
  is_valid (foldl (check_null df) v cols) = true
  ↔ is_valid v = true
    ∧ ∀ col, col ∈ cols → has_column df col = true →
             Forall (λ c, is_null c = false) (column df col).
Proof.
  revert v. induction cols as [| c cols IH]; intros v; cbn [foldl].
  - split; [| by intros [? _]]. intros Hv. split; [done |].
    by intros col ?%elem_of_nil.
  - rewrite IH. unfold check_null.
    destruct (has_column df c) eqn:Hc; cbn [andb].
    + destruct (existsb is_null (column df c)) eqn:Hn.
      * cbn. split; [by intros [? _] |]. intros [_ H].
        specialize (H c (list_elem_of_here _ _) Hc).
        apply existsb_is_null_false in H. congruence.
      * apply existsb_is_null_false in Hn. split.
        -- intros [Hv H]. split; [done |].
           intros col [-> | Hin]%elem_of_cons ?; [done | by apply H].
        -- intros [Hv H]. split; [done |].
           intros col Hin. by apply H, list_elem_of_further.
    + split.
      * intros [Hv H]. split; [done |].
        intros col [-> | Hin]%elem_of_cons ?; [congruence | by apply H].
      * intros [Hv H]. split; [done |].
        intros col Hin. by apply H, list_elem_of_further.
Qed.

(** [ingest_table] returns False only with the store as it was. *)
Lemma ingest_table_false (table_name : string) (file : csv_file) (db db' : database) :
  ingest_table table_name file db = (false, db') → db' = db.
Proof.
  unfold ingest_table. destruct file as [| | df]; [by intros [= <-] .. |].
  destruct (negb _); [by intros [= <-] |].
  destruct (model_mapping !! table_name); [| by intros [= <-]].
  destruct (bulk_save _ _ _); [discriminate | by intros [= <-]].
Qed.

(** Unfold the passes of the loop of [ingest_all_data], naming the outcome of
    each [ingest_table] call. *)
Ltac ingest_passes :=
  repeat match goal with
  | |- context [ingest_step ?e (?r, ?d) ?f] =>
      let x := eval vm_compute in (str_remove ".csv" f) in
      change (ingest_step e (r, d) f)
        with (let '(success, db') := ingest_table x (data_dir_file e f) d in
              (<[x := success]> r, db'));
      let E := fresh "Hstep" in
      destruct (ingest_table x (data_dir_file e f) d) as [? ?] eqn:E
  end.

Lemma ingest_all_data_dom (env : Env) (db : database) :
  data_dir_exists env = true →
  dom (ingest_all_data env db).1
  = list_to_set ["customers"; "products"; "orders"; "order_items"; "payments"].
Proof.
  intros Hdir. unfold ingest_all_data. rewrite Hdir.
  unfold ingest_files, ingestion_order. cbn [foldl]. ingest_passes. cbn [fst].
  rewrite !dom_insert_L, dom_empty_L. set_solver.
Qed.

(** Whatever makes a table fail, the flags of the other tables and the store
    are those of the run without that table's file. *)
Lemma ingest_all_data_failed_table (env : Env) (db : database) (table_name : string) :
  data_dir_exists env = true →
  (ingest_all_data env db).1 !! table_name = Some false →
  ingest_all_data env db
  = (let '(results, db') :=
       ingest_files (filter (λ f, f ≠ table_name +:+ ".csv") ingestion_order) env db in
     (<[table_name := false]> results, db')).
Proof.
  intros Hdir Hflag.
  assert (Hin : table_name ∈ ["customers"; "products"; "orders"; "order_items";
                              "payments"]).
  { apply (elem_of_list_to_set (C := gset string)).
    rewrite <- (ingest_all_data_dom env db Hdir). apply elem_of_dom. eauto. }
  revert Hflag. unfold ingest_all_data. rewrite Hdir.
  repeat (apply elem_of_cons in Hin as [-> | Hin]);
    [.. | by apply elem_of_nil in Hin];
    unfold ingest_files, ingestion_order;
    match goal with
    | |- context [filter ?P ?l] =>
        let l' := eval vm_compute in (filter P l) in change (filter P l) with l'
    end;
    cbn [foldl]; ingest_passes; cbn [fst snd];
    rewrite ?lookup_insert_ne by done; rewrite lookup_insert_eq;
    intros [= ->];
    repeat match goal with
    | H : ingest_table _ _ _ = (false, _) |- _ =>
        pose proof (ingest_table_false _ _ _ _ H) as ->; clear H
    end;
    repeat match goal with
    | H1 : ?t = (?a, ?b), H2 : ?t = (?c, ?d) |- _ =>
        rewrite H1 in H2; injection H2 as <- <-
    end;
    f_equal; apply map_eq; intros k; rewrite !lookup_insert;
    repeat case_decide; simplify_eq; done.
Qed.

Lemma record_data_from (model : list string) (row : list cell) (cols : list string)
    (k : nat) (data : gmap string cell) (col : string) :
  NoDup cols →
  let r := foldl (λ data '(j, col),
                    if bool_decide (col ∈ model) then <[col := nth j row Null]> data
                    else data)
                 data (imap (λ j col, ((k + j)%nat, col)) cols) in
  (∀ j, cols !! j = Some col → col ∈ model → r !! col = Some (nth (k + j) row Null))
  ∧ (col ∉ cols ∨ col ∉ model → r !! col = data !! col).
Proof.
  intros Hnd. revert k data.
  induction Hnd as [| c cols Hc Hnd IH]; intros k data; cbn zeta.
  - split; [by intros j ? | done].
  - cbn [imap foldl].
    rewrite (imap_ext _ (λ j col, ((Datatypes.S k + j)%nat, col)))
      by (intros; cbn; f_equal; lia).
    rewrite Nat.add_0_r.
    specialize (IH (Datatypes.S k)
                  (if bool_decide (c ∈ model) then <[c := nth k row Null]> data
                   else data)).
    cbn zeta in IH. destruct IH as [IHin IHout]. split.
    + intros [| j] Hj Hm; cbn in Hj.
      * injection Hj as ->. rewrite IHout by (by left).
        rewrite bool_decide_eq_true_2 by done.
        by rewrite lookup_insert_eq, Nat.add_0_r.
      * rewrite (IHin j) by done. do 2 f_equal. lia.
    + intros Hout. rewrite IHout.
      * case_bool_decide as Hm; [| done].
        apply lookup_insert_ne. intros ->.
        destruct Hout as [Hout | Hout]; [| done].
        apply Hout, list_elem_of_here.
      * destruct Hout as [Hout | Hout]; [left | by right].
        intros ?. by apply Hout, list_elem_of_further.
Qed.

Lemma filter_length_all {A} (P : A → Prop) `{!∀ x, Decision (P x)} (l : list A) :
  length (filter P l) = length l ↔ Forall P l.
Proof.
  induction l as [| x l IH]; [by split; [constructor |] |].
  pose proof (length_filter P l) as Hle.
  rewrite filter_cons, Forall_cons. destruct (decide (P x)); cbn [length].
  - rewrite <- IH. split; [intros [= ?]; by split | intros [_ ->]; done].
  - split; [lia | by intros [? _]].
Qed.

Lemma success_count_all (results : gmap string bool) :
  success_count results = size results ↔ all_values results = true.
Proof.
  unfold success_count, all_values. rewrite <- (length_map_to_list results).
  rewrite filter_length_all, forallb_forall, Forall_forall.
  split; intros H x Hx.
  - by apply H, list_elem_of_In.
  - by apply H, list_elem_of_In.
Qed.

End IngestionMore.

(** * Further results *)

(** ** Runs of the scripts *)

Lemma two_lines_run :
  generate_orders_and_items (G := Scripted.numpy) (F := Scripted.faker)
    [Scripted.customer] [Scripted.product] Scripted.two_lines
  = Ok (([Scripted.two_lines_order], Scripted.two_lines_items),
        mk_gen_state (G := Scripted.numpy) (F := Scripted.faker) [] O).
Proof. vm_compute. reflexivity. Qed.

Lemma first_and_last_day_run :
  generate_orders_and_items (G := Scripted.numpy) (F := Scripted.faker)
    [Scripted.customer] [Scripted.product] Scripted.first_and_last_day
  = Ok (([Scripted.first_day_order; Scripted.last_day_order],
         [mk_order_item 1 1 1 1 (800 # 100) (800 # 100);
          mk_order_item 2 2 1 1 (800 # 100) (800 # 100)]),
        mk_gen_state (G := Scripted.numpy) (F := Scripted.faker) [] O).
Proof. vm_compute. reflexivity. Qed.

Lemma quick_run :
  ∃ d w', generate_quick_data (L := Scripted.numpy) (F := Scripted.faker)
            Scripted.quick = Ok (d, w').
Proof.
  destruct (generate_quick_data (L := Scripted.numpy) (F := Scripted.faker)
              Scripted.quick) as [[d w'] |] eqn:Hrun; [| by vm_compute in Hrun].
  by exists d, w'.
Qed.

(** ** The generator *)

(** X1. With the configured 300 customers the generator never gets past its
    first customer: [generate_customers] raises TypeError from every state
    (Faker's [date_between] gives a [date], and the account age is computed as
    [datetime - date]), so [generate_all_data] and [main] raise it too and no
    table is produced. *)
Theorem generation_stops_at_first_customer (G : NumpyRandom) (F : FakerSource)
    (s : GenState) (shared : faker_state) :
  generate_customers s = Raise TypeError
  ∧ generate_all_data s = Raise TypeError
  ∧ main shared = Raise TypeError.
Proof.
  split; [apply generate_customers_raises |].
  split; [apply generate_all_data_raises |].
  unfold main, generate_with. by rewrite generate_all_data_raises.
Qed.

(** X2. [generate_products] never raises and returns 150 products with ids
    1 to 150 in order; every product has a category of the configured list, a
    price between 3.50 and 600, a cost price that is not negative and below
    the price, and a stock quantity between 5 and 499. *)
Theorem generated_products_are_sound (G : NumpyRandom) (F : FakerSource)
    (s : GenState) :
  ∃ ps s', generate_products s = Ok (ps, s')
    ∧ length ps = 150%nat
    ∧ p_product_id <$> ps = seqZ 1 150
    ∧ Forall product_ok ps.
Proof.
  destruct (generate_products_total s) as (ps & s' & Hrun).
  destruct (generate_products_spec _ _ _ Hrun) as [Hids Hall].
  exists ps, s'. split; [done |]. split; [| by split].
  by rewrite <- (length_fmap p_product_id), Hids, length_seqZ.
Qed.

(** X3. Price and stock follow the category of a generated product: the
    price is the base price, between 5 and 500, times the multiplier of the
    category, rounded to cents, and the stock lies in the range the stock
    table gives for the category and for whether the price is above 100. So a
    book costs at most 350.00 and has a stock of 50 to 499, and electronics
    above 100.00 have a stock of 5 to 49, cheaper electronics one of 10 to
    99. *)
Theorem stock_and_price_follow_category (G : NumpyRandom) (F : FakerSource)
    (s : GenState) (ps : list Product) (s' : GenState) (p : Product) :
  generate_products s = Ok (ps, s') →
  p ∈ ps →
  product_by_category p
  ∧ (p_category p = "Books" →
     (p_price p <= 350)%Q ∧ 50 ≤ p_stock_quantity p ≤ 499)
  ∧ (p_category p = "Electronics" →
     (6 <= p_price p)%Q
     ∧ ((100 < p_price p)%Q → 5 ≤ p_stock_quantity p ≤ 49)
     ∧ ((p_price p <= 100)%Q → 10 ≤ p_stock_quantity p ≤ 99)).
Proof.
  intros Hrun Hp.
  pose proof (generate_products_by_category _ _ _ Hrun) as Hall.
  rewrite Forall_forall in Hall. specialize (Hall p Hp).
  split; [done |].
  destruct Hall as (base & m & lo & hi & Hm & Hblo & Hbhi & Hprice & Hr & Hstock).
  split.
  - intros Hcat. rewrite Hcat in Hm, Hr.
    vm_compute in Hm. injection Hm as <-.
    assert (Hrange : (lo, hi) = (50, 500))
      by (destruct (Qltb 100 (p_price p)); vm_compute in Hr; congruence).
    injection Hrange as -> ->. split; [| lia].
    rewrite Hprice.
    assert (H : (round2 (base * (7 # 10)) <= 35000 # 100)%Q) by (apply round2_le; lra).
    lra.
  - intros Hcat. rewrite Hcat in Hm, Hr.
    vm_compute in Hm. injection Hm as <-. split; [| split].
    + rewrite Hprice.
      assert (H : (600 # 100 <= round2 (base * (12 # 10)))%Q) by (apply round2_ge; lra).
      lra.
    + intros Hexp. apply Qltb_lt in Hexp. rewrite Hexp in Hr.
      vm_compute in Hr. injection Hr as <- <-. lia.
    + intros Hcheap.
      destruct (Qltb 100 (p_price p)) eqn:Hexp; [apply Qltb_lt in Hexp; lra |].
      vm_compute in Hr. injection Hr as <- <-. lia.
Qed.

Lemma stock_and_price_follow_category_witness :
  ∃ ps s' p,
    generate_products (G := Scripted.numpy) (F := Scripted.faker) Scripted.two_lines
    = Ok (ps, s')
    ∧ p ∈ ps ∧ product_by_category p.
Proof.
  destruct (generate_products (G := Scripted.numpy) (F := Scripted.faker)
              Scripted.two_lines) as [[ps s'] |] eqn:Hrun; [| by vm_compute in Hrun].
  destruct ps as [| p ps]; [by vm_compute in Hrun |].
  exists (p :: ps), s', p. split; [done |].
  assert (Hp : p ∈ p :: ps) by apply list_elem_of_here.
  split; [exact Hp |].
  exact (proj1 (stock_and_price_follow_category Scripted.numpy Scripted.faker
                  _ _ _ _ Hrun Hp)).
Defined.

(** X4. The order loop needs an active customer and an active product: with
    both it never raises; with no active customer or no active product it
    either draws no order on any day and returns two empty tables, or stops
    with the ValueError of [rng.integers(0, 0)] at the first order it draws. *)
Theorem order_loop_needs_active_rows (G : NumpyRandom) (F : FakerSource)
    (customers : list Customer) (products : list Product) (s : GenState) :
  (filter (λ c, c_is_active c = true) customers ≠ [] →
   filter (λ p, p_is_active p = true) products ≠ [] →
   ∃ orders items s',
     generate_orders_and_items customers products s = Ok ((orders, items), s'))
  ∧ (filter (λ c, c_is_active c = true) customers = []
     ∨ filter (λ p, p_is_active p = true) products = [] →
     (∃ s', generate_orders_and_items customers products s = Ok (([], []), s'))
     ∨ generate_orders_and_items customers products s = Raise ValueError).
Proof.
  unfold generate_orders_and_items. split.
  - intros Hc Hp.
    destruct (day_loop_total days_in_range _ _ (date_range config).1
                (mk_acc [] [] 1 1) s Hc Hp) as (acc & s' & Hloop).
    exists (acc_orders acc), (acc_items acc), s'.
    by rewrite (bind_step _ _ _ _ _ Hloop).
  - intros Hempty.
    destruct (day_loop_no_choice days_in_range _ _ (date_range config).1
                (mk_acc [] [] 1 1) s Hempty) as [[s' Hloop] | Hloop].
    + left. exists s'. by rewrite (bind_step _ _ _ _ _ Hloop).
    + right. by apply bind_Raise.
Qed.

Lemma order_loop_needs_active_rows_witness :
  (∃ orders items s',
     generate_orders_and_items (G := Scripted.numpy) (F := Scripted.faker)
       [Scripted.customer] [Scripted.product] Scripted.two_lines
     = Ok ((orders, items), s'))
  ∧ ((∃ s', generate_orders_and_items (G := Scripted.numpy) (F := Scripted.faker)
              [] [Scripted.product] Scripted.two_lines = Ok (([], []), s'))
     ∨ generate_orders_and_items (G := Scripted.numpy) (F := Scripted.faker)
         [] [Scripted.product] Scripted.two_lines = Raise ValueError).
Proof.
  split.
  - apply (proj1 (order_loop_needs_active_rows Scripted.numpy Scripted.faker
                    [Scripted.customer] [Scripted.product] Scripted.two_lines));
      vm_compute; discriminate.
  - apply (proj2 (order_loop_needs_active_rows Scripted.numpy Scripted.faker
                    [] [Scripted.product] Scripted.two_lines)).
    left. reflexivity.
Defined.

(** X5. The day loop of the order generator ends: counting the days from
    the start of the range, its guard [current_date <= end] holds for each of
    the first 366 days, 1 January 2023 to 1 January 2024 with both ends, and
    fails from the next day on. *)
Theorem day_loop_visits_366_days (k : nat) :
  days_in_range = 366%nat
  ∧ (dt_le (Nat.iter k (λ d, dt_add d (timedelta_of 1 0)) (date_range config).1)
       (date_range config).2 = true
     ↔ (k < 366)%nat).
Proof.
  split; [reflexivity |].
  rewrite days_in_range_guard. change days_in_range with 366%nat.
  by rewrite bool_decide_eq_true.
Qed.

(** X6. The order ids of the generated orders count up from 1 in table
    order, and so do the item ids of the generated order items: both are
    unique keys. *)
Theorem order_and_item_ids_count_up (G : NumpyRandom) (F : FakerSource)
    (customers : list Customer) (products : list Product) (s : GenState)
    (orders : list Order) (items : list OrderItem) (s' : GenState) :
  generate_orders_and_items customers products s = Ok ((orders, items), s') →
  o_order_id <$> orders = seqZ 1 (Z.of_nat (length orders))
  ∧ oi_order_item_id <$> items = seqZ 1 (Z.of_nat (length items))
  ∧ NoDup (o_order_id <$> orders)
  ∧ NoDup (oi_order_item_id <$> items).
Proof.
  intros Hrun.
  destruct (generate_orders_and_items_blocks _ _ _ _ _ _ Hrun)
    as (blocks & _ & _ & _ & Ho).
  destruct (generate_orders_and_items_from _ _ _ _ _ _ Hrun) as (_ & _ & Hi).
  split; [done |]. split; [done |].
  rewrite Ho, Hi. split; apply NoDup_seqZ.
Qed.

Lemma order_and_item_ids_count_up_witness :
  o_order_id <$> [Scripted.two_lines_order] = seqZ 1 1
  ∧ oi_order_item_id <$> Scripted.two_lines_items = seqZ 1 2.
Proof.
  destruct (order_and_item_ids_count_up Scripted.numpy Scripted.faker _ _ _ _ _ _
              two_lines_run) as (Ho & Hi & _).
  split; [exact Ho | exact Hi].
Defined.

(** X7. The orders table is chronological: the day loop appends the orders
    day by day, so along the table the order ids and the order dates both
    never decrease: an order with a larger id is never dated earlier. *)
Theorem orders_table_is_chronological (G : NumpyRandom) (F : FakerSource)
    (customers : list Customer) (products : list Product) (s : GenState)
    (orders : list Order) (items : list OrderItem) (s' : GenState)
    (o1 o2 : Order) :
  generate_orders_and_items customers products s = Ok ((orders, items), s') →
  o1 ∈ orders → o2 ∈ orders →
  o_order_id o1 ≤ o_order_id o2 →
  dt_stamp (o_order_date o1) ≤ dt_stamp (o_order_date o2).
Proof.
  intros Hrun [i Hi]%list_elem_of_lookup [j Hj]%list_elem_of_lookup Hle.
  pose proof (generate_orders_and_items_chronological _ _ _ _ _ _ Hrun) as Hch.
  destruct (generate_orders_and_items_blocks _ _ _ _ _ _ Hrun)
    as (_ & _ & _ & _ & Hids).
  assert (Hid : ∀ k o, orders !! k = Some o → o_order_id o = 1 + Z.of_nat k).
  { intros k o Hk.
    assert (Hk' : (o_order_id <$> orders) !! k = Some (o_order_id o))
      by by rewrite list_lookup_fmap, Hk.
    rewrite Hids in Hk'. by apply lookup_seqZ in Hk' as [-> _]. }
  rewrite (Hid _ _ Hi), (Hid _ _ Hj) in Hle.
  apply (Hch i j); [lia | done | done].
Qed.

Lemma orders_table_is_chronological_witness :
  dt_stamp (o_order_date Scripted.first_day_order)
  ≤ dt_stamp (o_order_date Scripted.last_day_order).
Proof.
  apply (orders_table_is_chronological Scripted.numpy Scripted.faker _ _ _ _ _ _ _ _
           first_and_last_day_run).
  - apply list_elem_of_here.
  - apply list_elem_of_further, list_elem_of_here.
  - vm_compute. discriminate.
Defined.

(** X8. Every generated order is placed by an active customer of the input
    table and ships to that customer's country and city; every generated
    order item is of an active product of the input table and carries the id
    of a generated order. Inactive customers and products never occur. *)
Theorem generated_rows_reference_active_rows (G : NumpyRandom) (F : FakerSource)
    (customers : list Customer) (products : list Product) (s : GenState)
    (orders : list Order) (items : list OrderItem) (s' : GenState) :
  generate_orders_and_items customers products s = Ok ((orders, items), s') →
  (∀ o, o ∈ orders →
     ∃ c, c ∈ customers ∧ c_is_active c = true
          ∧ o_customer_id o = c_customer_id c
          ∧ o_shipping_country o = c_country c
          ∧ o_shipping_city o = c_city c)
  ∧ (∀ it, it ∈ items →
       (∃ p, p ∈ products ∧ p_is_active p = true ∧ oi_product_id it = p_product_id p)
       ∧ oi_order_id it ∈ o_order_id <$> orders).
Proof.
  intros Hrun.
  destruct (generate_orders_and_items_from _ _ _ _ _ _ Hrun) as (Hc & Hp & _).
  rewrite Forall_forall in Hc. rewrite Forall_forall in Hp.
  split.
  - intros o Ho. destruct (Hc o Ho) as (c & Hin & Hid & Hco & Hci).
    apply list_elem_of_filter in Hin as [Hact Hin]. by exists c.
  - intros it Hit. split.
    + destruct (Hp it Hit) as (p & d & Hin & _ & _ & Hid & _).
      apply list_elem_of_filter in Hin as [Hact Hin]. by exists p.
    + destruct (generate_orders_and_items_blocks _ _ _ _ _ _ Hrun)
        as (blocks & -> & -> & Hok & _).
      apply elem_of_concat in Hit as (its & Hit & Hits).
      apply list_elem_of_fmap in Hits as ([o its'] & -> & Hb).
      rewrite Forall_forall in Hok. specialize (Hok _ Hb).
      apply block_ids in Hok. rewrite Forall_forall in Hok.
      cbn [fst snd] in *. rewrite (Hok _ Hit).
      apply list_elem_of_fmap. exists o. split; [done |].
      apply list_elem_of_fmap. by exists (o, its').
Qed.

Lemma generated_rows_reference_active_rows_witness :
  ∃ c, c ∈ [Scripted.customer] ∧ c_is_active c = true
       ∧ o_customer_id Scripted.two_lines_order = c_customer_id c
       ∧ o_shipping_country Scripted.two_lines_order = c_country c
       ∧ o_shipping_city Scripted.two_lines_order = c_city c.
Proof.
  exact (proj1 (generated_rows_reference_active_rows Scripted.numpy Scripted.faker
                  _ _ _ _ _ _ two_lines_run) _ (list_elem_of_here _ _)).
Defined.

(** X9. The status of a generated order, week by week: an order placed in
    the last 7 days of the range is 'cancelled', one placed 7 to 13 days
    before its end 'delivered', 14 to 20 days 'shipped', 21 to 27 days
    'processing', and every older order 'pending'. *)
Theorem order_status_by_week (G : NumpyRandom) (F : FakerSource)
    (customers : list Customer) (products : list Product) (s : GenState)
    (orders : list Order) (items : list OrderItem) (s' : GenState) (o : Order) :
  generate_orders_and_items customers products s = Ok ((orders, items), s') →
  o ∈ orders →
  o_status o = status_of_age (days_ago (o_order_date o)).
Proof.
  intros Hrun Ho.
  destruct (generated_order_block _ _ _ _ _ _ _ Hrun Ho) as [_ _ Hdate Hstatus].
  destruct (days_ago_in_range _ Hdate) as [_ Hk].
  unfold status_at in Hstatus.
  assert (Hweek : ∀ k, 0 ≤ k →
            py_index (order_statuses config) (status_idx k) = Ok (status_of_age k)).
  { clear. intros k Hk. unfold status_idx, status_of_age.
    destruct (Z.ltb_spec k 7); [by rewrite Z.div_small by lia |].
    destruct (Z.ltb_spec k 14).
    { replace (k `div` 7) with 1 by (apply Z.div_unique with (k - 7); lia).
      reflexivity. }
    destruct (Z.ltb_spec k 21).
    { replace (k `div` 7) with 2 by (apply Z.div_unique with (k - 14); lia).
      reflexivity. }
    destruct (Z.ltb_spec k 28).
    { replace (k `div` 7) with 3 by (apply Z.div_unique with (k - 21); lia).
      reflexivity. }
    assert (4 ≤ k `div` 7) by (apply Z.div_le_lower_bound; lia).
    rewrite Z.max_l by lia. reflexivity. }
  rewrite Hweek in Hstatus by lia. by injection Hstatus.
Qed.

Lemma order_status_by_week_witness :
  o_status Scripted.first_day_order
  = status_of_age (days_ago (o_order_date Scripted.first_day_order)).
Proof.
  apply (order_status_by_week Scripted.numpy Scripted.faker _ _ _ _ _ _ _
           first_and_last_day_run).
  apply list_elem_of_here.
Defined.

(** X10. The unit price of a generated order item is the catalogue price of
    its product times a discount factor between 0.8 and 1, rounded to cents:
    when the catalogue prices are whole numbers of cents, as those of
    [generate_products] are, an item never costs more than its product's
    catalogue price and never less than 80% of it, up to half a cent of
    rounding. *)
Theorem unit_price_within_discount_band (G : NumpyRandom) (F : FakerSource)
    (customers : list Customer) (products : list Product) (s : GenState)
    (orders : list Order) (items : list OrderItem) (s' : GenState) :
  generate_orders_and_items customers products s = Ok ((orders, items), s') →
  (∀ p, p ∈ products → ∃ cents : Z, 0 ≤ cents ∧ (p_price p == cents # 100)%Q) →
  ∀ it, it ∈ items →
    ∃ p, p ∈ products ∧ p_is_active p = true ∧ oi_product_id it = p_product_id p
         ∧ (oi_unit_price it <= p_price p)%Q
         ∧ ((8 # 10) * p_price p - (1 # 200) <= oi_unit_price it)%Q.
Proof.
  intros Hrun Hprices it Hit.
  destruct (generate_orders_and_items_from _ _ _ _ _ _ Hrun) as (_ & Hp & _).
  rewrite Forall_forall in Hp.
  destruct (Hp it Hit) as (p & d & Hin & Hdlo & Hdhi & Hid & Hunit & _).
  apply list_elem_of_filter in Hin as [Hact Hin].
  exists p. split; [done |]. split; [done |]. split; [done |].
  destruct (Hprices p Hin) as (cents & Hc & Hprice). rewrite Hunit.
  assert (H0 : (0 # 100 <= cents # 100)%Q) by (by apply (proj1 (cents_le 0 cents))).
  split.
  - apply Qle_trans with (cents # 100); [apply round2_le; nra | lra].
  - pose proof (round2_near (p_price p * d)) as Hnear.
    apply Qabs_Qle_condition in Hnear. nra.
Qed.

Lemma unit_price_within_discount_band_witness :
  ∃ p, p ∈ [Scripted.product] ∧ p_is_active p = true
       ∧ oi_product_id (mk_order_item 1 1 1 1 (900 # 100) (900 # 100)) = p_product_id p
       ∧ (oi_unit_price (mk_order_item 1 1 1 1 (900 # 100) (900 # 100)) <= p_price p)%Q
       ∧ ((8 # 10) * p_price p - (1 # 200)
          <= oi_unit_price (mk_order_item 1 1 1 1 (900 # 100) (900 # 100)))%Q.
Proof.
  apply (unit_price_within_discount_band Scripted.numpy Scripted.faker
           _ _ _ _ _ _ two_lines_run).
  - intros p Hp. apply list_elem_of_singleton in Hp as ->.
    exists 1000. split; [lia | reflexivity].
  - apply list_elem_of_here.
Defined.

(** X11. The subtotal of a generated item is within one cent of quantity
    times unit price: both are rounded from the same unrounded price, the
    subtotal after and the unit price before the multiplication by the
    quantity. *)
Theorem subtotal_within_a_cent_of_quantity_times_unit_price (G : NumpyRandom)
    (F : FakerSource) (customers : list Customer) (products : list Product)
    (s : GenState) (orders : list Order) (items : list OrderItem) (s' : GenState)
    (it : OrderItem) :
  generate_orders_and_items customers products s = Ok ((orders, items), s') →
  it ∈ items →
  (Qabs (oi_subtotal it - inject_Z (oi_quantity it) * oi_unit_price it) <= 1 # 100)%Q.
Proof.
  intros Hrun Hit.
  destruct (generate_orders_and_items_blocks _ _ _ _ _ _ Hrun)
    as (blocks & _ & -> & Hok & _).
  apply elem_of_concat in Hit as (its & Hit & Hits).
  apply list_elem_of_fmap in Hits as ([o its'] & -> & Hb).
  rewrite Forall_forall in Hok.
  destruct (Hok _ Hb) as [_ (xs & Hlines & _) _ _]. cbn [fst snd] in *.
  apply list_elem_of_lookup in Hit as [i Hi].
  destruct (Forall2_lookup_r _ _ _ _ _ Hlines Hi) as (x & _ & Hline).
  by eapply order_line_within_a_cent.
Qed.

Lemma subtotal_within_a_cent_of_quantity_times_unit_price_witness :
  (Qabs (oi_subtotal (mk_order_item 1 1 1 1 (900 # 100) (900 # 100))
         - inject_Z (oi_quantity (mk_order_item 1 1 1 1 (900 # 100) (900 # 100)))
           * oi_unit_price (mk_order_item 1 1 1 1 (900 # 100) (900 # 100)))
   <= 1 # 100)%Q.
Proof.
  apply (subtotal_within_a_cent_of_quantity_times_unit_price Scripted.numpy
           Scripted.faker _ _ _ _ _ _ _ two_lines_run).
  apply list_elem_of_here.
Defined.

(** X13. The orders and items the generator derives pass its own validator:
    orders and items generated from customers and products whose prices are
    positive satisfy the seven assertions of [_validate_data_integrity],
    together with any payments that each pay for one of these orders. (At
    least one order and one payment are required: a frame built from no rows
    has no columns for the validator to read.) *)
Theorem generated_orders_pass_validator (G : NumpyRandom) (F : FakerSource)
    (customers : list Customer) (products : list Product) (s : GenState)
    (orders : list Order) (items : list OrderItem) (s1 : GenState)
    (payments : list Payment) :
  generate_orders_and_items customers products s = Ok ((orders, items), s1) →
  orders ≠ [] →
  (∀ p, p ∈ products → (0 < p_price p)%Q) →
  payments ≠ [] →
  (∀ p, p ∈ payments → pay_order_id p ∈ o_order_id <$> orders) →
  _validate_data_integrity customers products orders items payments = Ok ().
Proof.
  intros Hrun _ Hprices _ Hpays. apply validate_Ok.
  destruct (generate_orders_and_items_from _ _ _ _ _ _ Hrun) as (Hc & Hp & _).
  rewrite Forall_forall in Hc. rewrite Forall_forall in Hp.
  destruct (generate_orders_and_items_blocks _ _ _ _ _ _ Hrun)
    as (blocks & Horders & Hitems & Hok & _).
  assert (Hline : ∀ it, it ∈ items →
            oi_order_id it ∈ o_order_id <$> orders
            ∧ (oi_quantity it = 1 ∨ oi_quantity it = 2)).
  { intros it Hit. rewrite Hitems in Hit. rewrite Horders.
    apply elem_of_concat in Hit as (its & Hit & Hits).
    apply list_elem_of_fmap in Hits as ([o its'] & -> & Hb).
    rewrite Forall_forall in Hok. specialize (Hok _ Hb).
    destruct Hok as [_ (xs & Hlines & _) _ _]. cbn [fst snd] in *.
    apply Forall2_flip, Forall2_Forall_l with (Q := λ it,
        oi_order_id it = o_order_id o ∧ (oi_quantity it = 1 ∨ oi_quantity it = 2))
      in Hlines.
    - rewrite Forall_forall in Hlines. destruct (Hlines _ Hit) as [-> Hq].
      split; [| done]. apply list_elem_of_fmap. exists o. split; [done |].
      apply list_elem_of_fmap. by exists (o, its').
    - apply Forall_forall. intros x _ it' (Hid & Hq & _). done. }
  repeat split.
  - intros o Ho. destruct (Hc o Ho) as (c & Hin & -> & _).
    apply list_elem_of_filter in Hin as [_ Hin].
    apply list_elem_of_fmap. by exists c.
  - intros it Hit. by apply Hline.
  - intros it Hit. destruct (Hp it Hit) as (p & d & Hin & _ & _ & -> & _).
    apply list_elem_of_filter in Hin as [_ Hin].
    apply list_elem_of_fmap. by exists p.
  - done.
  - intros it Hit. destruct (Hline it Hit) as [_ [-> | ->]]; lia.
  - intros it Hit. destruct (Hp it Hit) as (p & d & Hin & Hlo & _ & _ & -> & _).
    apply list_elem_of_filter in Hin as [_ Hin]. specialize (Hprices p Hin).
    apply round2_nonneg. nra.
  - done.
Qed.

Lemma generated_orders_pass_validator_witness :
  _validate_data_integrity [Scripted.customer] [Scripted.product]
    [Scripted.two_lines_order] Scripted.two_lines_items [Scripted.two_lines_payment]
  = Ok ().
Proof.
  apply (generated_orders_pass_validator Scripted.numpy Scripted.faker
           _ _ _ _ _ _ _ two_lines_run).
  - discriminate.
  - intros p Hp. apply list_elem_of_singleton in Hp as ->. reflexivity.
  - discriminate.
  - intros p Hp. apply list_elem_of_singleton in Hp as ->. apply list_elem_of_here.
Defined.

(** X14. The validator looks at the payments only for their order ids: it
    does not require one payment per order. Tables it accepts are still
    accepted when payments are repeated or left out. *)
Theorem validator_ignores_payment_multiplicity (cs : list Customer)
    (ps : list Product) (os : list Order) (its : list OrderItem)
    (pays pays' : list Payment) :
  _validate_data_integrity cs ps os its pays = Ok () →
  (∀ p, p ∈ pays' → p ∈ pays) →
  _validate_data_integrity cs ps os its pays' = Ok ().
Proof.
  rewrite !validate_Ok. intros (H1 & H2 & H3 & H4 & H5 & H6 & H7) Hsub.
  repeat split; auto.
Qed.

Lemma validator_ignores_payment_multiplicity_witness :
  _validate_data_integrity [Scripted.customer] [Scripted.product]
    [Scripted.two_lines_order] Scripted.two_lines_items
    [mk_payment 1 1 "paypal" (1801 # 100) "completed"
       (mk_datetime 738521 18000) "123e4567-e89b-42" (10 # 100);
     mk_payment 1 1 "paypal" (1801 # 100) "completed"
       (mk_datetime 738521 18000) "123e4567-e89b-42" (10 # 100)]
  = Ok ().
Proof.
  apply (validator_ignores_payment_multiplicity _ _ _ _
           [mk_payment 1 1 "paypal" (1801 # 100) "completed"
              (mk_datetime 738521 18000) "123e4567-e89b-42" (10 # 100)]).
  - vm_compute. reflexivity.
  - intros p [-> | [-> | []%elem_of_nil]%elem_of_cons]%elem_of_cons;
      apply list_elem_of_here.
Defined.

(** ** The quick generator *)

(** X15. [generate_quick_data] never raises, whatever the random sources
    and the clock, and its frames have fixed sizes and keys: customer ids 1
    to 50, product ids 1 to 30, order ids 1 to 100, and 100 payments whose
    payment id and order id both run from 1 to 100. *)
Theorem quick_data_never_raises (L : NumpyRandom) (F : FakerSource) (w : QuickState) :
  ∃ d w', generate_quick_data w = Ok (d, w')
    ∧ c_customer_id <$> customers d = seqZ 1 50
    ∧ p_product_id <$> products d = seqZ 1 30
    ∧ o_order_id <$> orders d = seqZ 1 100
    ∧ pay_payment_id <$> payments d = seqZ 1 100
    ∧ pay_order_id <$> payments d = seqZ 1 100.
Proof.
  destruct (generate_quick_data_total w) as (d & w' & Hrun).
  exists d, w'. split; [done |].
  destruct (generate_quick_data_frames _ _ _ Hrun)
    as (Hc & Hp & _ & _ & _ & _ & Hpay & Hpo & _).
  destruct (generate_quick_data_spec _ _ _ Hrun) as (Ho & _).
  by repeat split.
Qed.

(** X16. The quick data has the referential integrity the validator of the
    full generator asks for: every order names one of the 50 customers, every
    item an existing order and one of the 30 products, every payment an
    existing order; quantities are positive, unit prices not negative and
    product prices positive. *)
Theorem quick_data_has_referential_integrity (L : NumpyRandom) (F : FakerSource)
    (w : QuickState) (d : Datasets) (w' : QuickState) :
  generate_quick_data w = Ok (d, w') →
  integrity (customers d) (products d) (orders d) (order_items d) (payments d)
  ∧ _validate_data_integrity (customers d) (products d) (orders d) (order_items d)
      (payments d) = Ok ().
Proof.
  intros Hrun.
  assert (Hint : integrity (customers d) (products d) (orders d) (order_items d)
                   (payments d)); [| split; [done | by apply validate_Ok]].
  destruct (generate_quick_data_frames _ _ _ Hrun)
    as (Hc & Hp & Hprod & Hord & _ & Hrows & _ & Hpo & _).
  destruct (generate_quick_data_spec _ _ _ Hrun) as (Ho & (bs & Hitems & Hbs) & _).
  rewrite Forall_forall in Hprod. rewrite Forall_forall in Hord.
  rewrite Forall_forall in Hrows.
  repeat split.
  - intros o Hin. rewrite Hc. apply elem_of_seqZ.
    destruct (Hord o Hin) as (? & _). lia.
  - intros it Hit. rewrite Hitems in Hit.
    apply elem_of_concat in Hit as (its & Hit & Hits).
    apply list_elem_of_lookup in Hits as [i Hi].
    destruct (Forall2_lookup_r _ _ _ _ _ Hbs Hi) as (o & Ho' & _ & Hall).
    rewrite Forall_forall in Hall. destruct (Hall _ Hit) as [-> _].
    apply list_elem_of_fmap. exists o. split; [done |].
    by eapply list_elem_of_lookup_2.
  - intros it Hit. destruct (Hrows it Hit) as (p & Hin & <- & _).
    apply list_elem_of_fmap. by exists p.
  - intros p Hin. rewrite Ho, <- Hpo. apply list_elem_of_fmap. by exists p.
  - intros it Hit. destruct (Hrows it Hit) as (p & _ & _ & [-> | ->] & _); lia.
  - intros it Hit. destruct (Hrows it Hit) as (p & Hin & _ & _ & -> & _).
    destruct (Hprod p Hin) as (_ & _ & Hlo & _). lra.
  - intros p Hin. destruct (Hprod p Hin) as (_ & _ & Hlo & _). lra.
Qed.

Lemma quick_data_has_referential_integrity_witness :
  ∃ d w', generate_quick_data (L := Scripted.numpy) (F := Scripted.faker)
            Scripted.quick = Ok (d, w')
          ∧ _validate_data_integrity (customers d) (products d) (orders d)
              (order_items d) (payments d) = Ok ().
Proof.
  destruct quick_run as (d & w' & Hrun).
  exists d, w'. split; [exact Hrun |].
  exact (proj2 (quick_data_has_referential_integrity Scripted.numpy Scripted.faker
                  _ _ _ Hrun)).
Defined.

(** X17. In the quick data an item is priced from the catalogue: its unit
    price is the price of the product it names, and its subtotal is exactly
    quantity times unit price (the price being a whole number of cents,
    rounding the product changes nothing); item ids count up from 1. *)
Theorem quick_items_priced_from_catalogue (L : NumpyRandom) (F : FakerSource)
    (w : QuickState) (d : Datasets) (w' : QuickState) :
  generate_quick_data w = Ok (d, w') →
  oi_order_item_id <$> order_items d = seqZ 1 (Z.of_nat (length (order_items d)))
  ∧ ∀ it, it ∈ order_items d →
      (∃ p, p ∈ products d ∧ p_product_id p = oi_product_id it
            ∧ oi_unit_price it = p_price p)
      ∧ (oi_subtotal it == inject_Z (oi_quantity it) * oi_unit_price it)%Q.
Proof.
  intros Hrun.
  destruct (generate_quick_data_frames _ _ _ Hrun)
    as (_ & _ & Hprod & _ & Hids & Hrows & _).
  split; [done |]. intros it Hit.
  rewrite Forall_forall in Hprod. rewrite Forall_forall in Hrows.
  destruct (Hrows it Hit) as (p & Hin & Hid & _ & Hunit & Hsub).
  split; [by exists p |].
  destruct (Hprod p Hin) as (_ & (x & Hx) & _).
  rewrite Hsub, Hunit, Hx. symmetry. apply round2_whole_cents.
Qed.

Lemma quick_items_priced_from_catalogue_witness :
  ∃ d w', generate_quick_data (L := Scripted.numpy) (F := Scripted.faker)
            Scripted.quick = Ok (d, w')
          ∧ oi_order_item_id <$> order_items d
            = seqZ 1 (Z.of_nat (length (order_items d))).
Proof.
  destruct quick_run as (d & w' & Hrun).
  exists d, w'. split; [exact Hrun |].
  exact (proj1 (quick_items_priced_from_catalogue Scripted.numpy Scripted.faker
                  _ _ _ Hrun)).
Defined.

(** X18. The value ranges of the quick data: a product costs between 10.00
    and 200.00, has a cost price between 5.00 and 100.00 (drawn on its own, so
    not tied to the price) and a stock of 10 to 99; the total of an order is
    between 20.00 and 500.00, drawn on its own and not computed from the
    order's items; categories, statuses and payment methods come from the
    lists in the code. *)
Theorem quick_data_value_ranges (L : NumpyRandom) (F : FakerSource)
    (w : QuickState) (d : Datasets) (w' : QuickState) :
  generate_quick_data w = Ok (d, w') →
  (∀ p, p ∈ products d →
     p_category p ∈ ["Electronics"; "Clothing"; "Home & Garden"; "Books"]
     ∧ (10 <= p_price p)%Q ∧ (p_price p <= 200)%Q
     ∧ (5 <= p_cost_price p)%Q ∧ (p_cost_price p <= 100)%Q
     ∧ 10 ≤ p_stock_quantity p ≤ 99)
  ∧ (∀ o, o ∈ orders d →
       o_status o ∈ ["pending"; "processing"; "shipped"; "delivered"; "cancelled"]
       ∧ (20 <= o_total_amount o)%Q ∧ (o_total_amount o <= 500)%Q)
  ∧ (∀ p, p ∈ payments d →
       pay_payment_method p ∈ ["credit_card"; "debit_card"; "paypal"]
       ∧ pay_payment_status p ∈ ["completed"; "failed"; "refunded"]).
Proof.
  intros Hrun.
  destruct (generate_quick_data_frames _ _ _ Hrun)
    as (_ & _ & Hprod & Hord & _ & _ & _ & _ & Hpay).
  rewrite Forall_forall in Hprod. rewrite Forall_forall in Hord.
  rewrite Forall_forall in Hpay.
  split; [| split].
  - intros p Hin. destruct (Hprod p Hin) as (? & _ & ? & ? & ? & ? & ?).
    repeat split; try done; try lra; lia.
  - intros o Hin. destruct (Hord o Hin) as (_ & ? & ? & ?).
    repeat split; try done; lra.
  - intros p Hin. by apply Hpay.
Qed.

Lemma quick_data_value_ranges_witness :
  ∃ d w', generate_quick_data (L := Scripted.numpy) (F := Scripted.faker)
            Scripted.quick = Ok (d, w')
          ∧ ∀ o, o ∈ orders d → (20 <= o_total_amount o)%Q ∧ (o_total_amount o <= 500)%Q.
Proof.
  destruct quick_run as (d & w' & Hrun).
  exists d, w'. split; [exact Hrun |].
  intros o Ho.
  destruct (proj1 (proj2 (quick_data_value_ranges Scripted.numpy Scripted.faker
                            _ _ _ Hrun)) o Ho) as (_ & Hlo & Hhi).
  by split.
Defined.

(** ** Ingestion *)

(** X19. The flag of a validation is False exactly when an issue is
    recorded: [is_valid] is True if and only if the list of issues is empty. *)
Theorem validation_flag_matches_issues (df : Ingestion.DataFrame) (table_name : string) :
  Ingestion.is_valid (Ingestion.validate_data_quality df table_name) = true
  ↔ Ingestion.issues (Ingestion.validate_data_quality df table_name) = [].
Proof.
  unfold Ingestion.validate_data_quality.
  set (v1 := match Ingestion.critical_columns !! table_name with
             | Some cols => _
             | None => _
             end).
  assert (Hv1 : Ingestion.is_valid v1 = true ↔ Ingestion.issues v1 = []).
  { unfold v1. destruct (Ingestion.critical_columns !! table_name); [| done].
    by apply check_null_flag. }
  destruct (if Ingestion.has_column df "quantity" then _ else _) as [[] |];
    [| | apply add_issue_flag];
    (destruct (if Ingestion.has_column df "price" then _ else _) as [[] |];
     [apply add_issue_flag | | apply add_issue_flag]);
    first [apply add_issue_flag | exact Hv1].
Qed.

(** X20. What the data-quality validation accepts: a frame is valid exactly
    when no critical column of the table that the frame has holds a null, the
    [quantity] column, if present, holds only numbers above 0 or nulls, and
    the [price] column, if present, holds only numbers that are not negative
    or nulls. Text in one of these two columns makes the frame invalid;
    a missing critical column, an unknown table name and a price of 0 do
    not. *)
Theorem validation_passes_exactly_when (df : Ingestion.DataFrame) (table_name : string) :
  Ingestion.is_valid (Ingestion.validate_data_quality df table_name) = true
  ↔ (∀ cols col, Ingestion.critical_columns !! table_name = Some cols →
                 col ∈ cols → Ingestion.has_column df col = true →
                 Forall (λ c, Ingestion.is_null c = false) (Ingestion.column df col))
    ∧ (Ingestion.has_column df "quantity" = true →
       Forall (λ c, Ingestion.cell_le0 c = Ok false) (Ingestion.column df "quantity"))
    ∧ (Ingestion.has_column df "price" = true →
       Forall (λ c, Ingestion.cell_lt0 c = Ok false) (Ingestion.column df "price")).
Proof.
  unfold Ingestion.validate_data_quality.
  set (v1 := match Ingestion.critical_columns !! table_name with
             | Some cols => _
             | None => _
             end).
  assert (Hv1 : Ingestion.is_valid v1 = true
                ↔ ∀ cols col, Ingestion.critical_columns !! table_name = Some cols →
                    col ∈ cols → Ingestion.has_column df col = true →
                    Forall (λ c, Ingestion.is_null c = false) (Ingestion.column df col)).
  { unfold v1. destruct (Ingestion.critical_columns !! table_name) as [cols |].
    - rewrite check_null_valid. split.
      + intros [_ H] cols' col [= <-]. apply H.
      + intros H. split; [done |]. intros col. by apply H.
    - split; [by intros _ cols col ? | done]. }
  rewrite <- Hv1. clear Hv1.
  assert (Hq : (if Ingestion.has_column df "quantity"
                then Ingestion.any_cell Ingestion.cell_le0 (Ingestion.column df "quantity")
                else Ok false) = Ok false
               ↔ (Ingestion.has_column df "quantity" = true →
                  Forall (λ c, Ingestion.cell_le0 c = Ok false)
                    (Ingestion.column df "quantity"))).
  { destruct (Ingestion.has_column df "quantity").
    - rewrite any_cell_false. split; [by intros ? _ | by intros H; apply H].
    - split; [by intros _ ? | done]. }
  assert (Hp : (if Ingestion.has_column df "price"
                then Ingestion.any_cell Ingestion.cell_lt0 (Ingestion.column df "price")
                else Ok false) = Ok false
               ↔ (Ingestion.has_column df "price" = true →
                  Forall (λ c, Ingestion.cell_lt0 c = Ok false)
                    (Ingestion.column df "price"))).
  { destruct (Ingestion.has_column df "price").
    - rewrite any_cell_false. split; [by intros ? _ | by intros H; apply H].
    - split; [by intros _ ? | done]. }
  rewrite <- Hq, <- Hp. clear Hq Hp.
  destruct (if Ingestion.has_column df "quantity" then _ else _) as [[] |];
    destruct (if Ingestion.has_column df "price" then _ else _) as [[] |];
    cbn; intuition congruence.
Qed.

(** X21. The record made from a row keeps exactly the columns of the file
    that the table's model has, each with the cell at the column's position in
    the row; columns of the file unknown to the model are dropped, and
    attributes of the model missing from the file are not set. *)
Theorem record_keeps_model_columns (model cols : list string)
    (row : list Ingestion.cell) (col : string) :
  NoDup cols →
  (∀ j, cols !! j = Some col → col ∈ model →
        Ingestion.record_data model cols row !! col = Some (nth j row Ingestion.Null))
  ∧ (col ∉ cols ∨ col ∉ model → Ingestion.record_data model cols row !! col = None).
Proof.
  intros Hnd.
  destruct (record_data_from model row cols 0 ∅ col Hnd) as [Hin Hout].
  split.
  - intros j Hj Hm. by apply Hin.
  - intros H. transitivity ((∅ : gmap string Ingestion.cell) !! col);
      [exact (Hout H) | apply lookup_empty].
Qed.

Lemma record_keeps_model_columns_witness :
  Ingestion.record_data ["product_id"; "price"] ["product_id"; "colour"; "price"]
    [Ingestion.IntCell 1; Ingestion.StrCell "red"; Ingestion.FloatCell 10] !! "price"
  = Some (Ingestion.FloatCell 10)
  ∧ Ingestion.record_data ["product_id"; "price"] ["product_id"; "colour"; "price"]
      [Ingestion.IntCell 1; Ingestion.StrCell "red"; Ingestion.FloatCell 10] !! "colour"
    = None.
Proof.
  assert (Hnd : NoDup ["product_id"; "colour"; "price"]).
  { apply (bool_decide_unpack _). vm_compute. exact I. }
  split.
  - apply (proj1 (record_keeps_model_columns ["product_id"; "price"]
                    ["product_id"; "colour"; "price"]
                    [Ingestion.IntCell 1; Ingestion.StrCell "red"; Ingestion.FloatCell 10]
                    "price" Hnd) 2%nat); [reflexivity |].
    apply list_elem_of_further, list_elem_of_here.
  - apply (proj2 (record_keeps_model_columns ["product_id"; "price"]
                    ["product_id"; "colour"; "price"]
                    [Ingestion.IntCell 1; Ingestion.StrCell "red"; Ingestion.FloatCell 10]
                    "colour" Hnd)).
    right. intros Hin. by vm_compute in Hin; repeat
      (apply elem_of_cons in Hin as [Hin | Hin]; [discriminate |]);
      apply elem_of_nil in Hin.
Defined.


(** X23. A failed table has no effect on the rest of the run, whatever made
    it fail (a missing or unreadable file, invalid data, an error of the
    store): when a table is flagged False, the flags of the other tables and
    the final store are those of the run over the other four files. *)
Theorem failed_table_leaves_the_rest_alone (St : Ingestion.Store)
    (env : Ingestion.Env) (db : Ingestion.database) (table_name : string) :
  Ingestion.data_dir_exists env = true →
  (Ingestion.ingest_all_data env db).1 !! table_name = Some false →
  Ingestion.ingest_all_data env db
  = (let '(results, db') :=
       Ingestion.ingest_files
         (filter (λ f, f ≠ table_name +:+ ".csv") Ingestion.ingestion_order) env db in
     (<[table_name := false]> results, db')).
Proof. apply ingest_all_data_failed_table. Qed.

Lemma failed_table_leaves_the_rest_alone_witness :
  Ingestion.ingest_all_data (St := Scripted.store) Scripted.data_dir []
  = (let '(results, db') :=
       Ingestion.ingest_files (St := Scripted.store)
         (filter (λ f, f ≠ "orders" +:+ ".csv") Ingestion.ingestion_order)
         Scripted.data_dir [] in
     (<["orders" := false]> results, db')).
Proof.
  apply (failed_table_leaves_the_rest_alone Scripted.store Scripted.data_dir []
           "orders").
  - reflexivity.
  - vm_compute. reflexivity.
Defined.



(** X25. The report of a run over an existing data directory: its entries
    are always computed (five flags, no division by zero), its success rate is
    one of 0.0%, 20.0%, 40.0%, 60.0%, 80.0% and 100.0%, and it is 100.0%
    exactly when every table was ingested. For an empty result the rate
    cannot be computed: it divides by the number of tables. *)
Theorem report_success_rate (St : Ingestion.Store) (env : Ingestion.Env)
    (db : Ingestion.database) :
  Ingestion._generate_ingestion_report ∅ = None
  ∧ (Ingestion.data_dir_exists env = true →
     ∃ report,
       Ingestion._generate_ingestion_report (Ingestion.ingest_all_data env db).1
       = Some report
       ∧ Ingestion.ingestion_results report = (Ingestion.ingest_all_data env db).1
       ∧ Ingestion.success_rate report
         ∈ ["0.0%"; "20.0%"; "40.0%"; "60.0%"; "80.0%"; "100.0%"]
       ∧ (Ingestion.success_rate report = "100.0%"
          ↔ ∀ t b, (Ingestion.ingest_all_data env db).1 !! t = Some b → b = true)).
Proof.
  split; [reflexivity |]. intros Hdir.
  pose proof (ingest_all_data_dom env db Hdir) as Hdom.
  set (results := (Ingestion.ingest_all_data env db).1) in *.
  assert (Hsize : size results = 5%nat).
  { rewrite <- size_dom, Hdom. reflexivity. }
  pose proof (success_count_all results) as Hall. rewrite Hsize in Hall.
  rewrite all_values_true in Hall.
  assert (Hle : (Ingestion.success_count results ≤ 5)%nat).
  { unfold Ingestion.success_count. rewrite <- Hsize, <- length_map_to_list.
    apply length_filter. }
  unfold Ingestion._generate_ingestion_report.
  rewrite bool_decide_eq_false_2 by lia. eexists. split; [reflexivity |].
  cbn [Ingestion.ingestion_results Ingestion.success_rate]. split; [done |].
  rewrite Hsize, <- Hall.
  destruct (Ingestion.success_count results) as [| [| [| [| [| [| n]]]]]]; [.. | lia];
    match goal with
    | |- context [Ingestion.format_1f ?x +:+ "%"] =>
        let r := eval vm_compute in (Ingestion.format_1f x +:+ "%") in
        change (Ingestion.format_1f x +:+ "%") with r
    end;
    (split; [by vm_compute; repeat constructor | split; [discriminate | lia]]) ||
    (split; [repeat (first [apply list_elem_of_here | apply list_elem_of_further])
            | split; [discriminate | lia]]) ||
    (split; [repeat (first [apply list_elem_of_here | apply list_elem_of_further])
            | done]).
Qed.

Lemma report_success_rate_witness :
  ∃ report,
    Ingestion._generate_ingestion_report
      (Ingestion.ingest_all_data (St := Scripted.store) Scripted.data_dir []).1
    = Some report
    ∧ Ingestion.success_rate report
      ∈ ["0.0%"; "20.0%"; "40.0%"; "60.0%"; "80.0%"; "100.0%"].
Proof.
  destruct (proj2 (report_success_rate Scripted.store Scripted.data_dir [])
              eq_refl) as (report & Hreport & _ & Hrate & _).
  exists report. by split.
Defined.

(** ** The pipeline script *)

(** Close a case of the pipeline: the script has ended, every conjunct is
    read off the outcome. *)
Ltac pipeline_ends :=
  cbn [Pipeline.exit_code fst snd];
  repeat split;
  try (intros; (congruence || lia));
  try (intros (? & ? & ? & ?); congruence);
  try (by left); try (by right).

(** X26. The pipeline script runs its four commands in order, each on the
    machine the one before left, and stops at the first that does not finish
    with status 0: the commands after it are not run. It ends with exit
    status 0 exactly when all four commands finished with status 0, and with
    status 1 otherwise. *)
Theorem pipeline_stops_at_first_failure (Sh : Pipeline.Shell) (m : Pipeline.machine) :
  let r1 := Pipeline.subprocess_run Pipeline.generate_command m in
  let r2 := Pipeline.subprocess_run Pipeline.ingest_command r1.2 in
  let r3 := Pipeline.subprocess_run Pipeline.test_data_command r2.2 in
  let r4 := Pipeline.subprocess_run Pipeline.test_queries_command r3.2 in
  (Pipeline.exit_code (Pipeline.main m).1 = 0
   ↔ r1.1 = Some 0 ∧ r2.1 = Some 0 ∧ r3.1 = Some 0 ∧ r4.1 = Some 0)
  ∧ (Pipeline.exit_code (Pipeline.main m).1 = 0
     ∨ Pipeline.exit_code (Pipeline.main m).1 = 1)
  ∧ (r1.1 ≠ Some 0 → (Pipeline.main m).2 = r1.2)
  ∧ (r1.1 = Some 0 → r2.1 ≠ Some 0 → (Pipeline.main m).2 = r2.2)
  ∧ (r1.1 = Some 0 → r2.1 = Some 0 → r3.1 ≠ Some 0 → (Pipeline.main m).2 = r3.2)
  ∧ (r1.1 = Some 0 → r2.1 = Some 0 → r3.1 = Some 0 → (Pipeline.main m).2 = r4.2).
Proof.
  cbn zeta. unfold Pipeline.main, Pipeline.step, Pipeline.run_command.
  destruct (Pipeline.subprocess_run Pipeline.generate_command m) as [[rc1 |] m1];
    cbn [fst snd]; [| pipeline_ends].
  destruct (Z.eqb_spec rc1 0) as [-> | Hrc1]; [| pipeline_ends].
  destruct (Pipeline.subprocess_run Pipeline.ingest_command m1) as [[rc2 |] m2];
    cbn [fst snd]; [| pipeline_ends].
  destruct (Z.eqb_spec rc2 0) as [-> | Hrc2]; [| pipeline_ends].
  destruct (Pipeline.subprocess_run Pipeline.test_data_command m2) as [[rc3 |] m3];
    cbn [fst snd]; [| pipeline_ends].
  destruct (Z.eqb_spec rc3 0) as [-> | Hrc3]; [| pipeline_ends].
  destruct (Pipeline.subprocess_run Pipeline.test_queries_command m3) as [[rc4 |] m4];
    cbn [fst snd]; [| pipeline_ends].
  destruct (Z.eqb_spec rc4 0) as [-> | Hrc4]; pipeline_ends.
Qed.
